(** * Investment dashboard backend: position valuation, returns and
      net-new-money aggregation

    A shallow embedding of the calculation core of the backend
    ([app/models/allocation.py], [app/utils/calculations.py],
    [app/api/v1/allocations.py], [app/api/v1/dashboard.py]) together with
    the properties stated about it.

    Numbers.  Python [Decimal] values are modelled as canonical rationals
    ([Qc]); sums, differences and products are exact, as they are in
    Python while a result has at most 28 significant digits.  The quotient
    that [calculate_daily_returns] converts to [float] is rounded to the 28
    digits of the decimal context ([Py.truediv]); the quotients of the
    percentages are exact.  A row read back from the allocations table
    holds its [Numeric] columns rounded to their scale
    ([Column.Numeric]).
    Python [float] values are IEEE binary64 numbers ([PrimFloat.float]);
    [calculate_twr] computes on them with the rounding of the hardware, and
    [float(d)] is the binary64 number nearest to the rational [d].

    Time.  A [date] is its proleptic Gregorian ordinal ([date.toordinal()]),
    a [datetime] an instant counted in microseconds from the midnight that
    starts ordinal day 0; both are integers, ordered as in Python. *)

From Stdlib Require Import ZArith QArith Qcanon Floats Lia.
From stdpp Require Import base option list sorting gmap strings.

Local Open Scope Z_scope.

Abbreviation Decimal := Qc.
Abbreviation date := Z.
Abbreviation datetime := Z.

(** ** Python's truth value and comparisons on [Decimal] *)

Module Py.

(** [Decimal(n)] for an integer [n], and [Decimal(n) / Decimal(d)] written
    as a fraction for literals such as [Decimal('0.2')]. *)
Definition dec (n : Z) : Decimal := Q2Qc (inject_Z n).

Definition frac (n : Z) (d : positive) : Decimal := Q2Qc (n # d).

(** [bool(d)] for a [Decimal]: false exactly at zero. *)
Definition truthy (d : Decimal) : bool := negb (Qeq_bool d 0).

(** [a > b] and [a >= b]. *)
Definition gt (a b : Decimal) : bool :=
  match (a ?= b)%Qc with Gt => true | _ => false end.

Definition ge (a b : Decimal) : bool :=
  match (a ?= b)%Qc with Lt => false | _ => true end.

(** [x or d] where [x] is an optional [Decimal]: [None] and zero are falsy. *)
Definition decimal_or (x : option Decimal) (d : Decimal) : Decimal :=
  match x with
  | Some v => if truthy v then v else d
  | None => d
  end.

(** [x or d] where [x] is an optional [datetime]: every datetime is truthy. *)
Definition datetime_or (x : option datetime) (d : datetime) : datetime :=
  match x with
  | Some v => v
  | None => d
  end.

(** [float(d)] for a [Decimal]: the binary64 number nearest to [d], ties
    to even, computed by the division of the specification of IEEE
    arithmetic on the numerator and the denominator. *)
Definition float_of_decimal (d : Decimal) : float :=
  let den := S754_finite false (Qden d) 0 in
  match Qnum d with
  | Z0 => 0%float
  | Zpos n => SF2Prim (SFdiv prec emax (S754_finite false n 0) den)
  | Zneg n => SF2Prim (SFdiv prec emax (S754_finite true n 0) den)
  end.

(** [getcontext().prec]: the number of significant digits that the
    default context keeps of the result of an operation. *)
Definition decimal_prec : Z := 28.

(** The number of decimal digits of a positive integer. *)
Fixpoint count_digits (fuel : nat) (n : Z) : Z :=
  match fuel with
  | O => 1
  | S fuel' => if bool_decide (n < 10) then 1
               else 1 + count_digits fuel' (n `div` 10)
  end.

Definition digits (n : Z) : Z := count_digits (Z.to_nat (Z.log2 n)) n.

(** [ROUND_HALF_EVEN] of the quotient of two positive integers. *)
Definition round_half_even (num den : Z) : Z :=
  let q := num `div` den in
  let r := num `mod` den in
  if bool_decide (2 * r < den) then q
  else if bool_decide (den < 2 * r) then q + 1
  else if Z.even q then q else q + 1.

(** The rounding of the default context: the decimal of [decimal_prec]
    significant digits nearest to [d], ties to the even digit.  The
    exponent limits of the context are not modelled. *)
Definition context_round (d : Decimal) : Decimal :=
  let n := Z.abs (Qnum d) in
  let den := Zpos (Qden d) in
  if bool_decide (n = 0) then 0%Qc
  else
    let k := digits n - digits den in
    let reaches :=
      if bool_decide (0 ≤ k) then bool_decide (den * 10 ^ k ≤ n)
      else bool_decide (den ≤ n * 10 ^ (- k)) in
    let magnitude := if reaches then k else k - 1 in
    let e := magnitude - (decimal_prec - 1) in
    let coefficient :=
      if bool_decide (0 ≤ e) then round_half_even n (den * 10 ^ e)
      else round_half_even (n * 10 ^ (- e)) den in
    let signed := Z.sgn (Qnum d) * coefficient in
    if bool_decide (0 ≤ e) then Q2Qc (inject_Z (signed * 10 ^ e))
    else Q2Qc (signed # Z.to_pos (10 ^ (- e))).

(** [a / b] for two decimals under the default context, for a divisor
    that is not zero. *)
Definition truediv (a b : Decimal) : Decimal := context_round (a / b)%Qc.

(** [sum] of a list of decimals. *)
Definition sum (l : list Decimal) : Decimal := foldr Qcplus 0%Qc l.

(** [sorted] on dates and the ascending list of the keys of a dict. *)
Definition sorted (l : list date) : list date := merge_sort Z.le l.

Definition sorted_keys {V} (d : gmap date V) : list date :=
  sorted (elements (dom d)).

(** [a / b]: [None] when [Decimal] raises on a zero divisor. *)
Definition div (a b : Decimal) : option Decimal :=
  if truthy b then Some (a / b)%Qc else None.

End Py.

(** [fastapi.HTTPException]: the status code and the [detail] text name
    the error. *)
Record HTTPException := mkHTTPException {
  status_code : Z;
  detail : string
}.

(** ** Numeric columns

    What a column [Numeric(precision, scale)] keeps of a decimal written
    to it: PostgreSQL rounds the value to [scale] decimal places, a tie
    away from zero.  A value too large for [precision] is refused by the
    database; that failure is not modelled. *)

Module Column.

Definition Numeric (scale : nat) (d : Decimal) : Decimal :=
  let unit := 10 ^ Z.of_nat scale in
  let n := Z.abs (Qnum d) * unit in
  let den := Zpos (Qden d) in
  let rounded := (2 * n + den) `div` (2 * den) in
  Q2Qc (Z.sgn (Qnum d) * rounded # Z.to_pos unit).

(** A decimal that a column of this scale keeps as it is. *)
Definition kept (scale : nat) (d : Decimal) : Prop := Numeric scale d = d.

End Column.

(** ** [app/models/asset.py] and [app/models/allocation.py] *)

Module Asset.

Record t := mk {
  id : Z;
  current_price : option Decimal
}.

End Asset.

Module Allocation.

Record t := mk {
  id : Z;
  client_id : Z;
  asset_id : Z;
  quantity : Decimal;
  purchase_price : Decimal;
  purchase_date : datetime;
  total_invested : Decimal;
  fees : Decimal;
  is_active : bool;
  exit_price : option Decimal;
  exit_date : option datetime;
  exit_fees : Decimal;
  last_price_check : option datetime;
  unrealized_gain_loss : option Decimal;
  unrealized_gain_loss_percent : option Decimal;
  realized_gain_loss : option Decimal
}.

(** The [asset] relationship: the row of the assets table that
    [asset_id] points to, if any. *)
Definition asset (assets : gmap Z Asset.t) (self : t) : option Asset.t :=
  assets !! asset_id self.

(** [current_value]: quantity times the asset's current price, 0 when the
    asset or its price is missing (or the price is zero). *)
Definition current_value (assets : gmap Z Asset.t) (self : t) : Decimal :=
  match asset assets self with
  | Some a =>
      match Asset.current_price a with
      | Some p => if Py.truthy p then (quantity self * p)%Qc else 0%Qc
      | None => 0%Qc
      end
  | None => 0%Qc
  end.

Definition total_cost (self : t) : Decimal :=
  (total_invested self + fees self)%Qc.

Definition gain_loss_amount (assets : gmap Z Asset.t) (self : t) : Decimal :=
  (current_value assets self - total_cost self)%Qc.

Definition gain_loss_percent (assets : gmap Z Asset.t) (self : t) : Decimal :=
  if Py.gt (total_cost self) 0
  then (gain_loss_amount assets self / total_cost self * Py.dec 100)%Qc
  else 0%Qc.

(** [days_held], in whole days ([timedelta.days] floors). *)
Definition us_per_day : Z := 86400000000.

Definition days_held (now : datetime) (self : t) : Z :=
  if is_active self then (now - purchase_date self) `div` us_per_day
  else match exit_date self with
       | Some d => (d - purchase_date self) `div` us_per_day
       | None => 0
       end.

(** [update_performance]: mutation is a new record. *)
Definition update_performance (now : datetime) (current_price : Decimal)
    (self : t) : t :=
  let current_value := (quantity self * current_price)%Qc in
  let unrealized := (current_value - total_cost self)%Qc in
  {| id := id self; client_id := client_id self; asset_id := asset_id self;
     quantity := quantity self; purchase_price := purchase_price self;
     purchase_date := purchase_date self;
     total_invested := total_invested self; fees := fees self;
     is_active := is_active self;
     exit_price := exit_price self; exit_date := exit_date self;
     exit_fees := exit_fees self;
     last_price_check := Some now;
     unrealized_gain_loss := Some unrealized;
     unrealized_gain_loss_percent :=
       if Py.gt (total_cost self) 0
       then Some (unrealized / total_cost self * Py.dec 100)%Qc
       else unrealized_gain_loss_percent self;
     realized_gain_loss := realized_gain_loss self |}.

(** [close_position].  [now] is the value of [func.now()].  The method has
    no guard of its own on [is_active]. *)
Definition close_position (now : datetime) (exit_price' : Decimal)
    (exit_date' : option datetime) (exit_fees' : option Decimal)
    (self : t) : t :=
  let fees_out := Py.decimal_or exit_fees' 0%Qc in
  let exit_value := (quantity self * exit_price')%Qc in
  let total_costs := (total_cost self + fees_out)%Qc in
  {| id := id self; client_id := client_id self; asset_id := asset_id self;
     quantity := quantity self; purchase_price := purchase_price self;
     purchase_date := purchase_date self;
     total_invested := total_invested self; fees := fees self;
     is_active := false;
     exit_price := Some exit_price';
     exit_date := Some (Py.datetime_or exit_date' now);
     exit_fees := fees_out;
     last_price_check := last_price_check self;
     unrealized_gain_loss := None;
     unrealized_gain_loss_percent := None;
     realized_gain_loss := Some (exit_value - total_costs)%Qc |}.

End Allocation.

(** ** [app/api/v1/allocations.py] *)

Module AllocationsApi.

(** The payload of [POST /] ([AllocationCreate]); [fees] is [None] when
    the request leaves it unset, and the column default 0 then applies. *)
Record AllocationCreate := mkAllocationCreate {
  c_client_id : Z;
  c_asset_id : Z;
  c_quantity : Decimal;
  c_purchase_price : Decimal;
  c_purchase_date : datetime;
  c_fees : option Decimal
}.

(** The field constraints of [AllocationBase]: [gt=0], [gt=0], [ge=0]. *)
Definition AllocationCreate_valid (d : AllocationCreate) : bool :=
  Py.gt (c_quantity d) 0 && Py.gt (c_purchase_price d) 0
  && Py.ge (default 0%Qc (c_fees d)) 0.

(** The payload of [POST /{id}/close] ([AllocationClose]). *)
Record AllocationClose := mkAllocationClose {
  x_exit_price : Decimal;
  x_exit_date : option datetime;
  x_exit_fees : Decimal
}.

Definition AllocationClose_valid (d : AllocationClose) : bool :=
  Py.gt (x_exit_price d) 0 && Py.ge (x_exit_fees d) 0.

(** The session: the tables the two endpoints read and write.  [next_id]
    is the primary key the next insert receives. *)
Record Db := mkDb {
  clients : gset Z;
  assets : gmap Z Asset.t;
  allocations : gmap Z Allocation.t;
  next_id : Z
}.

Definition with_allocations (db : Db) (allocs : gmap Z Allocation.t)
    (next : Z) : Db :=
  {| clients := clients db; assets := assets db;
     allocations := allocs; next_id := next |}.

(** [db.commit()] followed by [db.refresh(row)]: the object then holds
    what the columns of the table keep of the values written:
    [quantity], [purchase_price] and [exit_price] four decimal places (the
    percentage also), the amounts two. *)
Definition refresh (row : Allocation.t) : Allocation.t :=
  {| Allocation.id := Allocation.id row;
     Allocation.client_id := Allocation.client_id row;
     Allocation.asset_id := Allocation.asset_id row;
     Allocation.quantity := Column.Numeric 4 (Allocation.quantity row);
     Allocation.purchase_price :=
       Column.Numeric 4 (Allocation.purchase_price row);
     Allocation.purchase_date := Allocation.purchase_date row;
     Allocation.total_invested :=
       Column.Numeric 2 (Allocation.total_invested row);
     Allocation.fees := Column.Numeric 2 (Allocation.fees row);
     Allocation.is_active := Allocation.is_active row;
     Allocation.exit_price := Column.Numeric 4 <$> Allocation.exit_price row;
     Allocation.exit_date := Allocation.exit_date row;
     Allocation.exit_fees := Column.Numeric 2 (Allocation.exit_fees row);
     Allocation.last_price_check := Allocation.last_price_check row;
     Allocation.unrealized_gain_loss :=
       Column.Numeric 2 <$> Allocation.unrealized_gain_loss row;
     Allocation.unrealized_gain_loss_percent :=
       Column.Numeric 4 <$> Allocation.unrealized_gain_loss_percent row;
     Allocation.realized_gain_loss :=
       Column.Numeric 2 <$> Allocation.realized_gain_loss row |}.

(** [create_allocation]: the handler returns the database after the call
    and either the error raised or the allocation created, as the session
    reads it back after the commit. *)
Definition create_allocation (allocation_data : AllocationCreate) (db : Db)
    : Db * (HTTPException + Allocation.t) :=
  if negb (bool_decide (c_client_id allocation_data ∈ clients db)) then
    (db, inl (mkHTTPException 404 "Client not found"))
  else match assets db !! c_asset_id allocation_data with
  | None => (db, inl (mkHTTPException 404 "Asset not found"))
  | Some _ =>
      let total_invested :=
        (c_quantity allocation_data * c_purchase_price allocation_data)%Qc in
      let new_allocation :=
        {| Allocation.id := next_id db;
           Allocation.client_id := c_client_id allocation_data;
           Allocation.asset_id := c_asset_id allocation_data;
           Allocation.quantity := c_quantity allocation_data;
           Allocation.purchase_price := c_purchase_price allocation_data;
           Allocation.purchase_date := c_purchase_date allocation_data;
           Allocation.total_invested := total_invested;
           Allocation.fees := default 0%Qc (c_fees allocation_data);
           Allocation.is_active := true;
           Allocation.exit_price := None;
           Allocation.exit_date := None;
           Allocation.exit_fees := 0%Qc;
           Allocation.last_price_check := None;
           Allocation.unrealized_gain_loss := None;
           Allocation.unrealized_gain_loss_percent := None;
           Allocation.realized_gain_loss := None |} in
      let stored := refresh new_allocation in
      (with_allocations db
         (<[next_id db := stored]> (allocations db)) (next_id db + 1),
       inr stored)
  end.

(** [close_allocation]: the lookup, the two guards, then the method, the
    commit and the refresh. *)
Definition close_allocation (now : datetime) (allocation_id : Z)
    (close_data : AllocationClose) (db : Db)
    : Db * (HTTPException + Allocation.t) :=
  match allocations db !! allocation_id with
  | None => (db, inl (mkHTTPException 404 "Allocation not found"))
  | Some allocation =>
      if negb (Allocation.is_active allocation) then
        (db, inl (mkHTTPException 400 "Allocation is already closed"))
      else
        let allocation' :=
          refresh
            (Allocation.close_position now (x_exit_price close_data)
               (x_exit_date close_data) (Some (x_exit_fees close_data))
               allocation) in
        (with_allocations db
           (<[allocation_id := allocation']> (allocations db)) (next_id db),
         inr allocation')
  end.

End AllocationsApi.

(** ** [app/utils/calculations.py] *)

Module Calculations.

(** A price bar ([app/models/daily_return.py]): the columns the
    calculation reads. *)
Record DailyReturn := mkDailyReturn {
  dr_asset_id : Z;
  dr_date : date;
  dr_close_price : Decimal
}.

(** [calculate_irr]: the placeholder returns zero. *)
Definition calculate_irr (cash_flows : list float) : float := 0%float.

(** The loop of [calculate_twr] over the sorted keys; [None] is the
    [KeyError] of [daily_returns[day]]. *)
Fixpoint twr_loop (daily_returns : gmap date float) (days : list date)
    (returns_product : float) : option float :=
  match days with
  | [] => Some returns_product
  | day :: rest =>
      r ← daily_returns !! day;
      twr_loop daily_returns rest (returns_product * (1 + r))%float
  end.

Definition calculate_twr (daily_returns : gmap date float) : option float :=
  if decide (size daily_returns = 0%nat) then Some 0%float
  else
    returns_product ←
      twr_loop daily_returns (Py.sorted_keys daily_returns) 1%float;
    Some (returns_product - 1)%float.

(** [asset_prices]: a dict of dicts filled bar by bar, a later bar for the
    same asset and date replacing the earlier one. *)
Definition asset_prices (price_history : list DailyReturn)
    : gmap Z (gmap date Decimal) :=
  foldl (fun acc price =>
           <[dr_asset_id price :=
               <[dr_date price := dr_close_price price]>
                 (default ∅ (acc !! dr_asset_id price))]> acc)
        ∅ price_history.

(** [asset_prices.get(asset_id, {}).get(day)]. *)
Definition price_on (prices : gmap Z (gmap date Decimal)) (asset_id : Z)
    (day : date) : option Decimal :=
  default ∅ (prices !! asset_id) !! day.

Definition all_dates (price_history : list DailyReturn) : list date :=
  Py.sorted (elements (list_to_set (dr_date <$> price_history) : gset date)).

(** The inner loop: the value of the portfolio on [day]. *)
Definition day_value (prices : gmap Z (gmap date Decimal))
    (allocations : list Allocation.t) (day : date) : Decimal :=
  foldl (fun day_value alloc =>
           match price_on prices (Allocation.asset_id alloc) day with
           | Some price =>
               if Py.truthy price
               then (day_value + Allocation.quantity alloc * price)%Qc
               else day_value
           | None => day_value
           end)
        0%Qc allocations.

(** The outer loop: the dict [portfolio_value]. *)
Definition portfolio_value (allocations : list Allocation.t)
    (price_history : list DailyReturn) : gmap date Decimal :=
  let prices := asset_prices price_history in
  foldl (fun pv day =>
           let v := day_value prices allocations day in
           if Py.gt v 0 then <[day := v]> pv else pv)
        ∅ (all_dates price_history).

(** One turn of the loop [for i in range(1, len(sorted_days))]; [None] is
    an [IndexError] or [KeyError].  The quotient is a [Decimal] division,
    rounded to the digits of the context, and [float] rounds its result to
    binary64. *)
Definition returns_step (pv : gmap date Decimal) (sorted_days : list date)
    (acc : option (gmap date float)) (i : nat) : option (gmap date float) :=
  daily_returns ← acc;
  today ← sorted_days !! i;
  yesterday ← sorted_days !! (i - 1)%nat;
  v_yesterday ← pv !! yesterday;
  if Py.gt v_yesterday 0 then
    v_today ← pv !! today;
    let daily_return :=
      Py.float_of_decimal (Py.truediv (v_today - v_yesterday) v_yesterday) in
    Some (<[today := daily_return]> daily_returns)
  else Some daily_returns.

Definition daily_returns_of (pv : gmap date Decimal)
    : option (gmap date float) :=
  let sorted_days := Py.sorted_keys pv in
  foldl (returns_step pv sorted_days) (Some ∅)
        (seq 1 (length sorted_days - 1)).

Definition start_value_of (pv : gmap date Decimal) : Decimal :=
  match head (Py.sorted_keys pv) with
  | Some d => default 0%Qc (pv !! d)
  | None => 0%Qc
  end.

Definition end_value_of (pv : gmap date Decimal) : Decimal :=
  match last (Py.sorted_keys pv) with
  | Some d => default 0%Qc (pv !! d)
  | None => 0%Qc
  end.

(** [calculate_daily_returns]; the two date arguments are not read. *)
Definition calculate_daily_returns (allocations : list Allocation.t)
    (price_history : list DailyReturn) (start_date end_date : date)
    : option (gmap date float * Decimal * Decimal) :=
  let pv := portfolio_value allocations price_history in
  daily_returns ← daily_returns_of pv;
  Some (daily_returns, start_value_of pv, end_value_of pv).

End Calculations.

(** ** [app/api/v1/dashboard.py] *)

Module Dashboard.

(** *** The calendar of the queries

    [date_trunc] is PostgreSQL's: the midnight that starts the day, the
    ISO week (Monday) or the month of an instant.  Ordinal day 1 is a
    Monday; the month is found as Python's [datetime] finds it. *)

Definition date_of (t : datetime) : date := t `div` Allocation.us_per_day.

Definition midnight (d : date) : datetime := d * Allocation.us_per_day.

Definition week_start (d : date) : date := d - (d - 1) `mod` 7.

Definition days_before_month (leap : bool) (month : Z) : Z :=
  nth (Z.to_nat month)
      [0; 0; 31; 59; 90; 120; 151; 181; 212; 243; 273; 304; 334] 0
  + (if bool_decide (2 < month) && leap then 1 else 0).

Definition month_start (d : date) : date :=
  let n := d - 1 in
  let n100 := (n `mod` 146097) `div` 36524 in
  let n := (n `mod` 146097) `mod` 36524 in
  let n4 := n `div` 1461 in
  let n := n `mod` 1461 in
  let n1 := n `div` 365 in
  let n := n `mod` 365 in
  if bool_decide (n1 = 4) || bool_decide (n100 = 4) then d - 30
  else
    let leap := bool_decide (n1 = 3)
                && (negb (bool_decide (n4 = 24)) || bool_decide (n100 = 3)) in
    let month := (n + 50) `div` 32 in
    let month :=
      if bool_decide (n < days_before_month leap month) then month - 1
      else month in
    d - (n - days_before_month leap month).

Definition date_trunc (field : string) (t : datetime) : datetime :=
  let d := date_of t in
  midnight (if decide (field = "month") then month_start d
            else if decide (field = "week") then week_start d
            else d).

(** *** Net new money *)

Record NetNewMoneyData := mkNetNewMoneyData {
  period : date;
  inflows : Decimal;
  outflows : Decimal;
  net_flow : Decimal;
  cumulative_net : Decimal;
  period_type : string
}.

(** The values of the enumeration [PeriodType] that the response model
    accepts. *)
Definition PeriodType_valid (s : string) : bool :=
  bool_decide (s ∈ ["daily"; "weekly"; "monthly"; "quarterly"; "yearly"]).

Definition trunc_field (period_type : string) : string :=
  if decide (period_type = "monthly") then "month"
  else if decide (period_type = "weekly") then "week"
  else "day".

(** The label [period] of both queries: [date_trunc] of the purchase date. *)
Definition period_of (period_type : string) (a : Allocation.t) : datetime :=
  date_trunc (trunc_field period_type) (Allocation.purchase_date a).

(** [GROUP BY key] with [coalesce(sum(value), 0)]: a NULL value adds
    nothing to its group. *)
Definition group_sum (key : Allocation.t -> datetime)
    (value : Allocation.t -> option Decimal) (rows : list Allocation.t)
    : gmap datetime Decimal :=
  foldl (fun acc a =>
           <[key a := (default 0%Qc (acc !! key a)
                       + default 0%Qc (value a))%Qc]> acc)
        ∅ rows.

(** [ORDER BY key]: the rows of the result, ascending. *)
Definition ordered_rows (groups : gmap datetime Decimal)
    : list (datetime * Decimal) :=
  omap (fun k => pair k <$> groups !! k) (Py.sorted_keys groups).

(** [{row.period.date(): row.value for row in rows}]. *)
Definition dict_by_date (rows : list (datetime * Decimal))
    : gmap date Decimal :=
  foldl (fun d row => <[date_of row.1 := row.2]> d) ∅ rows.

(** The [WHERE] clause of the inflows query. *)
Definition inflow_selected (start_date end_date : date) (a : Allocation.t)
    : bool :=
  bool_decide (midnight start_date ≤ Allocation.purchase_date a)
  && bool_decide (Allocation.purchase_date a ≤ midnight end_date)
  && Allocation.is_active a.

Definition inflows_data (start_date end_date : date) (period_type : string)
    (allocations : list Allocation.t) : gmap date Decimal :=
  dict_by_date
    (ordered_rows
       (group_sum (period_of period_type)
          (fun a => Some (Allocation.total_invested a))
          (filter (inflow_selected start_date end_date) allocations))).

(** The [WHERE] clause of the outflows query; a comparison with a NULL
    [exit_date] does not hold. *)
Definition outflow_selected (start_date end_date : date) (a : Allocation.t)
    : bool :=
  match Allocation.exit_date a with
  | Some e =>
      bool_decide (midnight start_date ≤ e)
      && bool_decide (e ≤ midnight end_date)
      && negb (Allocation.is_active a)
  | None => false
  end.

(** The outflows query groups by the same [date_trunc] expression as the
    inflows query, that is, by the purchase date. *)
Definition outflows_data (start_date end_date : date) (period_type : string)
    (allocations : list Allocation.t) : gmap date Decimal :=
  dict_by_date
    (ordered_rows
       (group_sum (period_of period_type)
          (fun a => Qcmult (Allocation.quantity a) <$> Allocation.exit_price a)
          (filter (outflow_selected start_date end_date) allocations))).

(** One turn of the loop that combines the two series; [None] is the
    validation error of [NetNewMoneyData] on an unknown period type. *)
Definition nnm_step (inflows_data outflows_data : gmap date Decimal)
    (period_type : string)
    (acc : option (list NetNewMoneyData * Decimal)) (period_date : date)
    : option (list NetNewMoneyData * Decimal) :=
  '(response, cumulative_net) ← acc;
  let inflows := default 0%Qc (inflows_data !! period_date) in
  let outflows := default 0%Qc (outflows_data !! period_date) in
  let net_flow := (inflows - outflows)%Qc in
  let cumulative_net := (cumulative_net + net_flow)%Qc in
  if PeriodType_valid period_type then
    Some (response ++ [mkNetNewMoneyData period_date inflows outflows
                         net_flow cumulative_net period_type],
          cumulative_net)
  else None.

Definition combine (inflows_data outflows_data : gmap date Decimal)
    (period_type : string) : option (list NetNewMoneyData) :=
  let all_dates := dom inflows_data ∪ dom outflows_data in
  fst <$> foldl (nnm_step inflows_data outflows_data period_type)
                (Some ([], 0%Qc)) (Py.sorted (elements all_dates)).

(** [get_net_new_money_history] over the allocations table; [now] is
    [datetime.now()].  Any exception becomes the status 500. *)
Definition get_net_new_money_history (now : datetime)
    (start_date end_date : option date) (period_type : string)
    (allocations : list Allocation.t)
    : HTTPException + list NetNewMoneyData :=
  let start_date := default (date_of now - 365) start_date in
  let end_date := default (date_of now) end_date in
  match combine (inflows_data start_date end_date period_type allocations)
                (outflows_data start_date end_date period_type allocations)
                period_type with
  | Some response => inr response
  | None => inl (mkHTTPException 500 "Error fetching net new money data")
  end.

(** *** Top advisors *)

Record Advisor := mkAdvisor {
  adv_id : Z;
  adv_name : string;
  adv_is_active : bool
}.

Record Commission := mkCommission {
  com_advisor_id : Z;
  com_gross_revenue : Decimal
}.

Record Client := mkClient {
  cl_id : Z;
  cl_advisor_id : option Z
}.

(** The constraint [ge=0] of [CommissionBase.gross_revenue]. *)
Definition Commission_valid (c : Commission) : bool :=
  Py.ge (com_gross_revenue c) 0.

Record Tables := mkTables {
  advisors : list Advisor;
  commissions : list Commission;
  clients : list Client;
  allocations : list Allocation.t
}.

(** A left outer join: the matching rows, or one NULL row. *)
Definition outer {A} (matches : list A) : list (option A) :=
  match matches with
  | [] => [None]
  | _ => Some <$> matches
  end.

(** SQL [sum]: NULL over no non-NULL value. *)
Definition sql_sum (column : list (option Decimal)) : option Decimal :=
  match omap id column with
  | [] => None
  | values => Some (Py.sum values)
  end.

Definition joined (t : Tables) (a : Advisor)
    : list (option Commission * option Client * option Allocation.t) :=
  c ← outer (filter (fun c => com_advisor_id c = adv_id a) (commissions t));
  k ← outer (filter (fun k => cl_advisor_id k = Some (adv_id a)) (clients t));
  al ← outer (match k with
              | Some k' =>
                  filter (fun al => Allocation.client_id al = cl_id k')
                         (allocations t)
              | None => []
              end);
  [(c, k, al)].

(** A row of the join. *)
Abbreviation JoinRow :=
  (option Commission * option Client * option Allocation.t)%type.

(** A row of the grouped query. *)
Record AdvisorRow := mkAdvisorRow {
  row_id : Z;
  row_name : string;
  row_revenue : Decimal;
  row_clients_count : nat;
  row_net_new_money : Decimal
}.

Definition advisor_row (t : Tables) (a : Advisor) : AdvisorRow :=
  let rows := joined t a in
  {| row_id := adv_id a;
     row_name := adv_name a;
     row_revenue :=
       default 0%Qc
         (sql_sum ((fun r : JoinRow => com_gross_revenue <$> r.1.1) <$> rows));
     row_clients_count := length (omap (fun r : JoinRow => r.1.2) rows);
     row_net_new_money :=
       default 0%Qc
         (sql_sum ((fun r : JoinRow => Allocation.total_invested <$> r.2)
                   <$> rows)) |}.

(** [ORDER BY revenue DESC LIMIT limit] over the active advisors. *)
Definition top_advisors_query (limit : nat) (t : Tables) : list AdvisorRow :=
  take limit
    (merge_sort (fun r1 r2 => Py.ge (row_revenue r1) (row_revenue r2))
       (advisor_row t <$> filter adv_is_active (advisors t))).

(** [coalesce(sum(gross_revenue), 0)] over all commissions, then
    [or Decimal('1')]. *)
Definition total_revenue (t : Tables) : Decimal :=
  Py.decimal_or
    (Some (default 0%Qc
             (sql_sum (Some <$> (com_gross_revenue <$> commissions t)))))
    1%Qc.

Record TopAdvisorMetric := mkTopAdvisorMetric {
  advisor_id : Z;
  advisor_name : string;
  revenue : Decimal;
  revenue_percentage : Decimal;
  net_new_money : Decimal;
  clients_count : nat;
  change_percent : Decimal
}.

(** The body of the loop for one advisor; [None] is a division error. *)
Definition top_advisor_metric (total_revenue : Decimal) (advisor : AdvisorRow)
    : option TopAdvisorMetric :=
  revenue_percentage ←
    (if Py.gt total_revenue 0
     then q ← Py.div (row_revenue advisor) total_revenue;
          Some (q * Py.dec 100)%Qc
     else Some 0%Qc);
  Some {| advisor_id := row_id advisor;
          advisor_name := row_name advisor;
          revenue := row_revenue advisor;
          revenue_percentage := revenue_percentage;
          net_new_money := row_net_new_money advisor;
          clients_count := row_clients_count advisor;
          change_percent := Py.frac 31 2 |}.

(** [get_top_advisors]; any exception becomes the status 500. *)
Definition get_top_advisors (limit : nat) (t : Tables)
    : HTTPException + list TopAdvisorMetric :=
  match mapM (top_advisor_metric (total_revenue t))
             (top_advisors_query limit t) with
  | Some response => inr response
  | None => inl (mkHTTPException 500 "Error fetching top advisors")
  end.

End Dashboard.

(** ** The properties in the words of the specification *)

Module Spec.

(** The close price of an asset on a date: that of the bar of this asset
    and date (the last one, should the history repeat it), if there is
    one. *)
Definition bar_close (price_history : list Calculations.DailyReturn)
    (asset_id : Z) (day : date) : option Decimal :=
  Calculations.dr_close_price
    <$> last (filter (fun b => Calculations.dr_asset_id b = asset_id
                                ∧ Calculations.dr_date b = day)
                     price_history).

(** The value computed for a date: the sum over the allocations of the
    quantity times the close price of the asset on that date, when a bar
    exists. *)
Definition computed_value (allocations : list Allocation.t)
    (price_history : list Calculations.DailyReturn) (day : date) : Decimal :=
  Py.sum ((fun alloc =>
             Allocation.quantity alloc
             * default 0 (bar_close price_history
                            (Allocation.asset_id alloc) day))%Qc
          <$> allocations).

(** Two dates that follow each other in a series: both are dates of the
    series, the first is earlier, and the series has no date between. *)
Definition consecutive {V} (series : gmap date V) (yesterday today : date)
    : Prop :=
  is_Some (series !! yesterday) ∧ is_Some (series !! today)
  ∧ yesterday < today
  ∧ ∀ d, is_Some (series !! d) → ¬ (yesterday < d < today).

(** The bucket a purchase falls in: the date of its period. *)
Definition bucket_of (period_type : string) (a : Allocation.t) : date :=
  Dashboard.date_of (Dashboard.period_of period_type a).

(** A purchase that the bounds of the queries select: a bound, a date, is
    compared with the instant of the purchase as the midnight that starts
    it. *)
Definition purchased_within (start_date end_date : date) (a : Allocation.t)
    : Prop :=
  Dashboard.midnight start_date ≤ Allocation.purchase_date a
  ∧ Allocation.purchase_date a ≤ Dashboard.midnight end_date.

(** The sum of [total_invested] over the active allocations of a bucket
    that the bounds select. *)
Definition inflow_of_active (start_date end_date : date)
    (period_type : string) (allocations : list Allocation.t) (bucket : date)
    : Decimal :=
  Py.sum (Allocation.total_invested
          <$> filter (fun a => bucket_of period_type a = bucket
                               ∧ purchased_within start_date end_date a
                               ∧ Allocation.is_active a = true)
                     allocations).

(** A purchase on a day of the date range of the request. *)
Definition purchased_on_days (start_date end_date : date) (a : Allocation.t)
    : Prop :=
  start_date ≤ Dashboard.date_of (Allocation.purchase_date a) ≤ end_date.

(** No allocation was bought in the course of [day], after its first
    instant. *)
Definition none_bought_during (day : date) (allocations : list Allocation.t)
    : Prop :=
  ∀ a, a ∈ allocations →
       Dashboard.date_of (Allocation.purchase_date a) = day →
       Allocation.purchase_date a = Dashboard.midnight day.

(** The inflow of a bucket as the sum of [total_invested] over the
    allocations bought in the bucket on a day of the date range, whether
    they are still open or have since been closed. *)
Definition inflow_including_closed (start_date end_date : date)
    (period_type : string) (allocations : list Allocation.t) (bucket : date)
    : Decimal :=
  Py.sum (Allocation.total_invested
          <$> filter (fun a => bucket_of period_type a = bucket
                               ∧ purchased_on_days start_date end_date a)
                     allocations).

(** The same sum over the allocations that are active now. *)
Definition inflow_of_active_purchases (start_date end_date : date)
    (period_type : string) (allocations : list Allocation.t) (bucket : date)
    : Decimal :=
  Py.sum (Allocation.total_invested
          <$> filter (fun a => bucket_of period_type a = bucket
                               ∧ purchased_on_days start_date end_date a
                               ∧ Allocation.is_active a = true)
                     allocations).

End Spec.

(** ** Worked examples *)

Module Examples.

(** The position of the worked example: 50 units bought at 20, fees 10. *)
Definition position_50 : Allocation.t :=
  {| Allocation.id := 1; Allocation.client_id := 1; Allocation.asset_id := 1;
     Allocation.quantity := Py.dec 50; Allocation.purchase_price := Py.dec 20;
     Allocation.purchase_date := 0;
     Allocation.total_invested := Py.dec 1000; Allocation.fees := Py.dec 10;
     Allocation.is_active := true;
     Allocation.exit_price := None; Allocation.exit_date := None;
     Allocation.exit_fees := 0%Qc;
     Allocation.last_price_check := None;
     Allocation.unrealized_gain_loss := Some (Py.dec 40);
     Allocation.unrealized_gain_loss_percent := Some (Py.dec 4);
     Allocation.realized_gain_loss := None |}.

(** The session of one closed position, used to run the close endpoint. *)
Definition closed_position_50 : Allocation.t :=
  Allocation.close_position 7 (Py.dec 25) None (Some (Py.dec 5)) position_50.

Definition session_closed : AllocationsApi.Db :=
  {| AllocationsApi.clients := {[ 1 ]};
     AllocationsApi.assets := {[ 1 := Asset.mk 1 (Some (Py.dec 30)) ]};
     AllocationsApi.allocations := {[ 1 := closed_position_50 ]};
     AllocationsApi.next_id := 2 |}.

(** One holding of 100 units of asset 1 bought at 10. *)
Definition holding_100 : Allocation.t :=
  {| Allocation.id := 1; Allocation.client_id := 1; Allocation.asset_id := 1;
     Allocation.quantity := Py.dec 100; Allocation.purchase_price := Py.dec 10;
     Allocation.purchase_date := 0;
     Allocation.total_invested := Py.dec 1000; Allocation.fees := 0%Qc;
     Allocation.is_active := true;
     Allocation.exit_price := None; Allocation.exit_date := None;
     Allocation.exit_fees := 0%Qc;
     Allocation.last_price_check := None;
     Allocation.unrealized_gain_loss := None;
     Allocation.unrealized_gain_loss_percent := None;
     Allocation.realized_gain_loss := None |}.

(** Bars of asset 1 on day 1 (close 10) and day 3 (close 12); day 2 has
    none. *)
Definition bars_day_1_3 : list Calculations.DailyReturn :=
  [ Calculations.mkDailyReturn 1 1 (Py.dec 10);
    Calculations.mkDailyReturn 1 3 (Py.dec 12) ].

(** A holding of 0.0001 units of asset 1, and bars of asset 1 closing at
    29788650.1367 on day 1 and at 68760730.7788 on day 2: a return whose
    quotient has more digits than the decimal context keeps. *)
Definition holding_small : Allocation.t :=
  {| Allocation.id := 1; Allocation.client_id := 1; Allocation.asset_id := 1;
     Allocation.quantity := Py.frac 1 10000;
     Allocation.purchase_price := Py.dec 10;
     Allocation.purchase_date := 0;
     Allocation.total_invested := Py.dec 0; Allocation.fees := 0%Qc;
     Allocation.is_active := true;
     Allocation.exit_price := None; Allocation.exit_date := None;
     Allocation.exit_fees := 0%Qc;
     Allocation.last_price_check := None;
     Allocation.unrealized_gain_loss := None;
     Allocation.unrealized_gain_loss_percent := None;
     Allocation.realized_gain_loss := None |}.

Definition bars_long_quotient : list Calculations.DailyReturn :=
  [ Calculations.mkDailyReturn 1 1 (Py.frac 297886501367 10000);
    Calculations.mkDailyReturn 1 2 (Py.frac 687607307788 10000) ].

(** The same with a bar on day 2 for asset 2, which is not held: day 2 is
    a date of the history that no held asset covers. *)
Definition bars_day_2_uncovered : list Calculations.DailyReturn :=
  [ Calculations.mkDailyReturn 1 1 (Py.dec 10);
    Calculations.mkDailyReturn 2 2 (Py.dec 50);
    Calculations.mkDailyReturn 1 3 (Py.dec 12) ].

(** A purchase order of 100 units at 10 with fees 5, the session it is
    posted to, and the assets table once the price has moved to 12. *)
Definition order_100 : AllocationsApi.AllocationCreate :=
  AllocationsApi.mkAllocationCreate 1 1 (Py.dec 100) (Py.dec 10) 0
    (Some (Py.dec 5)).

(** An order of 0.3333 units at 10.01, whose amount 3.336333 has more
    decimal places than the column of [total_invested] keeps, and the
    assets table with the asset at 10.01. *)
Definition order_fractional : AllocationsApi.AllocationCreate :=
  AllocationsApi.mkAllocationCreate 1 1 (Py.frac 3333 10000)
    (Py.frac 1001 100) 0 None.

Definition assets_at_10_01 : gmap Z Asset.t :=
  {[ 1 := Asset.mk 1 (Some (Py.frac 1001 100)) ]}.

Definition session_empty : AllocationsApi.Db :=
  {| AllocationsApi.clients := {[ 1 ]};
     AllocationsApi.assets := {[ 1 := Asset.mk 1 (Some (Py.dec 10)) ]};
     AllocationsApi.allocations := ∅;
     AllocationsApi.next_id := 1 |}.

Definition assets_at_12 : gmap Z Asset.t :=
  {[ 1 := Asset.mk 1 (Some (Py.dec 12)) ]}.

(** A position of one unit bought for [invested] a little after the
    midnight of [day]; when it is not active it was sold the next day at
    [invested + 2]. *)
Definition purchase (id day invested : Z) (active : bool) : Allocation.t :=
  {| Allocation.id := id; Allocation.client_id := 1; Allocation.asset_id := 1;
     Allocation.quantity := 1%Qc;
     Allocation.purchase_price := Py.dec invested;
     Allocation.purchase_date := Dashboard.midnight day + 5;
     Allocation.total_invested := Py.dec invested; Allocation.fees := 0%Qc;
     Allocation.is_active := active;
     Allocation.exit_price :=
       if active then None else Some (Py.dec (invested + 2));
     Allocation.exit_date :=
       if active then None else Some (Dashboard.midnight (day + 1));
     Allocation.exit_fees := 0%Qc;
     Allocation.last_price_check := None;
     Allocation.unrealized_gain_loss := None;
     Allocation.unrealized_gain_loss_percent := None;
     Allocation.realized_gain_loss :=
       if active then None else Some (Py.dec 2) |}.

(** Two purchases on day 10, of which the second has since been closed,
    and one on day 12. *)
Definition flows : list Allocation.t :=
  [ purchase 1 10 500 true; purchase 2 10 1000 false; purchase 3 12 70 true ].

(** An office of two advisors whose commissions carry no revenue, and the
    same office with a revenue of 100 and a reversal of -100. *)
Definition office (revenue_1 revenue_2 : Decimal) : Dashboard.Tables :=
  {| Dashboard.advisors :=
       [ Dashboard.mkAdvisor 1 "Ana" true; Dashboard.mkAdvisor 2 "Rui" true ];
     Dashboard.commissions :=
       [ Dashboard.mkCommission 1 revenue_1;
         Dashboard.mkCommission 2 revenue_2 ];
     Dashboard.clients := [ Dashboard.mkClient 1 (Some 1) ];
     Dashboard.allocations := [ holding_100 ] |}.

Definition office_no_revenue : Dashboard.Tables := office 0%Qc 0%Qc.

Definition office_signed_revenue : Dashboard.Tables :=
  office (Py.dec 100) (Py.dec (-100)).

End Examples.

(** ** [app/api/v1/allocations.py]: the update endpoint *)

Module AllocationsUpdate.

(** A field of a partial update as [dict(exclude_unset=True)] sees it:
    absent from the request, sent as null, or sent with a value. *)
Inductive field (A : Type) : Type :=
  | Unset : field A
  | Null : field A
  | Value : A -> field A.

Arguments Unset {A}.
Arguments Null {A}.
Arguments Value {A} _.

(** The attribute of the payload object: [None] unless a value was sent. *)
Definition attribute {A} (f : field A) : option A :=
  match f with
  | Value a => Some a
  | _ => None
  end.

(** The payload [AllocationUpdate]; [notes] and [order_id] are columns
    outside the record of the position. *)
Record AllocationUpdate := mkAllocationUpdate {
  u_quantity : field Decimal;
  u_fees : field Decimal
}.

(** The field constraints: [gt=0] for a quantity, [ge=0] for fees. *)
Definition AllocationUpdate_valid (d : AllocationUpdate) : bool :=
  match attribute (u_quantity d) with Some q => Py.gt q 0 | None => true end
  && match attribute (u_fees d) with Some f => Py.ge f 0 | None => true end.

Definition set_quantity (q : Decimal) (a : Allocation.t) : Allocation.t :=
  {| Allocation.id := Allocation.id a;
     Allocation.client_id := Allocation.client_id a;
     Allocation.asset_id := Allocation.asset_id a;
     Allocation.quantity := q;
     Allocation.purchase_price := Allocation.purchase_price a;
     Allocation.purchase_date := Allocation.purchase_date a;
     Allocation.total_invested := Allocation.total_invested a;
     Allocation.fees := Allocation.fees a;
     Allocation.is_active := Allocation.is_active a;
     Allocation.exit_price := Allocation.exit_price a;
     Allocation.exit_date := Allocation.exit_date a;
     Allocation.exit_fees := Allocation.exit_fees a;
     Allocation.last_price_check := Allocation.last_price_check a;
     Allocation.unrealized_gain_loss := Allocation.unrealized_gain_loss a;
     Allocation.unrealized_gain_loss_percent :=
       Allocation.unrealized_gain_loss_percent a;
     Allocation.realized_gain_loss := Allocation.realized_gain_loss a |}.

Definition set_fees (f : Decimal) (a : Allocation.t) : Allocation.t :=
  {| Allocation.id := Allocation.id a;
     Allocation.client_id := Allocation.client_id a;
     Allocation.asset_id := Allocation.asset_id a;
     Allocation.quantity := Allocation.quantity a;
     Allocation.purchase_price := Allocation.purchase_price a;
     Allocation.purchase_date := Allocation.purchase_date a;
     Allocation.total_invested := Allocation.total_invested a;
     Allocation.fees := f;
     Allocation.is_active := Allocation.is_active a;
     Allocation.exit_price := Allocation.exit_price a;
     Allocation.exit_date := Allocation.exit_date a;
     Allocation.exit_fees := Allocation.exit_fees a;
     Allocation.last_price_check := Allocation.last_price_check a;
     Allocation.unrealized_gain_loss := Allocation.unrealized_gain_loss a;
     Allocation.unrealized_gain_loss_percent :=
       Allocation.unrealized_gain_loss_percent a;
     Allocation.realized_gain_loss := Allocation.realized_gain_loss a |}.

Definition set_total_invested (t : Decimal) (a : Allocation.t)
    : Allocation.t :=
  {| Allocation.id := Allocation.id a;
     Allocation.client_id := Allocation.client_id a;
     Allocation.asset_id := Allocation.asset_id a;
     Allocation.quantity := Allocation.quantity a;
     Allocation.purchase_price := Allocation.purchase_price a;
     Allocation.purchase_date := Allocation.purchase_date a;
     Allocation.total_invested := t;
     Allocation.fees := Allocation.fees a;
     Allocation.is_active := Allocation.is_active a;
     Allocation.exit_price := Allocation.exit_price a;
     Allocation.exit_date := Allocation.exit_date a;
     Allocation.exit_fees := Allocation.exit_fees a;
     Allocation.last_price_check := Allocation.last_price_check a;
     Allocation.unrealized_gain_loss := Allocation.unrealized_gain_loss a;
     Allocation.unrealized_gain_loss_percent :=
       Allocation.unrealized_gain_loss_percent a;
     Allocation.realized_gain_loss := Allocation.realized_gain_loss a |}.

(** The loop of [setattr] over the fields that were sent.  [None] stands
    for a null sent for [quantity] or [fees]: both columns are not
    nullable, and the request then ends in the [TypeError] of
    [None * purchase_price] or in the integrity error of the commit. *)
Definition set_fields (d : AllocationUpdate) (a : Allocation.t)
    : option Allocation.t :=
  a1 ← match u_quantity d with
       | Unset => Some a
       | Null => None
       | Value q => Some (set_quantity q a)
       end;
  match u_fees d with
  | Unset => Some a1
  | Null => None
  | Value f => Some (set_fees f a1)
  end.

(** [update_allocation]: the lookup, the guard on closed positions, the
    fields, then the total invested, recomputed when a quantity was sent or
    the purchase price is not zero. *)
Definition update_allocation (allocation_id : Z)
    (allocation_data : AllocationUpdate) (db : AllocationsApi.Db)
    : AllocationsApi.Db * (HTTPException + Allocation.t) :=
  match AllocationsApi.allocations db !! allocation_id with
  | None => (db, inl (mkHTTPException 404 "Allocation not found"))
  | Some allocation =>
      if negb (Allocation.is_active allocation) then
        (db, inl (mkHTTPException 400 "Cannot update a closed allocation"))
      else match set_fields allocation_data allocation with
      | None => (db, inl (mkHTTPException 500 "Error updating allocation"))
      | Some allocation1 =>
          let sent_quantity :=
            match attribute (u_quantity allocation_data) with
            | Some q => Py.truthy q
            | None => false
            end in
          let allocation2 :=
            if sent_quantity
               || Py.truthy (Allocation.purchase_price allocation1)
            then set_total_invested
                   (Allocation.quantity allocation1
                    * Allocation.purchase_price allocation1)%Qc allocation1
            else allocation1 in
          let allocation3 := AllocationsApi.refresh allocation2 in
          (AllocationsApi.with_allocations db
             (<[allocation_id := allocation3]> (AllocationsApi.allocations db))
             (AllocationsApi.next_id db),
           inr allocation3)
      end
  end.

End AllocationsUpdate.

(** ** [app/utils/calculations.py]: changes against past closes *)

Module History.

(** [not price] for a price that is [None] or a [Decimal]. *)
Definition unset (price : option Decimal) : bool :=
  match price with
  | Some p => negb (Py.truthy p)
  | None => true
  end.

(** One of the three tests of the loop body: a price not yet set (or set
    to zero) takes the close of a bar that is old enough. *)
Definition pick (threshold days_ago : Z) (close : Decimal)
    (price : option Decimal) : option Decimal :=
  if unset price && bool_decide (threshold ≤ days_ago) then Some close
  else price.

(** The three prices the loop looks for. *)
Record prices := mkPrices {
  one_week_ago_price : option Decimal;
  one_month_ago_price : option Decimal;
  one_year_ago_price : option Decimal
}.

(** The loop body; [today] is [date.today()]. *)
Definition scan (today : date) (found : prices) (dr : Calculations.DailyReturn)
    : prices :=
  let days_ago := today - Calculations.dr_date dr in
  let close := Calculations.dr_close_price dr in
  {| one_week_ago_price := pick 7 days_ago close (one_week_ago_price found);
     one_month_ago_price := pick 30 days_ago close (one_month_ago_price found);
     one_year_ago_price := pick 365 days_ago close (one_year_ago_price found) |}.

(** The value stored for a price that is set and positive. *)
Definition change_percent (latest_price : Decimal) (price : option Decimal)
    : option Decimal :=
  match price with
  | Some p =>
      if Py.truthy p && Py.gt p 0
      then Some ((latest_price - p) / p * Py.dec 100)%Qc
      else None
  | None => None
  end.

Definition store (key : string) (value : option Decimal)
    (results : gmap string Decimal) : gmap string Decimal :=
  match value with
  | Some v => <[key := v]> results
  | None => results
  end.

(** [calculate_returns_from_history]: the bars are scanned from the last
    to the first. *)
Definition calculate_returns_from_history (today : date)
    (history : list Calculations.DailyReturn) (current_price : option Decimal)
    : gmap string Decimal :=
  match last history with
  | None => ∅
  | Some newest =>
      let latest_price :=
        Py.decimal_or current_price (Calculations.dr_close_price newest) in
      let found :=
        foldl (scan today) (mkPrices None None None) (reverse history) in
      store "yearly_change_percent"
        (change_percent latest_price (one_year_ago_price found))
        (store "monthly_change_percent"
           (change_percent latest_price (one_month_ago_price found))
           (store "weekly_change_percent"
              (change_percent latest_price (one_week_ago_price found))
              ∅))
  end.

End History.

(** ** More worked examples *)

Module Cases.

(** The position [a] with all its quantity multiplied by [k]. *)
Definition scaled (k : Decimal) (a : Allocation.t) : Allocation.t :=
  AllocationsUpdate.set_quantity (k * Allocation.quantity a)%Qc a.

(** The key of a price bar: its asset and its date. *)
Definition bar_key (b : Calculations.DailyReturn) : Z * date :=
  (Calculations.dr_asset_id b, Calculations.dr_date b).

(** Closes of asset 1 on the days 90, 95 and 99. *)
Definition closes : list Calculations.DailyReturn :=
  [ Calculations.mkDailyReturn 1 90 (Py.dec 8);
    Calculations.mkDailyReturn 1 95 (Py.dec 10);
    Calculations.mkDailyReturn 1 99 (Py.dec 11) ].

(** The reference close for a look-back of [threshold] days: that of the
    last bar of the history, in the order of the list, that is at least
    that old and has a nonzero close. *)
Definition reference (today : date) (threshold : Z)
    (history : list Calculations.DailyReturn) : option Decimal :=
  Calculations.dr_close_price
    <$> last (filter (fun b => threshold ≤ today - Calculations.dr_date b
                                ∧ Calculations.dr_close_price b ≠ 0%Qc)
                     history).

(** The change in percent from a reference close to the latest price, for
    a positive reference. *)
Definition change (latest_price : Decimal) (reference : option Decimal)
    : option Decimal :=
  p ← reference;
  if Py.gt p 0 then Some ((latest_price - p) / p * Py.dec 100)%Qc else None.

(** A position closed inside the date range of the request. *)
Definition exited_within (start_date end_date : date) (a : Allocation.t)
    : Prop :=
  match Allocation.exit_date a with
  | Some e => Dashboard.midnight start_date ≤ e ≤ Dashboard.midnight end_date
  | None => False
  end.

#[global] Instance exited_within_dec (start_date end_date : date)
    (a : Allocation.t) : Decision (exited_within start_date end_date a).
Proof. unfold exited_within. destruct (Allocation.exit_date a); apply _. Defined.

(** The proceeds of the positions bought in a bucket that were closed
    inside the date range: quantity times exit price, nothing for a
    position without an exit price. *)
Definition outflow_of_exits (start_date end_date : date)
    (period_type : string) (allocations : list Allocation.t) (bucket : date)
    : Decimal :=
  Py.sum ((fun a => Allocation.quantity a
                    * default 0 (Allocation.exit_price a))%Qc
          <$> filter (fun a => Spec.bucket_of period_type a = bucket
                               ∧ exited_within start_date end_date a
                               ∧ Allocation.is_active a = false)
                     allocations).

(** The commissions and the clients of an advisor, and the positions of a
    client. *)
Definition commissions_of (t : Dashboard.Tables) (a : Dashboard.Advisor)
    : list Dashboard.Commission :=
  filter (fun c => Dashboard.com_advisor_id c = Dashboard.adv_id a)
         (Dashboard.commissions t).

Definition clients_of (t : Dashboard.Tables) (a : Dashboard.Advisor)
    : list Dashboard.Client :=
  filter (fun k => Dashboard.cl_advisor_id k = Some (Dashboard.adv_id a))
         (Dashboard.clients t).

Definition positions_of (t : Dashboard.Tables) (k : Dashboard.Client)
    : list Allocation.t :=
  filter (fun al => Allocation.client_id al = Dashboard.cl_id k)
         (Dashboard.allocations t).

(** The join of the clients of an advisor with their positions, as the
    query of the top advisors joins them. *)
Definition client_join (t : Dashboard.Tables) (a : Dashboard.Advisor)
    : list (option Dashboard.Client * option Allocation.t) :=
  k ← Dashboard.outer (clients_of t a);
  al ← Dashboard.outer (match k with
                        | Some k' => positions_of t k'
                        | None => []
                        end);
  [(k, al)].

(** The number of rows that the clients of an advisor have in the join:
    for each client one row for each position, and one row for a client
    without a position. *)
Definition client_fan (t : Dashboard.Tables) (a : Dashboard.Advisor) : nat :=
  sum_list ((fun k => 1 `max` length (positions_of t k))%nat
            <$> clients_of t a).

(** The number of rows that the commissions of an advisor have in the
    join: one for each, and one for an advisor without a commission. *)
Definition commission_fan (t : Dashboard.Tables) (a : Dashboard.Advisor)
    : nat :=
  (1 `max` length (commissions_of t a))%nat.

(** A count as a decimal. *)
Definition count (n : nat) : Decimal := Py.dec (Z.of_nat n).

(** An office where the advisor has one commission of 100 and one client
    with two positions. *)
Definition office_two_positions : Dashboard.Tables :=
  {| Dashboard.advisors := [ Dashboard.mkAdvisor 1 "Ana" true ];
     Dashboard.commissions := [ Dashboard.mkCommission 1 (Py.dec 100) ];
     Dashboard.clients := [ Dashboard.mkClient 1 (Some 1) ];
     Dashboard.allocations :=
       [ Examples.holding_100; Examples.position_50 ] |}.

(** Asset 1 closing at 10 on three days: a price that does not move. *)
Definition flat_bars : list Calculations.DailyReturn :=
  [ Calculations.mkDailyReturn 1 1 (Py.dec 10);
    Calculations.mkDailyReturn 1 2 (Py.dec 10);
    Calculations.mkDailyReturn 1 3 (Py.dec 10) ].

(** A session holding the position of 100 units, and an order to raise
    its quantity to 150. *)
Definition session_holding : AllocationsApi.Db :=
  {| AllocationsApi.clients := {[ 1 ]};
     AllocationsApi.assets := {[ 1 := Asset.mk 1 (Some (Py.dec 10)) ]};
     AllocationsApi.allocations := {[ 1 := Examples.holding_100 ]};
     AllocationsApi.next_id := 2 |}.

Definition raise_to_150 : AllocationsUpdate.AllocationUpdate :=
  AllocationsUpdate.mkAllocationUpdate (AllocationsUpdate.Value (Py.dec 150))
    AllocationsUpdate.Unset.

End Cases.

(** * Properties *)

(** ** Comparisons and sums of decimals *)

Lemma truthy_true (d : Decimal) : Py.truthy d = true ↔ d ≠ 0%Qc.
Proof.
  unfold Py.truthy. rewrite negb_true_iff.
  split.
  - intros H ->. discriminate H.
  - intros H. apply not_true_is_false. intros E.
    apply H, Qc_is_canon, Qeq_bool_eq, E.
Qed.

Lemma truthy_false (d : Decimal) : Py.truthy d = false ↔ d = 0%Qc.
Proof.
  rewrite <- not_true_iff_false, truthy_true.
  destruct (Qc_eq_dec d 0%Qc); tauto.
Qed.

Lemma gt_true (a b : Decimal) : Py.gt a b = true ↔ (b < a)%Qc.
Proof.
  unfold Py.gt. change (b < a)%Qc with (a > b)%Qc.
  pose proof (Qcgt_alt a b) as G. simpl in G.
  destruct (a ?= b)%Qc; split; intros H; try discriminate H;
    try reflexivity; try (apply G; reflexivity);
    apply G in H; discriminate H.
Qed.

Lemma ge_true (a b : Decimal) : Py.ge a b = true ↔ (b <= a)%Qc.
Proof.
  unfold Py.ge. pose proof (Qcge_alt a b) as G. simpl in G.
  unfold Qcle. rewrite G.
  destruct (a ?= b)%Qc; split; congruence.
Qed.

Lemma sum_cons (x : Decimal) (l : list Decimal) :
  Py.sum (x :: l) = (x + Py.sum l)%Qc.
Proof. reflexivity. Qed.

Lemma sum_app (l k : list Decimal) :
  Py.sum (l ++ k) = (Py.sum l + Py.sum k)%Qc.
Proof.
  induction l as [|x l IH]; [by rewrite Qcplus_0_l|].
  rewrite <- app_comm_cons, !sum_cons, IH. ring.
Qed.

Lemma decimal_or_zero (x : option Decimal) :
  Py.decimal_or x 0%Qc = default 0%Qc x.
Proof.
  destruct x as [v|]; [|reflexivity]. simpl.
  destruct (Py.truthy v) eqn:E; [reflexivity|].
  symmetry. by apply truthy_false.
Qed.

(** ** Closing a position *)

(** C1. [close_position] clears [is_active], stores the exit price, the
    exit date (the current instant when none is given) and the exit fees
    (0 when none are given), sets the realized gain to
    quantity * exit_price - (total_invested + fees + exit_fees) and clears
    both unrealized fields; on the position of 50 units with 1000 invested
    and fees 10, an exit at 25 with exit fees 5 realizes 235. *)
Theorem close_position_realizes (now : datetime) (price : Decimal)
    (day : option datetime) (fees_out : option Decimal) (self : Allocation.t) :
  let closed := Allocation.close_position now price day fees_out self in
  (Allocation.is_active closed = false
   ∧ Allocation.exit_price closed = Some price
   ∧ Allocation.exit_date closed = Some (default now day)
   ∧ Allocation.exit_fees closed = default 0%Qc fees_out
   ∧ Allocation.realized_gain_loss closed
     = Some (Allocation.quantity self * price
             - (Allocation.total_invested self + Allocation.fees self
                + default 0%Qc fees_out))%Qc
   ∧ Allocation.unrealized_gain_loss closed = None
   ∧ Allocation.unrealized_gain_loss_percent closed = None)
  ∧ Allocation.realized_gain_loss
      (Allocation.close_position now (Py.dec 25) day (Some (Py.dec 5))
         Examples.position_50)
    = Some (Py.dec 235).
Proof.
  cbn zeta. split.
  - unfold Allocation.close_position; cbn [Allocation.is_active
      Allocation.exit_price Allocation.exit_date Allocation.exit_fees
      Allocation.realized_gain_loss Allocation.unrealized_gain_loss
      Allocation.unrealized_gain_loss_percent].
    rewrite decimal_or_zero. unfold Allocation.total_cost.
    repeat split.
  - unfold Allocation.close_position; cbn [Allocation.realized_gain_loss].
    apply (f_equal Some), Qc_is_canon. reflexivity.
Qed.

(** C6. The close endpoint on a position that is no longer active answers
    with the error 400 "Allocation is already closed" and leaves the
    session as it was: the stored position, with its exit fields and its
    realized gain, is the one from before the call.  The error names this
    case alone: the endpoint raises it for no other request. *)
Theorem close_allocation_rejects_closed (now : datetime) (allocation_id : Z)
    (close_data : AllocationsApi.AllocationClose) (db : AllocationsApi.Db)
    (allocation : Allocation.t) :
  AllocationsApi.allocations db !! allocation_id = Some allocation →
  Allocation.is_active allocation = false →
  AllocationsApi.close_allocation now allocation_id close_data db
  = (db, inl (mkHTTPException 400 "Allocation is already closed"))
  ∧ AllocationsApi.allocations
      (AllocationsApi.close_allocation now allocation_id close_data db).1
    !! allocation_id = Some allocation
  ∧ ∀ now' id' data' db' out e,
      AllocationsApi.close_allocation now' id' data' db' = (out, inl e) →
      (e = mkHTTPException 400 "Allocation is already closed"
       ↔ ∃ a, AllocationsApi.allocations db' !! id' = Some a
              ∧ Allocation.is_active a = false).
Proof.
  intros Hget Hclosed.
  assert (AllocationsApi.close_allocation now allocation_id close_data db
          = (db, inl (mkHTTPException 400 "Allocation is already closed")))
    as Hrej.
  { unfold AllocationsApi.close_allocation. by rewrite Hget, Hclosed. }
  split; [exact Hrej|]. split; [by rewrite Hrej|].
  intros now' id' data' db' out e Hcall.
  unfold AllocationsApi.close_allocation in Hcall.
  destruct (AllocationsApi.allocations db' !! id') as [a|].
  - destruct (Allocation.is_active a) eqn:Ha; simpl in Hcall;
      [discriminate Hcall|].
    injection Hcall as _ <-. split; [by exists a | done].
  - injection Hcall as _ <-. split; [discriminate | by intros (a & ? & _)].
Qed.

Lemma close_allocation_rejects_closed_witness :
  AllocationsApi.allocations Examples.session_closed !! 1
  = Some Examples.closed_position_50
  ∧ Allocation.is_active Examples.closed_position_50 = false
  ∧ AllocationsApi.close_allocation 9 1
      (AllocationsApi.mkAllocationClose (Py.dec 40) None 0%Qc)
      Examples.session_closed
    = (Examples.session_closed,
       inl (mkHTTPException 400 "Allocation is already closed")).
Proof.
  split; [reflexivity|]. split; [reflexivity|].
  apply (close_allocation_rejects_closed 9 1 _ Examples.session_closed
           Examples.closed_position_50); reflexivity.
Defined.

(** The method on its own has no such guard: called on the closed
    position it closes it again, at the new price. *)
Lemma close_position_on_closed :
  Allocation.is_active Examples.closed_position_50 = false
  ∧ Allocation.realized_gain_loss Examples.closed_position_50
    = Some (Py.dec 235)
  ∧ Allocation.realized_gain_loss
      (Allocation.close_position 9 (Py.dec 40) None (Some 0%Qc)
         Examples.closed_position_50)
    = Some (Py.dec 990).
Proof. repeat split; apply (f_equal Some), Qc_is_canon; reflexivity. Qed.

(** ** Valuing a position *)




(** ** Binary64 arithmetic *)

(** Multiplying by 1.0 is exact, for every binary64 number. *)
Lemma float_mul_1_l (x : float) : (1 * x)%float = x.
Proof.
  apply Prim2SF_inj. rewrite mul_spec.
  pose proof (Prim2SF_valid x) as V.
  change (Prim2SF 1) with (S754_finite false 4503599627370496 (-52)).
  destruct (Prim2SF x) as [s|s| |s m e]; try reflexivity.
  unfold SF64mul, SFmul. simpl xorb.
  unfold valid_binary, bounded, canonical_mantissa in V.
  apply andb_true_iff in V as [C B].
  apply Z.eqb_eq in C.
  unfold binary_round_aux, shr_fexp.
  cbv beta iota zeta delta [Pos.mul].
  cbn [Zdigits2 digits2_pos shr_record_of_loc].
  match goal with
  | |- context [fexp prec emax (Z.pos ?p + (-52 + e))] =>
      replace (Z.pos p + (-52 + e)) with (Z.pos (digits2_pos m) + e)
        by (repeat rewrite -> Pos2Z.inj_succ; lia)
  end.
  rewrite C. replace (e - (-52 + e)) with 52 by lia.
  cbn [shr SpecFloat.iter_pos shr_1 orb shr_m loc_of_shr_record
       round_nearest_even Zdigits2].
  replace (-52 + e + 52) with e by lia.
  rewrite C, Z.sub_diag. cbn [shr shr_m]. rewrite B. reflexivity.
Qed.

(** ** Sorted keys of a dict *)

Lemma sorted_Permutation (l : list date) : Py.sorted l ≡ₚ l.
Proof. apply merge_sort_Permutation. Qed.

Lemma sorted_elem (l : list date) (d : date) : d ∈ Py.sorted l ↔ d ∈ l.
Proof. by rewrite sorted_Permutation. Qed.

Lemma le_sorted_NoDup_lt (l : list date) :
  StronglySorted Z.le l → NoDup l → StronglySorted Z.lt l.
Proof.
  induction 1 as [|x l Hl IH Hx]; intros Hnd; [constructor|].
  apply NoDup_cons in Hnd as [Hnotin Hnd].
  constructor; [by apply IH|].
  apply Forall_forall. intros y Hy.
  rewrite Forall_forall in Hx. specialize (Hx y Hy).
  assert (x ≠ y) by (intros ->; done). lia.
Qed.

Lemma sorted_lt (l : list date) :
  NoDup l → StronglySorted Z.lt (Py.sorted l).
Proof.
  intros Hnd. apply le_sorted_NoDup_lt.
  - apply (StronglySorted_merge_sort Z.le).
  - by rewrite sorted_Permutation.
Qed.

Section sorted_keys.
Context {V : Type}.
Implicit Types m : gmap date V.

Lemma sorted_keys_Permutation m : Py.sorted_keys m ≡ₚ elements (dom m).
Proof. apply sorted_Permutation. Qed.

Lemma sorted_keys_elem m d : d ∈ Py.sorted_keys m ↔ is_Some (m !! d).
Proof.
  by rewrite sorted_keys_Permutation, elem_of_elements, elem_of_dom.
Qed.

Lemma sorted_keys_NoDup m : NoDup (Py.sorted_keys m).
Proof. rewrite sorted_keys_Permutation. apply NoDup_elements. Qed.

Lemma sorted_keys_length m : length (Py.sorted_keys m) = size m.
Proof.
  rewrite sorted_keys_Permutation. rewrite <- size_dom. reflexivity.
Qed.

Lemma sorted_keys_lt m : StronglySorted Z.lt (Py.sorted_keys m).
Proof. apply sorted_lt, NoDup_elements. Qed.

Lemma sorted_keys_empty : Py.sorted_keys (∅ : gmap date V) = [].
Proof.
  apply Permutation_nil_r. rewrite sorted_keys_Permutation.
  by rewrite dom_empty_L, elements_empty.
Qed.

(** The entries of a dict in ascending order of their keys. *)
Lemma sorted_keys_entries m :
  ∃ entries : list (date * V),
    entries.*1 = Py.sorted_keys m
    ∧ entries ≡ₚ map_to_list m
    ∧ Forall (fun e => m !! e.1 = Some e.2) entries.
Proof.
  assert (∀ days, (∀ d, d ∈ days → is_Some (m !! d)) →
            ∃ entries : list (date * V),
              entries.*1 = days
              ∧ Forall (fun e => m !! e.1 = Some e.2) entries) as Hbuild.
  { induction days as [|d days IH]; intros Hin.
    - by exists [].
    - destruct (Hin d) as [v Hv]; [by left|].
      destruct IH as (entries & Hfst & Hall).
      { intros d' Hd'. apply Hin. by right. }
      exists ((d, v) :: entries). split; [by rewrite <- Hfst|].
      by constructor. }
  destruct (Hbuild (Py.sorted_keys m)) as (entries & Hfst & Hall).
  { intros d. by rewrite sorted_keys_elem. }
  exists entries. split; [done|]. split; [|done].
  assert (NoDup entries.*1) as Hnd
    by (rewrite Hfst; apply sorted_keys_NoDup).
  apply NoDup_Permutation.
  - by apply NoDup_fmap_1 in Hnd.
  - apply NoDup_map_to_list.
  - intros [d v]. rewrite elem_of_map_to_list. split.
    + intros Hin. rewrite Forall_forall in Hall. exact (Hall _ Hin).
    + intros Hlook.
      assert (d ∈ entries.*1) as Hd
        by (rewrite Hfst; apply sorted_keys_elem; eauto).
      apply list_elem_of_fmap in Hd as ([d' v'] & -> & Hin).
      rewrite Forall_forall in Hall. specialize (Hall _ Hin).
      simpl in *. by simplify_eq.
Qed.
End sorted_keys.

(** ** Time-weighted return *)

Lemma twr_loop_entries (m : gmap date float) (entries : list (date * float))
    (acc : float) :
  Forall (fun e => m !! e.1 = Some e.2) entries →
  Calculations.twr_loop m entries.*1 acc
  = Some (foldl (fun p e => p * (1 + e.2))%float acc entries).
Proof.
  intros Hall. revert acc.
  induction Hall as [|[d r] entries Hd _ IH]; intros acc; [reflexivity|].
  simpl in *. rewrite Hd. simpl. apply IH.
Qed.

Lemma calculate_twr_entries (daily_returns : gmap date float) :
  ∃ entries : list (date * float),
    entries ≡ₚ map_to_list daily_returns
    ∧ StronglySorted Z.lt entries.*1
    ∧ Calculations.calculate_twr daily_returns
      = Some (foldl (fun p e => p * (1 + e.2)) 1 entries - 1)%float.
Proof.
  destruct (sorted_keys_entries daily_returns)
    as (entries & Hfst & Hperm & Hall).
  exists entries. split; [done|]. split.
  { rewrite Hfst. apply sorted_keys_lt. }
  unfold Calculations.calculate_twr. case_decide as Hsize.
  - apply map_size_empty_iff in Hsize. subst daily_returns.
    rewrite map_to_list_empty in Hperm.
    apply Permutation_nil_r in Hperm. by subst entries.
  - rewrite <- Hfst, (twr_loop_entries _ _ _ Hall). reflexivity.
Qed.

(** C2. [calculate_twr] is the product of the factors 1 + r over the
    entries in ascending order of their dates, minus 1, where the product
    is taken from 1.0 from left to right and every operation is a binary64
    operation: 0 on the empty dict, (1 + r) - 1 on a single return r, and
    (1 + r1) * (1 + r2) - 1 on two returns, r1 at the earlier date.  On
    the single return 0.1 the result is 0.10000000000000009. *)
Theorem calculate_twr_chain_links (daily_returns : gmap date float) :
  (∃ entries : list (date * float),
     entries ≡ₚ map_to_list daily_returns
     ∧ StronglySorted Z.lt entries.*1
     ∧ Calculations.calculate_twr daily_returns
       = Some (foldl (fun p e => p * (1 + e.2)) 1 entries - 1)%float)
  ∧ Calculations.calculate_twr ∅ = Some 0%float
  ∧ (∀ (d : date) (r : float),
       Calculations.calculate_twr {[ d := r ]} = Some ((1 + r) - 1)%float)
  ∧ (∀ (d1 d2 : date) (r1 r2 : float),
       d1 < d2 →
       Calculations.calculate_twr {[ d1 := r1; d2 := r2 ]}
       = Some ((1 + r1) * (1 + r2) - 1)%float)
  ∧ (∀ d : date,
       Calculations.calculate_twr {[ d := 0x1.999999999999ap-4%float ]}
       = Some 0x1.99999999999a0p-4%float).
Proof.
  assert (∀ (d : date) (r : float),
            Calculations.calculate_twr {[ d := r ]}
            = Some ((1 + r) - 1)%float) as Hsingle.
  { intros d r.
    destruct (calculate_twr_entries {[ d := r ]}) as (entries & Hperm & _ & ->).
    rewrite map_to_list_singleton in Hperm.
    apply Permutation_singleton_r in Hperm as ->.
    simpl. by rewrite float_mul_1_l. }
  split; [apply calculate_twr_entries|]. split; [reflexivity|]. split.
  - exact Hsingle.
  - split; [|intros d; rewrite Hsingle; vm_compute; reflexivity].
    intros d1 d2 r1 r2 Hlt.
    destruct (calculate_twr_entries {[ d1 := r1; d2 := r2 ]})
      as (entries & Hperm & Hsorted & ->).
    rewrite map_to_list_insert, map_to_list_singleton in Hperm
      by (apply lookup_singleton_ne; lia).
    symmetry in Hperm. apply Permutation_length_2_inv in Hperm as [->| ->].
    + simpl. by rewrite float_mul_1_l.
    + simpl in Hsorted. apply StronglySorted_inv in Hsorted as [_ Hhd].
      apply Forall_cons in Hhd as [Hhd _]. lia.
Qed.

Lemma calculate_twr_chain_links_witness :
  2 < 5
  ∧ Calculations.calculate_twr
      {[ 2 := 0x1p-2%float; 5 := 0x1p-1%float ]}
    = Some 0x1.cp-1%float.
Proof.
  split; [lia|].
  pose proof (calculate_twr_chain_links ∅) as (_ & _ & _ & Htwo & _).
  rewrite (Htwo 2 5 _ _); [reflexivity | lia].
Defined.

(** The single return 0.1 is not returned unchanged: 1.0 + 0.1 is rounded,
    and the result is 0.10000000000000009. *)
Lemma calculate_twr_single_not_identity :
  ¬ (∀ (d : date) (r : float),
       Calculations.calculate_twr {[ d := r ]} = Some r).
Proof.
  intros H. specialize (H 1 0x1.999999999999ap-4%float).
  apply (f_equal (fun o => Prim2SF (default 0%float o))) in H.
  vm_compute in H. discriminate H.
Qed.

(** ** The portfolio-value series *)

Lemma price_on_bar_close (price_history : list Calculations.DailyReturn)
    (asset_id : Z) (day : date) :
  Calculations.price_on (Calculations.asset_prices price_history) asset_id day
  = Spec.bar_close price_history asset_id day.
Proof.
  unfold Spec.bar_close, Calculations.asset_prices.
  induction price_history as [|b ph IH] using rev_ind; [reflexivity|].
  rewrite foldl_app, filter_app. cbn [foldl].
  set (acc := foldl _ ∅ ph) in *.
  unfold Calculations.price_on in *.
  destruct (decide (Calculations.dr_asset_id b = asset_id
                    ∧ Calculations.dr_date b = day)) as [[Ha Hd]|Hne].
  - rewrite (filter_cons_True _ b) by done. rewrite filter_nil, last_snoc.
    rewrite Ha, lookup_insert_eq. simpl.
    rewrite Hd. apply lookup_insert_eq.
  - rewrite (filter_cons_False _ b) by done. rewrite filter_nil, app_nil_r.
    rewrite <- IH.
    destruct (decide (Calculations.dr_asset_id b = asset_id)) as [Ha|Ha].
    + rewrite Ha, lookup_insert_eq. simpl.
      rewrite lookup_insert_ne; [reflexivity|]. intros Hd. by apply Hne.
    + by rewrite lookup_insert_ne.
Qed.

Lemma all_dates_elem (price_history : list Calculations.DailyReturn)
    (day : date) :
  day ∈ Calculations.all_dates price_history
  ↔ day ∈ Calculations.dr_date <$> price_history.
Proof.
  unfold Calculations.all_dates.
  by rewrite sorted_elem, elem_of_elements, elem_of_list_to_set.
Qed.

Lemma day_value_fold (prices : gmap Z (gmap date Decimal))
    (allocations : list Allocation.t) (day : date) (acc : Decimal) :
  foldl (fun day_value alloc =>
           match Calculations.price_on prices (Allocation.asset_id alloc) day
           with
           | Some price =>
               if Py.truthy price
               then (day_value + Allocation.quantity alloc * price)%Qc
               else day_value
           | None => day_value
           end)
        acc allocations
  = (acc + Py.sum ((fun alloc =>
                      Allocation.quantity alloc
                      * default 0 (Calculations.price_on prices
                                     (Allocation.asset_id alloc) day))
                   <$> allocations))%Qc.
Proof.
  revert acc. induction allocations as [|alloc allocations IH]; intros acc.
  - symmetry. apply Qcplus_0_r.
  - cbn [foldl fmap list_fmap]. rewrite IH, sum_cons.
    destruct (Calculations.price_on _ _ _) as [price|];
      cbn [default from_option id].
    + destruct (Py.truthy price) eqn:E.
      * ring.
      * apply truthy_false in E. subst price. ring.
    + ring.
Qed.

Lemma day_value_computed (allocations : list Allocation.t)
    (price_history : list Calculations.DailyReturn) (day : date) :
  Calculations.day_value (Calculations.asset_prices price_history)
    allocations day
  = Spec.computed_value allocations price_history day.
Proof.
  unfold Calculations.day_value, Spec.computed_value.
  rewrite day_value_fold, Qcplus_0_l. f_equal.
  apply list_fmap_ext. intros _ alloc _. by rewrite price_on_bar_close.
Qed.

Lemma portfolio_value_fold (value : date → Decimal) (days : list date)
    (acc : gmap date Decimal) (day : date) :
  foldl (fun pv d => if Py.gt (value d) 0 then <[d := value d]> pv else pv)
        acc days !! day
  = if bool_decide (day ∈ days) && Py.gt (value day) 0
    then Some (value day) else acc !! day.
Proof.
  revert acc. induction days as [|d days IH]; intros acc; [reflexivity|].
  cbn [foldl]. rewrite IH.
  destruct (decide (day ∈ days)) as [Hin|Hnotin].
  - rewrite !bool_decide_eq_true_2 by (done || by right). cbn [andb].
    destruct (Py.gt (value day) 0) eqn:Hday; [reflexivity|].
    destruct (Py.gt (value d) 0) eqn:Hd; [|reflexivity].
    rewrite lookup_insert_ne; [reflexivity|]. intros ->. congruence.
  - rewrite (bool_decide_eq_false_2 _ Hnotin). cbn [andb].
    destruct (decide (day = d)) as [->|Hne].
    + rewrite bool_decide_eq_true_2 by by left. cbn [andb].
      destruct (Py.gt (value d) 0); [apply lookup_insert_eq | reflexivity].
    + rewrite bool_decide_eq_false_2 by (rewrite elem_of_cons; tauto).
      cbn [andb]. destruct (Py.gt (value d) 0); [|reflexivity].
      by rewrite lookup_insert_ne.
Qed.

Lemma portfolio_value_lookup (allocations : list Allocation.t)
    (price_history : list Calculations.DailyReturn) (day : date) :
  Calculations.portfolio_value allocations price_history !! day
  = if bool_decide (day ∈ Calculations.dr_date <$> price_history)
       && Py.gt (Spec.computed_value allocations price_history day) 0
    then Some (Spec.computed_value allocations price_history day)
    else None.
Proof.
  unfold Calculations.portfolio_value. cbn zeta.
  rewrite (portfolio_value_fold
             (Calculations.day_value (Calculations.asset_prices price_history)
                allocations)).
  rewrite day_value_computed, lookup_empty.
  by rewrite (bool_decide_ext _ _ (all_dates_elem price_history day)).
Qed.

Lemma portfolio_value_positive (allocations : list Allocation.t)
    (price_history : list Calculations.DailyReturn) (day : date) (v : Decimal) :
  Calculations.portfolio_value allocations price_history !! day = Some v →
  (0 < v)%Qc.
Proof.
  rewrite portfolio_value_lookup.
  destruct (bool_decide _); [|discriminate].
  destruct (Py.gt _ 0) eqn:E; [|discriminate].
  intros [= <-]. by apply gt_true.
Qed.

Lemma portfolio_value_iff (allocations : list Allocation.t)
    (price_history : list Calculations.DailyReturn) (day : date) (v : Decimal) :
  Calculations.portfolio_value allocations price_history !! day = Some v
  ↔ day ∈ Calculations.dr_date <$> price_history
    ∧ (0 < Spec.computed_value allocations price_history day)%Qc
    ∧ v = Spec.computed_value allocations price_history day.
Proof.
  rewrite portfolio_value_lookup.
  destruct (decide (day ∈ Calculations.dr_date <$> price_history))
    as [Hin|Hout].
  - rewrite (bool_decide_eq_true_2 _ Hin). cbn [andb].
    destruct (Py.gt _ 0) eqn:E.
    + apply gt_true in E. split; [by intros [= <-] | by intros (_ & _ & ->)].
    + split; [discriminate|]. intros (_ & Hpos & _).
      apply gt_true in Hpos. congruence.
  - rewrite (bool_decide_eq_false_2 _ Hout). cbn [andb].
    split; [discriminate | by intros (? & _)].
Qed.

Lemma computed_value_no_bar (allocations : list Allocation.t)
    (price_history : list Calculations.DailyReturn) (day : date) :
  (∀ alloc, alloc ∈ allocations →
     Spec.bar_close price_history (Allocation.asset_id alloc) day = None) →
  Spec.computed_value allocations price_history day = 0%Qc.
Proof.
  unfold Spec.computed_value.
  induction allocations as [|alloc allocations IH]; intros Hnone;
    [reflexivity|].
  cbn [fmap list_fmap]. rewrite sum_cons, IH.
  - rewrite Hnone by by left. cbn [default from_option id]. ring.
  - intros alloc' Hin. apply Hnone. by right.
Qed.

(** C4. The portfolio-value series holds exactly the dates of the price
    history whose computed value is strictly positive, each with that
    value: a date whose computed value is 0, and so a date on which no held
    asset has a bar, has no entry, and every date of the series is the
    date of some bar.  With a holding of asset 1, bars of asset 1 on days 1
    and 3 and a bar of another asset on day 2, the series has the values
    1000 and 1200 on days 1 and 3 and no entry on day 2. *)
Theorem portfolio_value_sparse (allocations : list Allocation.t)
    (price_history : list Calculations.DailyReturn) :
  let pv := Calculations.portfolio_value allocations price_history in
  let value := Spec.computed_value allocations price_history in
  (∀ day v, pv !! day = Some v ↔
            day ∈ Calculations.dr_date <$> price_history
            ∧ (0 < value day)%Qc ∧ v = value day)
  ∧ (∀ day, value day = 0%Qc → pv !! day = None)
  ∧ (∀ day,
       (∀ alloc, alloc ∈ allocations →
          Spec.bar_close price_history (Allocation.asset_id alloc) day = None) →
       pv !! day = None)
  ∧ (let example :=
       Calculations.portfolio_value [Examples.holding_100]
         Examples.bars_day_2_uncovered in
     2 ∈ Calculations.dr_date <$> Examples.bars_day_2_uncovered
     ∧ example !! 1 = Some (Py.dec 1000)
     ∧ example !! 2 = None
     ∧ example !! 3 = Some (Py.dec 1200)).
Proof.
  cbn zeta.
  assert (∀ day, Spec.computed_value allocations price_history day = 0%Qc →
            Calculations.portfolio_value allocations price_history !! day
            = None) as Hzero.
  { intros day Hval. apply eq_None_not_Some. intros [v Hv].
    apply portfolio_value_iff in Hv as (_ & Hpos & _). rewrite Hval in Hpos.
    by apply Qclt_not_eq in Hpos. }
  split; [apply portfolio_value_iff|]. split; [exact Hzero|]. split.
  - intros day Hnone. by apply Hzero, computed_value_no_bar.
  - split; [set_solver|]. repeat split; vm_compute; reflexivity.
Qed.

(** ** Daily returns *)

Lemma sorted_lookup_lt (l : list date) (i j : nat) (a b : date) :
  StronglySorted Z.lt l → l !! i = Some a → l !! j = Some b →
  (i < j)%nat → a < b.
Proof.
  intros Hsorted. revert i j.
  induction Hsorted as [|x l Hl IH Hx]; intros i j Hi Hj Hlt;
    [by rewrite lookup_nil in Hi|].
  destruct j as [|j]; [lia|]. cbn in Hj.
  destruct i as [|i].
  - cbn in Hi. injection Hi as ->.
    rewrite Forall_forall in Hx. apply Hx.
    by apply list_elem_of_lookup_2 in Hj.
  - cbn in Hi. apply (IH i j); [done..|lia].
Qed.

Lemma sorted_lookup_le (l : list date) (i j : nat) (a b : date) :
  StronglySorted Z.lt l → l !! i = Some a → l !! j = Some b →
  (i ≤ j)%nat → a ≤ b.
Proof.
  intros Hsorted Hi Hj Hle.
  destruct (decide (i = j)) as [->|Hne].
  - rewrite Hi in Hj. injection Hj as ->. lia.
  - pose proof (sorted_lookup_lt l i j a b Hsorted Hi Hj). lia.
Qed.

(** Two dates follow each other in a series exactly when they are
    neighbours in the sorted list of its dates. *)
Lemma consecutive_neighbours {V} (series : gmap date V)
    (yesterday today : date) :
  Spec.consecutive series yesterday today
  ↔ ∃ i, Py.sorted_keys series !! i = Some yesterday
         ∧ Py.sorted_keys series !! S i = Some today.
Proof.
  pose proof (sorted_keys_lt series) as Hsorted.
  split.
  - intros (Hy & Ht & Hlt & Hgap).
    apply sorted_keys_elem, list_elem_of_lookup in Hy as [i Hi].
    apply sorted_keys_elem, list_elem_of_lookup in Ht as [j Hj].
    exists i. split; [done|].
    assert (i < j)%nat as Hij.
    { destruct (decide (i < j)%nat); [done|].
      pose proof (sorted_lookup_le _ j i _ _ Hsorted Hj Hi). lia. }
    destruct (decide (S i = j)) as [->|Hne]; [done|].
    destruct (lookup_lt_is_Some_2 (Py.sorted_keys series) (S i)) as [d Hd].
    { apply lookup_lt_Some in Hj. lia. }
    exfalso. apply (Hgap d).
    + apply sorted_keys_elem. by apply list_elem_of_lookup_2 in Hd.
    + pose proof (sorted_lookup_lt _ i (S i) _ _ Hsorted Hi Hd).
      pose proof (sorted_lookup_lt _ (S i) j _ _ Hsorted Hd Hj). lia.
  - intros (i & Hi & Hj). repeat split.
    + apply sorted_keys_elem. by apply list_elem_of_lookup_2 in Hi.
    + apply sorted_keys_elem. by apply list_elem_of_lookup_2 in Hj.
    + apply (sorted_lookup_lt _ i (S i) _ _ Hsorted Hi Hj). lia.
    + intros d Hd [Hlo Hhi].
      apply sorted_keys_elem, list_elem_of_lookup in Hd as [k Hk].
      destruct (decide (k ≤ i)%nat).
      * pose proof (sorted_lookup_le _ k i _ _ Hsorted Hk Hi). lia.
      * pose proof (sorted_lookup_le _ (S i) k _ _ Hsorted Hj Hk). lia.
Qed.

(** The state of the loop after its first [k] turns. *)
Lemma returns_fold (pv : gmap date Decimal) (days : list date) (k : nat) :
  NoDup days →
  (∀ d, d ∈ days → is_Some (pv !! d)) →
  (k < length days)%nat →
  ∃ daily_returns,
    foldl (Calculations.returns_step pv days) (Some ∅) (seq 1 k)
    = Some daily_returns
    ∧ ∀ today x,
        daily_returns !! today = Some x ↔
        ∃ i yesterday v_yesterday v_today,
          (i < k)%nat
          ∧ days !! i = Some yesterday ∧ days !! S i = Some today
          ∧ pv !! yesterday = Some v_yesterday ∧ pv !! today = Some v_today
          ∧ (0 < v_yesterday)%Qc
          ∧ x = Py.float_of_decimal
                  (Py.truediv (v_today - v_yesterday) v_yesterday).
Proof.
  intros Hnd Hin. induction k as [|k IH]; intros Hk.
  - exists ∅. split; [reflexivity|]. intros today x. rewrite lookup_empty.
    split; [discriminate|]. intros (i & _ & _ & _ & Hi & _). lia.
  - destruct IH as (dr & Hfold & Hdr); [lia|].
    rewrite seq_S, foldl_app, Hfold. cbn [foldl Nat.add].
    destruct (lookup_lt_is_Some_2 days (S k)) as [today Htoday]; [lia|].
    destruct (lookup_lt_is_Some_2 days k) as [yesterday Hyesterday]; [lia|].
    destruct (Hin yesterday) as [vy Hvy];
      [by apply list_elem_of_lookup_2 in Hyesterday|].
    destruct (Hin today) as [vt Hvt];
      [by apply list_elem_of_lookup_2 in Htoday|].
    unfold Calculations.returns_step. cbn [mbind option_bind].
    rewrite Htoday. cbn [mbind option_bind].
    replace (S k - 1)%nat with k by lia.
    rewrite Hyesterday. cbn [mbind option_bind].
    rewrite Hvy. cbn [mbind option_bind].
    destruct (Py.gt vy 0) eqn:Hgt.
    + rewrite Hvt. cbn [mbind option_bind]. apply gt_true in Hgt.
      eexists. split; [reflexivity|]. intros d x.
      destruct (decide (d = today)) as [->|Hne].
      * rewrite lookup_insert_eq. split.
        -- intros [= <-]. exists k, yesterday, vy, vt.
           repeat split; (done || lia).
        -- intros (i & y & vy' & vt' & Hi & Hy & Ht & Hvy' & Hvt' & _ & ->).
           assert (S i = S k) as [= ->] by (eapply NoDup_lookup; eauto).
           by simplify_eq.
      * rewrite lookup_insert_ne by done. rewrite Hdr. split.
        -- intros (i & y & vy' & vt' & Hi & Hrest).
           exists i, y, vy', vt'. split; [lia | done].
        -- intros (i & y & vy' & vt' & Hi & Hy & Ht & Hrest).
           exists i, y, vy', vt'. split; [|done].
           assert (i ≠ k) by (intros ->; congruence). lia.
    + eexists. split; [reflexivity|]. intros d x. rewrite Hdr. split.
      * intros (i & y & vy' & vt' & Hi & Hrest).
        exists i, y, vy', vt'. split; [lia | done].
      * intros (i & y & vy' & vt' & Hi & Hy & Ht & Hvy' & Hvt' & Hpos & ->).
        exists i, y, vy', vt'. split; [|done].
        assert (i ≠ k); [|lia]. intros ->.
        apply gt_true in Hpos. simplify_eq. congruence.
Qed.

Lemma daily_returns_of_spec (pv : gmap date Decimal) :
  ∃ daily_returns,
    Calculations.daily_returns_of pv = Some daily_returns
    ∧ ∀ today x,
        daily_returns !! today = Some x ↔
        ∃ yesterday v_yesterday v_today,
          Spec.consecutive pv yesterday today
          ∧ pv !! yesterday = Some v_yesterday ∧ pv !! today = Some v_today
          ∧ (0 < v_yesterday)%Qc
          ∧ x = Py.float_of_decimal
                  (Py.truediv (v_today - v_yesterday) v_yesterday).
Proof.
  unfold Calculations.daily_returns_of. cbn zeta.
  destruct (decide (length (Py.sorted_keys pv) = 0%nat)) as [Hlen|Hlen].
  - rewrite Hlen. exists ∅. split; [reflexivity|]. intros today x.
    rewrite lookup_empty. split; [discriminate|].
    intros (y & _ & _ & Hcons & _).
    apply consecutive_neighbours in Hcons as (i & Hi & _).
    apply lookup_lt_Some in Hi. lia.
  - destruct (returns_fold pv (Py.sorted_keys pv)
                (length (Py.sorted_keys pv) - 1))
      as (dr & Hfold & Hdr).
    + apply sorted_keys_NoDup.
    + intros d. by rewrite sorted_keys_elem.
    + lia.
    + exists dr. split; [exact Hfold|]. intros today x. rewrite Hdr. split.
      * intros (i & y & vy & vt & _ & Hi & Hj & Hrest).
        exists y, vy, vt. split; [|done].
        apply consecutive_neighbours. by exists i.
      * intros (y & vy & vt & Hcons & Hrest).
        apply consecutive_neighbours in Hcons as (i & Hi & Hj).
        exists i, y, vy, vt. split; [|done].
        apply lookup_lt_Some in Hj. lia.
Qed.

Lemma consecutive_pred_unique {V} (series : gmap date V)
    (y1 y2 today : date) :
  Spec.consecutive series y1 today → Spec.consecutive series y2 today →
  y1 = y2.
Proof.
  intros (i & Hi & Hti)%consecutive_neighbours
         (j & Hj & Htj)%consecutive_neighbours.
  assert (S i = S j) as [= ->]
    by (eapply NoDup_lookup; eauto using sorted_keys_NoDup).
  congruence.
Qed.

(** The statement about the returns of a series, for any series. *)
Lemma daily_returns_of_consecutive (pv : gmap date Decimal) :
  ∃ daily_returns,
    Calculations.daily_returns_of pv = Some daily_returns
    ∧ (∀ yesterday today v_yesterday v_today,
         Spec.consecutive pv yesterday today →
         pv !! yesterday = Some v_yesterday → pv !! today = Some v_today →
         ((0 < v_yesterday)%Qc →
          daily_returns !! today
          = Some (Py.float_of_decimal
                  (Py.truediv (v_today - v_yesterday) v_yesterday)))
         ∧ (¬ (0 < v_yesterday)%Qc → daily_returns !! today = None))
    ∧ (∀ today,
         is_Some (daily_returns !! today) →
         ∃ yesterday v_yesterday,
           Spec.consecutive pv yesterday today
           ∧ pv !! yesterday = Some v_yesterday ∧ (0 < v_yesterday)%Qc).
Proof.
  destruct (daily_returns_of_spec pv) as (dr & Hdr & Hspec).
  exists dr. split; [exact Hdr|]. split.
  - intros y t vy vt Hcons Hvy Hvt. split.
    + intros Hpos. apply Hspec. by exists y, vy, vt.
    + intros Hneg. apply eq_None_not_Some. intros [x Hx].
      apply Hspec in Hx as (y' & vy' & vt' & Hcons' & Hvy' & _ & Hpos & _).
      assert (y' = y) as -> by by eapply consecutive_pred_unique.
      by simplify_eq.
  - intros t [x Hx].
    apply Hspec in Hx as (y & vy & vt & Hcons & Hvy & _ & Hpos & _).
    by exists y, vy.
Qed.

(** C3. In the dict of daily returns of [calculate_daily_returns], a date
    that follows another in the portfolio-value series has the entry
    (value_today - value_yesterday) / value_yesterday when the value of the
    earlier date is positive and no entry otherwise, and only such dates
    have an entry: nothing is filled in.  The entry is the number the
    program stores: the quotient of the two decimals under the decimal
    context (28 significant digits, ties to even), converted by [float].
    With 100 units valued 1000 on day 1 and 1200 on day 3 and no bar on
    day 2, the only return is 0.2, on day 3; with 0.0001 units and closes
    of 29788650.1367 and 68760730.7788 the return is
    1.308286225232001886986665795 as a decimal and 0x1.4eebd8972dc1cp+0 as
    a float. *)
Theorem daily_returns_between_consecutive_dates
    (allocations : list Allocation.t)
    (price_history : list Calculations.DailyReturn)
    (start_date end_date : date) :
  let pv := Calculations.portfolio_value allocations price_history in
  (∃ daily_returns,
     Calculations.calculate_daily_returns allocations price_history
       start_date end_date
     = Some (daily_returns, Calculations.start_value_of pv,
             Calculations.end_value_of pv)
     ∧ (∀ yesterday today v_yesterday v_today,
          Spec.consecutive pv yesterday today →
          pv !! yesterday = Some v_yesterday → pv !! today = Some v_today →
          ((0 < v_yesterday)%Qc →
           daily_returns !! today
           = Some (Py.float_of_decimal
                     (Py.truediv (v_today - v_yesterday) v_yesterday)))
          ∧ (¬ (0 < v_yesterday)%Qc → daily_returns !! today = None))
     ∧ (∀ today,
          is_Some (daily_returns !! today) →
          ∃ yesterday v_yesterday,
            Spec.consecutive pv yesterday today
            ∧ pv !! yesterday = Some v_yesterday ∧ (0 < v_yesterday)%Qc))
  ∧ Calculations.calculate_daily_returns [Examples.holding_100]
      Examples.bars_day_1_3 1 3
    = Some ({[ 3 := 0x1.999999999999ap-3%float ]},
            Py.dec 1000, Py.dec 1200)
  ∧ Py.truediv (Py.dec 1200 - Py.dec 1000) (Py.dec 1000) = Py.frac 1 5
  ∧ (∃ daily_returns start_value end_value,
       Calculations.calculate_daily_returns [Examples.holding_small]
         Examples.bars_long_quotient 1 2
       = Some (daily_returns, start_value, end_value)
       ∧ daily_returns = {[ 2 := 0x1.4eebd8972dc1cp+0%float ]}
       ∧ start_value = Py.frac 297886501367 100000000
       ∧ end_value = Py.frac 687607307788 100000000)
  ∧ Py.truediv (Py.frac 687607307788 100000000
                - Py.frac 297886501367 100000000)
      (Py.frac 297886501367 100000000)
    = Py.frac 1308286225232001886986665795 1000000000000000000000000000.
Proof.
  cbn zeta.
  split; [|split; [|split; [|split]]];
    [|vm_compute; reflexivity |apply Qc_is_canon; vm_compute; reflexivity
     | |apply Qc_is_canon; vm_compute; reflexivity];
    [|eexists _, _, _; split; [reflexivity|];
      split; [vm_compute; reflexivity|];
      split; apply Qc_is_canon; vm_compute; reflexivity].
  destruct (daily_returns_of_consecutive
              (Calculations.portfolio_value allocations price_history))
    as (dr & Hdr & Hcons & Honly).
  exists dr. split; [|by split].
  unfold Calculations.calculate_daily_returns. cbn zeta. by rewrite Hdr.
Qed.

(** When every value of the series is positive, the dates with a return
    are the dates of the series after the first. *)
Lemma daily_returns_positive_dates (pv : gmap date Decimal)
    (daily_returns : gmap date float) :
  (∀ d v, pv !! d = Some v → (0 < v)%Qc) →
  Calculations.daily_returns_of pv = Some daily_returns →
  ∀ d, is_Some (daily_returns !! d) ↔ d ∈ drop 1 (Py.sorted_keys pv).
Proof.
  intros Hpos Hdr d.
  destruct (daily_returns_of_spec pv) as (dr & Hdr' & Hspec).
  assert (dr = daily_returns) as -> by congruence.
  rewrite list_elem_of_lookup. setoid_rewrite lookup_drop. split.
  - intros [x Hx].
    apply Hspec in Hx as (y & _ & _ & Hcons & _).
    apply consecutive_neighbours in Hcons as (i & _ & Hj). by exists i.
  - intros [i Hj]. cbn in Hj.
    destruct (lookup_lt_is_Some_2 (Py.sorted_keys pv) i) as [y Hi].
    { apply lookup_lt_Some in Hj. lia. }
    assert (is_Some (pv !! y)) as [vy Hvy]
      by (apply sorted_keys_elem; by apply list_elem_of_lookup_2 in Hi).
    assert (is_Some (pv !! d)) as [vt Hvt]
      by (apply sorted_keys_elem; by apply list_elem_of_lookup_2 in Hj).
    eexists. apply Hspec. exists y, vy, vt.
    split; [apply consecutive_neighbours; by exists i|].
    repeat split; eauto.
Qed.

Lemma daily_returns_positive_size (pv : gmap date Decimal)
    (daily_returns : gmap date float) :
  (∀ d v, pv !! d = Some v → (0 < v)%Qc) →
  Calculations.daily_returns_of pv = Some daily_returns →
  size daily_returns = (size pv - 1)%nat.
Proof.
  intros Hpos Hdr.
  assert (dom daily_returns = list_to_set (drop 1 (Py.sorted_keys pv)))
    as Hdom.
  { apply set_eq. intros d.
    rewrite elem_of_dom, elem_of_list_to_set.
    by apply daily_returns_positive_dates. }
  rewrite <- size_dom, Hdom, size_list_to_set.
  - by rewrite length_drop, sorted_keys_length.
  - apply (sublist_NoDup _ (Py.sorted_keys pv));
      [apply sorted_keys_NoDup | apply sublist_drop].
Qed.

(** C10. The dict of daily returns of [calculate_daily_returns] has
    max(0, n - 1) entries, n being the number of dates of the
    portfolio-value series: all its values are positive, and every date of
    the series that has an earlier one has an entry. *)
Theorem daily_returns_count (allocations : list Allocation.t)
    (price_history : list Calculations.DailyReturn)
    (start_date end_date : date) :
  let pv := Calculations.portfolio_value allocations price_history in
  ∃ daily_returns start_value end_value,
    Calculations.calculate_daily_returns allocations price_history
      start_date end_date
    = Some (daily_returns, start_value, end_value)
    ∧ Z.of_nat (size daily_returns) = Z.max 0 (Z.of_nat (size pv) - 1)
    ∧ (∀ d v, pv !! d = Some v → (0 < v)%Qc)
    ∧ (∀ d, is_Some (daily_returns !! d) ↔
            is_Some (pv !! d) ∧ ∃ d', is_Some (pv !! d') ∧ d' < d).
Proof.
  cbn zeta.
  set (pv := Calculations.portfolio_value allocations price_history).
  assert (∀ d v, pv !! d = Some v → (0 < v)%Qc) as Hpos
    by (intros d v; apply portfolio_value_positive).
  destruct (daily_returns_of_spec pv) as (dr & Hdr & _).
  exists dr, (Calculations.start_value_of pv), (Calculations.end_value_of pv).
  split.
  { unfold Calculations.calculate_daily_returns. cbn zeta. fold pv.
    by rewrite Hdr. }
  split.
  { rewrite (daily_returns_positive_size pv dr Hpos Hdr). lia. }
  split; [exact Hpos|].
  intros d. rewrite (daily_returns_positive_dates pv dr Hpos Hdr).
  pose proof (sorted_keys_lt pv) as Hsorted.
  rewrite list_elem_of_lookup. setoid_rewrite lookup_drop. split.
  - intros [i Hj]. cbn in Hj.
    destruct (lookup_lt_is_Some_2 (Py.sorted_keys pv) i) as [y Hi].
    { apply lookup_lt_Some in Hj. lia. }
    split; [apply sorted_keys_elem; by apply list_elem_of_lookup_2 in Hj|].
    exists y. split.
    + apply sorted_keys_elem. by apply list_elem_of_lookup_2 in Hi.
    + apply (sorted_lookup_lt _ i (S i) _ _ Hsorted Hi Hj). lia.
  - intros (Hd & d' & Hd' & Hlt).
    apply sorted_keys_elem, list_elem_of_lookup in Hd as [j Hj].
    apply sorted_keys_elem, list_elem_of_lookup in Hd' as [i Hi].
    destruct j as [|j]; [|by exists j].
    pose proof (sorted_lookup_le _ 0 i _ _ Hsorted Hj Hi). lia.
Qed.

(** ** Net new money: the combined series *)

Lemma nnm_fold (inflows_data outflows_data : gmap date Decimal)
    (period_type : string) (buckets : list date) :
  Dashboard.PeriodType_valid period_type = true →
  ∃ rows,
    foldl (Dashboard.nnm_step inflows_data outflows_data period_type)
          (Some ([], 0%Qc)) buckets
    = Some (rows, Py.sum (Dashboard.net_flow <$> rows))
    ∧ Dashboard.period <$> rows = buckets
    ∧ (∀ r, r ∈ rows →
         Dashboard.inflows r
         = default 0%Qc (inflows_data !! Dashboard.period r)
         ∧ Dashboard.outflows r
           = default 0%Qc (outflows_data !! Dashboard.period r)
         ∧ Dashboard.net_flow r
           = (Dashboard.inflows r - Dashboard.outflows r)%Qc)
    ∧ (∀ k r, rows !! k = Some r →
         Dashboard.cumulative_net r
         = Py.sum (Dashboard.net_flow <$> take (S k) rows)).
Proof.
  intros Hvalid. induction buckets as [|d buckets IH] using rev_ind.
  - exists []. split; [reflexivity|]. split; [reflexivity|]. split.
    + by intros r ?%elem_of_nil.
    + intros k r Hk. by rewrite lookup_nil in Hk.
  - destruct IH as (rows & Hfold & Hperiods & Hrows & Hcum).
    rewrite foldl_app, Hfold. cbn [foldl].
    unfold Dashboard.nnm_step at 1. cbn [mbind option_bind].
    rewrite Hvalid.
    set (r := Dashboard.mkNetNewMoneyData _ _ _ _ _ _).
    assert (Py.sum (Dashboard.net_flow <$> rows ++ [r])
            = Dashboard.cumulative_net r) as Hsum.
    { rewrite fmap_app, sum_app. cbn [fmap list_fmap]. rewrite sum_cons.
      change (Py.sum []) with 0%Qc. subst r.
      cbn [Dashboard.net_flow Dashboard.cumulative_net]. ring. }
    exists (rows ++ [r]). split; [by rewrite Hsum|]. split.
    { by rewrite fmap_app, Hperiods. }
    split.
    + intros r' [Hin|Hin%list_elem_of_singleton]%elem_of_app;
        [by apply Hrows|].
      by subst r'.
    + intros k r' Hk.
      destruct (decide (k < length rows)%nat) as [Hlt|Hge].
      * rewrite lookup_app_l in Hk by done.
        rewrite take_app_le by lia. by apply Hcum.
      * rewrite lookup_app_r in Hk by lia.
        apply list_lookup_singleton_Some in Hk as [Hk <-].
        rewrite take_ge by (rewrite length_app; cbn; lia).
        by rewrite Hsum.
Qed.

Lemma get_net_new_money_history_combine (now : datetime)
    (start_date end_date : option date) (period_type : string)
    (allocations : list Allocation.t) (rows : list Dashboard.NetNewMoneyData) :
  Dashboard.combine
    (Dashboard.inflows_data (default (Dashboard.date_of now - 365) start_date)
       (default (Dashboard.date_of now) end_date) period_type allocations)
    (Dashboard.outflows_data (default (Dashboard.date_of now - 365) start_date)
       (default (Dashboard.date_of now) end_date) period_type allocations)
    period_type = Some rows →
  Dashboard.get_net_new_money_history now start_date end_date period_type
    allocations = inr rows.
Proof.
  intros Hrows. unfold Dashboard.get_net_new_money_history. cbn zeta.
  by rewrite Hrows.
Qed.

Lemma get_net_new_money_history_rows (now : datetime)
    (start_date end_date : option date) (period_type : string)
    (allocations : list Allocation.t) (rows : list Dashboard.NetNewMoneyData) :
  Dashboard.get_net_new_money_history now start_date end_date period_type
    allocations = inr rows →
  Dashboard.combine
    (Dashboard.inflows_data (default (Dashboard.date_of now - 365) start_date)
       (default (Dashboard.date_of now) end_date) period_type allocations)
    (Dashboard.outflows_data (default (Dashboard.date_of now - 365) start_date)
       (default (Dashboard.date_of now) end_date) period_type allocations)
    period_type = Some rows.
Proof.
  unfold Dashboard.get_net_new_money_history. cbn zeta.
  destruct (Dashboard.combine _ _ _); [|discriminate]. by intros [= ->].
Qed.

Lemma combine_spec (inflows_data outflows_data : gmap date Decimal)
    (period_type : string) :
  Dashboard.PeriodType_valid period_type = true →
  ∃ rows,
    Dashboard.combine inflows_data outflows_data period_type = Some rows
    ∧ StronglySorted Z.lt (Dashboard.period <$> rows)
    ∧ (∀ d, d ∈ Dashboard.period <$> rows ↔
            is_Some (inflows_data !! d) ∨ is_Some (outflows_data !! d))
    ∧ (∀ r, r ∈ rows →
         Dashboard.inflows r
         = default 0%Qc (inflows_data !! Dashboard.period r)
         ∧ Dashboard.outflows r
           = default 0%Qc (outflows_data !! Dashboard.period r)
         ∧ Dashboard.net_flow r
           = (Dashboard.inflows r - Dashboard.outflows r)%Qc)
    ∧ (∀ k r, rows !! k = Some r →
         Dashboard.cumulative_net r
         = Py.sum (Dashboard.net_flow <$> take (S k) rows)).
Proof.
  intros Hvalid. unfold Dashboard.combine. cbn zeta.
  destruct (nnm_fold inflows_data outflows_data period_type
              (Py.sorted (elements (dom inflows_data ∪ dom outflows_data)))
              Hvalid) as (rows & Hfold & Hperiods & Hrows & Hcum).
  exists rows. rewrite Hfold. split; [reflexivity|]. rewrite Hperiods.
  split; [apply sorted_lt, NoDup_elements|]. split; [|by split].
  intros d.
  by rewrite sorted_elem, elem_of_elements, elem_of_union, !elem_of_dom.
Qed.

Lemma nnm_fold_None (inflows_data outflows_data : gmap date Decimal)
    (period_type : string) (buckets : list date) :
  foldl (Dashboard.nnm_step inflows_data outflows_data period_type)
        None buckets = None.
Proof. induction buckets as [|d buckets IH]; [reflexivity | exact IH]. Qed.

(** What holds of the rows whenever the loop ends without an error. *)
Lemma combine_rows (inflows_data outflows_data : gmap date Decimal)
    (period_type : string) (rows : list Dashboard.NetNewMoneyData) :
  Dashboard.combine inflows_data outflows_data period_type = Some rows →
  StronglySorted Z.lt (Dashboard.period <$> rows)
  ∧ (∀ d, d ∈ Dashboard.period <$> rows ↔
          is_Some (inflows_data !! d) ∨ is_Some (outflows_data !! d))
  ∧ (∀ r, r ∈ rows →
       Dashboard.inflows r
       = default 0%Qc (inflows_data !! Dashboard.period r)
       ∧ Dashboard.outflows r
         = default 0%Qc (outflows_data !! Dashboard.period r)
       ∧ Dashboard.net_flow r
         = (Dashboard.inflows r - Dashboard.outflows r)%Qc)
  ∧ (∀ k r, rows !! k = Some r →
       Dashboard.cumulative_net r
       = Py.sum (Dashboard.net_flow <$> take (S k) rows)).
Proof.
  intros Hrows.
  destruct (Dashboard.PeriodType_valid period_type) eqn:Hvalid.
  - destruct (combine_spec inflows_data outflows_data period_type Hvalid)
      as (rows' & Hrows' & Hprops).
    by replace rows with rows' by congruence.
  - unfold Dashboard.combine in Hrows. cbn zeta in Hrows.
    destruct (Py.sorted (elements (dom inflows_data ∪ dom outflows_data)))
      as [|d buckets] eqn:Hbuckets.
    + injection Hrows as <-. split; [constructor|]. split; [|split].
      * intros d. split; [by intros ?%elem_of_nil|]. intros Hd.
        assert (d ∈ Py.sorted (elements (dom inflows_data ∪ dom outflows_data)))
          as Hin.
        { apply sorted_elem, elem_of_elements, elem_of_union.
          by rewrite !elem_of_dom. }
        rewrite Hbuckets in Hin. by apply elem_of_nil in Hin.
      * by intros r ?%elem_of_nil.
      * intros k r Hk. by rewrite lookup_nil in Hk.
    + cbn [foldl] in Hrows. unfold Dashboard.nnm_step at 2 in Hrows.
      cbn [mbind option_bind] in Hrows.
      rewrite Hvalid, nnm_fold_None in Hrows. discriminate Hrows.
Qed.

(** C8. In every answer of the net-new-money endpoint the buckets are the
    dates that are keys of the inflow series or of the outflow series, in
    ascending order; the net flow of a bucket is its inflows minus its
    outflows; the cumulative net is the running sum of the net flows, from
    0 before the first bucket; and the cumulative net of the last bucket is
    the sum of all net flows.  The endpoint answers whenever the period
    type is one of the response model. *)
Theorem net_new_money_running_total (now : datetime)
    (start_date end_date : option date) (period_type : string)
    (allocations : list Allocation.t) :
  let first_day := default (Dashboard.date_of now - 365) start_date in
  let last_day := default (Dashboard.date_of now) end_date in
  let inflows_data :=
    Dashboard.inflows_data first_day last_day period_type allocations in
  let outflows_data :=
    Dashboard.outflows_data first_day last_day period_type allocations in
  (∀ rows,
     Dashboard.get_net_new_money_history now start_date end_date period_type
       allocations = inr rows →
     StronglySorted Z.lt (Dashboard.period <$> rows)
     ∧ (∀ d, d ∈ Dashboard.period <$> rows ↔
             is_Some (inflows_data !! d) ∨ is_Some (outflows_data !! d))
     ∧ (∀ r, r ∈ rows →
          Dashboard.inflows r
          = default 0%Qc (inflows_data !! Dashboard.period r)
          ∧ Dashboard.outflows r
            = default 0%Qc (outflows_data !! Dashboard.period r)
          ∧ Dashboard.net_flow r
            = (Dashboard.inflows r - Dashboard.outflows r)%Qc)
     ∧ (∀ r, rows !! 0%nat = Some r →
          Dashboard.cumulative_net r = (0 + Dashboard.net_flow r)%Qc)
     ∧ (∀ k r r', rows !! k = Some r → rows !! S k = Some r' →
          Dashboard.cumulative_net r'
          = (Dashboard.cumulative_net r + Dashboard.net_flow r')%Qc)
     ∧ (∀ r, last rows = Some r →
          Dashboard.cumulative_net r = Py.sum (Dashboard.net_flow <$> rows)))
  ∧ (Dashboard.PeriodType_valid period_type = true →
     ∃ rows,
       Dashboard.get_net_new_money_history now start_date end_date
         period_type allocations = inr rows).
Proof.
  cbn zeta. split.
  - intros rows Hanswer.
    apply get_net_new_money_history_rows in Hanswer.
    apply combine_rows in Hanswer as (Hsorted & Hkeys & Hrows & Hcum).
    split; [exact Hsorted|]. split; [exact Hkeys|]. split; [exact Hrows|].
    split; [|split].
    + intros r Hr. rewrite (Hcum 0%nat r Hr).
      destruct rows as [|r0 rows]; [discriminate Hr|].
      cbn in Hr. injection Hr as ->.
      rewrite firstn_cons, take_0. cbn [fmap list_fmap]. rewrite sum_cons.
      change (Py.sum []) with 0%Qc. ring.
    + intros k r r' Hk Hk'.
      rewrite (Hcum (S k) r' Hk'), (Hcum k r Hk).
      rewrite (take_S_r rows (S k) r' Hk'), fmap_app, sum_app.
      cbn [fmap list_fmap]. rewrite sum_cons.
      change (Py.sum []) with 0%Qc. ring.
    + intros r Hlast. rewrite last_lookup in Hlast.
      rewrite (Hcum _ r Hlast). f_equal. f_equal.
      apply take_ge. apply lookup_lt_Some in Hlast. lia.
  - intros Hvalid.
    destruct (combine_spec
                (Dashboard.inflows_data
                   (default (Dashboard.date_of now - 365) start_date)
                   (default (Dashboard.date_of now) end_date)
                   period_type allocations)
                (Dashboard.outflows_data
                   (default (Dashboard.date_of now - 365) start_date)
                   (default (Dashboard.date_of now) end_date)
                   period_type allocations)
                period_type Hvalid) as (rows & Hcombine & _).
    exists rows. by apply get_net_new_money_history_combine.
Qed.

Lemma net_new_money_running_total_witness :
  Dashboard.PeriodType_valid "daily" = true
  ∧ ∃ rows,
      Dashboard.get_net_new_money_history (Dashboard.midnight 100) None None
        "daily" Examples.flows = inr rows
      ∧ Dashboard.period <$> rows = [10; 12]
      ∧ ∀ r, last rows = Some r →
             Dashboard.cumulative_net r
             = Py.sum (Dashboard.net_flow <$> rows).
Proof.
  split; [reflexivity|].
  destruct (net_new_money_running_total (Dashboard.midnight 100) None None
              "daily" Examples.flows) as [Hprops Hanswer].
  destruct (Hanswer eq_refl) as (rows & Hrows).
  destruct (Hprops rows Hrows) as (_ & _ & _ & _ & _ & Hlast).
  exists rows. split; [exact Hrows|]. split; [|exact Hlast].
  vm_compute in Hrows. injection Hrows as <-. reflexivity.
Defined.

(** ** Net new money: the inflows query *)

Lemma date_of_midnight (d : date) :
  Dashboard.date_of (Dashboard.midnight d) = d.
Proof.
  unfold Dashboard.date_of, Dashboard.midnight. by apply Z.div_mul.
Qed.

Lemma period_of_midnight (period_type : string) (a : Allocation.t) :
  Dashboard.period_of period_type a
  = Dashboard.midnight (Spec.bucket_of period_type a).
Proof.
  unfold Spec.bucket_of, Dashboard.period_of, Dashboard.date_trunc.
  cbn zeta. by rewrite date_of_midnight.
Qed.

(** A group of [group_sum] holds the sum over the rows of its key. *)
Lemma group_sum_lookup (key : Allocation.t → datetime)
    (value : Allocation.t → option Decimal) (rows : list Allocation.t)
    (k : datetime) :
  Dashboard.group_sum key value rows !! k
  = match filter (fun a => key a = k) rows with
    | [] => None
    | sel => Some (Py.sum ((fun a => default 0%Qc (value a)) <$> sel))
    end.
Proof.
  unfold Dashboard.group_sum.
  induction rows as [|a rows IH] using rev_ind; [reflexivity|].
  rewrite foldl_app, filter_app. cbn [foldl].
  set (acc := foldl _ ∅ rows) in *.
  destruct (decide (key a = k)) as [Ha|Ha].
  - rewrite (filter_cons_True _ a) by done. rewrite filter_nil.
    rewrite Ha, lookup_insert_eq, IH.
    destruct (filter _ rows) as [|b sel].
    + cbn [app default from_option id fmap list_fmap].
      rewrite sum_cons. change (Py.sum []) with 0%Qc. f_equal. ring.
    + rewrite <- app_comm_cons. cbn [default from_option id].
      f_equal. rewrite app_comm_cons, fmap_app, sum_app.
      cbn [fmap list_fmap]. rewrite (sum_cons _ []).
      change (Py.sum []) with 0%Qc. ring.
  - rewrite (filter_cons_False _ a) by done. rewrite filter_nil, app_nil_r.
    by rewrite lookup_insert_ne.
Qed.

Lemma ordered_rows_elem (groups : gmap datetime Decimal) (k : datetime)
    (v : Decimal) :
  (k, v) ∈ Dashboard.ordered_rows groups ↔ groups !! k = Some v.
Proof.
  unfold Dashboard.ordered_rows. rewrite list_elem_of_omap. split.
  - intros (k' & _ & Hk'). destruct (groups !! k') eqn:E; by simplify_eq/=.
  - intros Hk. exists k. split; [apply sorted_keys_elem; eauto|].
    by rewrite Hk.
Qed.

Lemma dict_by_date_fold (rows : list (datetime * Decimal))
    (acc : gmap date Decimal) (d : date) (v : Decimal) :
  (∀ r, r ∈ rows → Dashboard.date_of r.1 = d → r.2 = v) →
  foldl (fun dict row => <[Dashboard.date_of row.1 := row.2]> dict) acc rows
    !! d
  = if bool_decide (d ∈ (fun r : datetime * Decimal => Dashboard.date_of r.1)
                         <$> rows)
    then Some v else acc !! d.
Proof.
  revert acc. induction rows as [|r rows IH]; intros acc Hsame;
    [reflexivity|].
  cbn [foldl]. rewrite IH by (intros r' Hr'; apply Hsame; by right).
  cbn [fmap list_fmap].
  destruct (decide (d ∈ (fun r : datetime * Decimal => Dashboard.date_of r.1)
                          <$> rows)) as [Hin|Hout].
  - by rewrite !bool_decide_eq_true_2 by (done || by right).
  - rewrite (bool_decide_eq_false_2 _ Hout).
    destruct (decide (Dashboard.date_of r.1 = d)) as [Hd|Hd].
    + rewrite bool_decide_eq_true_2 by (rewrite <- Hd; by left).
      rewrite Hd, lookup_insert_eq. f_equal. apply Hsame; [by left | done].
    + rewrite bool_decide_eq_false_2
        by (rewrite elem_of_cons; intros [?|?]; congruence).
      by rewrite lookup_insert_ne.
Qed.

(** With groups keyed by midnights, the dict by date has the group of each
    date. *)
Lemma dict_by_date_lookup (groups : gmap datetime Decimal) (d : date) :
  (∀ k, is_Some (groups !! k) →
        k = Dashboard.midnight (Dashboard.date_of k)) →
  Dashboard.dict_by_date (Dashboard.ordered_rows groups) !! d
  = groups !! Dashboard.midnight d.
Proof.
  intros Hmid. unfold Dashboard.dict_by_date.
  assert (∀ r, r ∈ Dashboard.ordered_rows groups →
            Dashboard.date_of r.1 = d →
            groups !! Dashboard.midnight d = Some r.2) as Hrow.
  { intros [k v] Hr Hd. cbn in *. apply ordered_rows_elem in Hr.
    rewrite (Hmid k) in Hr by eauto. by rewrite Hd in Hr. }
  destruct (groups !! Dashboard.midnight d) as [v|] eqn:Hv.
  - rewrite (dict_by_date_fold _ _ d v).
    + rewrite bool_decide_eq_true_2; [done|].
      apply list_elem_of_fmap. exists (Dashboard.midnight d, v).
      split; [cbn; by rewrite date_of_midnight | by apply ordered_rows_elem].
    + intros r Hr Hd. specialize (Hrow r Hr Hd). congruence.
  - rewrite (dict_by_date_fold _ _ d 0%Qc).
    + rewrite bool_decide_eq_false_2; [apply lookup_empty|].
      intros (r & Hd & Hr)%list_elem_of_fmap.
      by specialize (Hrow r Hr (eq_sym Hd)).
    + intros r Hr Hd. by specialize (Hrow r Hr Hd).
Qed.

Lemma inflow_selected_true (start_date end_date : date) (a : Allocation.t) :
  Dashboard.inflow_selected start_date end_date a
  ↔ Spec.purchased_within start_date end_date a
    ∧ Allocation.is_active a = true.
Proof.
  unfold Dashboard.inflow_selected, Spec.purchased_within.
  rewrite !andb_True, !bool_decide_spec, Is_true_true. tauto.
Qed.

(** The inflows dict: at each date, the sum over the active allocations
    bought in that bucket and in the range; no entry without one. *)
Lemma inflows_data_lookup (start_date end_date : date) (period_type : string)
    (allocations : list Allocation.t) (bucket : date) :
  default 0%Qc
    (Dashboard.inflows_data start_date end_date period_type allocations
     !! bucket)
  = Spec.inflow_of_active start_date end_date period_type allocations bucket.
Proof.
  unfold Dashboard.inflows_data, Spec.inflow_of_active.
  rewrite dict_by_date_lookup.
  - rewrite group_sum_lookup, list_filter_filter.
    rewrite (list_filter_iff _
               (fun a => Spec.bucket_of period_type a = bucket
                         ∧ Spec.purchased_within start_date end_date a
                         ∧ Allocation.is_active a = true)).
    + by destruct (filter _ allocations).
    + intros a. rewrite inflow_selected_true, period_of_midnight. split.
      * intros [Hk ?]. split; [|done].
        apply (f_equal Dashboard.date_of) in Hk.
        by rewrite !date_of_midnight in Hk.
      * intros [<- ?]. by split.
  - intros k [v Hk]. rewrite group_sum_lookup in Hk.
    destruct (filter _ _) as [|a sel] eqn:Hsel; [discriminate Hk|].
    assert (a ∈ a :: sel) as Ha by by left.
    rewrite <- Hsel in Ha. apply list_elem_of_filter in Ha as [<- _].
    by rewrite period_of_midnight, date_of_midnight.
Qed.

Lemma filter_ext_elem {A} (P Q : A → Prop) `{!∀ x, Decision (P x)}
    `{!∀ x, Decision (Q x)} (l : list A) :
  (∀ x, x ∈ l → P x ↔ Q x) → filter P l = filter Q l.
Proof.
  induction l as [|x l IH]; intros Hext; [reflexivity|].
  assert (filter P l = filter Q l) as Hrest
    by (apply IH; intros y Hy; apply Hext; by right).
  destruct (decide (P x)) as [HP|HP].
  - rewrite !filter_cons_True by (done || by apply Hext; [left|]).
    by rewrite Hrest.
  - rewrite !filter_cons_False; [done | | done].
    intros HQ. apply HP. by apply Hext; [left|].
Qed.

(** The bounds of the query and the days of the range select the same
    purchases, but for a purchase made in the course of the last day. *)
Lemma purchased_within_on_days (start_date end_date : date)
    (a : Allocation.t) :
  (Dashboard.date_of (Allocation.purchase_date a) = end_date →
   Allocation.purchase_date a = Dashboard.midnight end_date) →
  Spec.purchased_within start_date end_date a
  ↔ Spec.purchased_on_days start_date end_date a.
Proof.
  unfold Spec.purchased_within, Spec.purchased_on_days, Dashboard.date_of,
    Dashboard.midnight.
  set (t := Allocation.purchase_date a). intros Hlast.
  assert (0 < Allocation.us_per_day) as Hday by reflexivity.
  pose proof (Z.mul_div_le t _ Hday) as Hfloor.
  pose proof (Z.mul_succ_div_gt t _ Hday) as Hceil.
  split.
  - intros [Hlow Hhigh]. split.
    + apply Z.div_le_lower_bound; lia.
    + apply Z.div_le_upper_bound; lia.
  - intros [Hlow Hhigh]. split.
    + apply Z.le_trans with (t `div` Allocation.us_per_day
                             * Allocation.us_per_day); [|lia].
      apply Z.mul_le_mono_nonneg_r; lia.
    + destruct (decide (t `div` Allocation.us_per_day = end_date))
        as [Heq|Hne]; [rewrite (Hlast Heq); lia|].
      apply Z.lt_le_incl, Z.lt_le_trans with
        (Allocation.us_per_day * Z.succ (t `div` Allocation.us_per_day));
        [exact Hceil|].
      rewrite (Z.mul_comm end_date).
      apply Z.mul_le_mono_nonneg_l; lia.
Qed.

(** C5. When no allocation was bought in the course of the last day of the
    date range, in every answer of the net-new-money endpoint the inflows
    of a bucket are the sum of [total_invested] over the allocations bought
    in that bucket, on a day of the date range, that are active now: an
    allocation that has been closed since is left out.  The endpoint
    answers whenever the period type is one of the response model. *)
Theorem inflows_sum_of_active_purchases (now : datetime)
    (start_date end_date : option date) (period_type : string)
    (allocations : list Allocation.t) :
  let first_day := default (Dashboard.date_of now - 365) start_date in
  let last_day := default (Dashboard.date_of now) end_date in
  Spec.none_bought_during last_day allocations →
  (∀ rows r,
     Dashboard.get_net_new_money_history now start_date end_date period_type
       allocations = inr rows →
     r ∈ rows →
     Dashboard.inflows r
     = Spec.inflow_of_active_purchases first_day last_day period_type
         allocations (Dashboard.period r))
  ∧ (Dashboard.PeriodType_valid period_type = true →
     ∃ rows,
       Dashboard.get_net_new_money_history now start_date end_date
         period_type allocations = inr rows).
Proof.
  cbn zeta. intros Hnone. split.
  - intros rows r Hanswer Hr.
    apply get_net_new_money_history_rows in Hanswer.
    apply combine_rows in Hanswer as (_ & _ & Hrows & _).
    destruct (Hrows r Hr) as (-> & _). rewrite inflows_data_lookup.
    unfold Spec.inflow_of_active, Spec.inflow_of_active_purchases.
    do 2 f_equal. apply filter_ext_elem. intros a Ha.
    rewrite (purchased_within_on_days _ _ a (Hnone a Ha)). tauto.
  - intros Hvalid.
    destruct (combine_spec
                (Dashboard.inflows_data
                   (default (Dashboard.date_of now - 365) start_date)
                   (default (Dashboard.date_of now) end_date)
                   period_type allocations)
                (Dashboard.outflows_data
                   (default (Dashboard.date_of now - 365) start_date)
                   (default (Dashboard.date_of now) end_date)
                   period_type allocations)
                period_type Hvalid) as (rows & Hcombine & _).
    exists rows. by apply get_net_new_money_history_combine.
Qed.

Lemma inflows_sum_of_active_purchases_witness :
  Spec.none_bought_during 100 Examples.flows
  ∧ Dashboard.PeriodType_valid "daily" = true
  ∧ ∃ rows,
      Dashboard.get_net_new_money_history (Dashboard.midnight 100) None None
        "daily" Examples.flows = inr rows
      ∧ Dashboard.inflows <$> rows = [Py.dec 500; Py.dec 70]
      ∧ ∀ r, r ∈ rows →
          Dashboard.inflows r
          = Spec.inflow_of_active_purchases (-265) 100 "daily"
              Examples.flows (Dashboard.period r).
Proof.
  assert (Spec.none_bought_during 100 Examples.flows) as Hnone.
  { intros a Ha Hday. unfold Examples.flows in Ha.
    rewrite !elem_of_cons, elem_of_nil in Ha.
    destruct Ha as [->|[->|[->|[]]]]; vm_compute in Hday; discriminate Hday. }
  split; [exact Hnone|]. split; [reflexivity|].
  destruct (inflows_sum_of_active_purchases (Dashboard.midnight 100) None
              None "daily" Examples.flows Hnone) as [Hprops Hanswer].
  destruct (Hanswer eq_refl) as (rows & Hrows).
  exists rows. split; [exact Hrows|]. split.
  - vm_compute in Hrows. injection Hrows as <-. reflexivity.
  - intros r Hr. exact (Hprops rows r Hrows Hr).
Defined.

(** The closed purchase of 1000 on day 10 is missing from the inflows of
    that day, which are 500 and not 1500. *)
Lemma inflows_leave_out_closed :
  ¬ (∀ (now : datetime) (start_date end_date : option date)
       (period_type : string) (allocations : list Allocation.t)
       (rows : list Dashboard.NetNewMoneyData) (r : Dashboard.NetNewMoneyData),
       Dashboard.get_net_new_money_history now start_date end_date
         period_type allocations = inr rows →
       r ∈ rows →
       Dashboard.inflows r
       = Spec.inflow_including_closed
           (default (Dashboard.date_of now - 365) start_date)
           (default (Dashboard.date_of now) end_date)
           period_type allocations (Dashboard.period r)).
Proof.
  intros H.
  specialize (H (Dashboard.midnight 100) None None "daily" Examples.flows).
  destruct (Dashboard.get_net_new_money_history _ _ _ _ _)
    as [e|rows] eqn:E; vm_compute in E; [discriminate E|].
  injection E as <-.
  specialize (H _ _ eq_refl (list_elem_of_here _ _)).
  apply (f_equal Qcanon.this) in H. vm_compute in H. discriminate H.
Qed.

(** ** Top advisors *)

Lemma sum_nonneg (l : list Decimal) :
  (∀ x, x ∈ l → (0 <= x)%Qc) → (0 <= Py.sum l)%Qc.
Proof.
  induction l as [|x l IH]; intros Hl; [apply Qcle_refl|].
  rewrite sum_cons, <- (Qcplus_0_l 0%Qc).
  apply Qcplus_le_compat; [apply Hl; by left|].
  apply IH. intros y Hy. apply Hl. by right.
Qed.

Lemma sum_nonneg_zero (l : list Decimal) :
  (∀ x, x ∈ l → (0 <= x)%Qc) → Py.sum l = 0%Qc → ∀ x, x ∈ l → x = 0%Qc.
Proof.
  induction l as [|x l IH]; intros Hl Hsum y Hy;
    [by apply elem_of_nil in Hy|].
  rewrite sum_cons in Hsum.
  assert (0 <= x)%Qc as Hx by (apply Hl; by left).
  assert (0 <= Py.sum l)%Qc as Hrest
    by (apply sum_nonneg; intros z Hz; apply Hl; by right).
  assert (x = 0%Qc) as Hx0.
  { apply Qcle_antisym; [|done]. rewrite <- Hsum, <- (Qcplus_0_r x) at 1.
    apply Qcplus_le_compat; [apply Qcle_refl | done]. }
  apply elem_of_cons in Hy as [->|Hy]; [done|].
  apply IH; [intros z Hz; apply Hl; by right | | done].
  by rewrite Hx0, Qcplus_0_l in Hsum.
Qed.

Lemma sum_all_zero (l : list Decimal) :
  (∀ x, x ∈ l → x = 0%Qc) → Py.sum l = 0%Qc.
Proof.
  induction l as [|x l IH]; intros Hl; [reflexivity|].
  rewrite sum_cons, (Hl x) by by left.
  rewrite IH; [apply Qcplus_0_l|]. intros y Hy. apply Hl. by right.
Qed.

Lemma sql_sum_all_zero (column : list (option Decimal)) :
  (∀ x, Some x ∈ column → x = 0%Qc) →
  default 0%Qc (Dashboard.sql_sum column) = 0%Qc.
Proof.
  intros Hzero. unfold Dashboard.sql_sum.
  destruct (omap id column) as [|v values] eqn:Hvalues; [reflexivity|].
  cbn [default from_option id]. apply sum_all_zero.
  intros x Hx. rewrite <- Hvalues in Hx.
  apply list_elem_of_omap in Hx as (o & Ho & Heq). cbn in Heq. subst o.
  by apply Hzero.
Qed.

Lemma outer_Some {A} (matches : list A) (x : A) :
  Some x ∈ Dashboard.outer matches → x ∈ matches.
Proof.
  destruct matches as [|y matches]; cbn [Dashboard.outer].
  - intros [=]%list_elem_of_singleton.
  - intros (z & [= ->] & Hz)%list_elem_of_fmap. done.
Qed.

Lemma joined_commission (t : Dashboard.Tables) (a : Dashboard.Advisor)
    (r : Dashboard.JoinRow) (c : Dashboard.Commission) :
  r ∈ Dashboard.joined t a → r.1.1 = Some c → c ∈ Dashboard.commissions t.
Proof.
  unfold Dashboard.joined.
  intros (oc & Hr & Hoc)%list_elem_of_bind Hc.
  apply list_elem_of_bind in Hr as (ok & Hr & _).
  apply list_elem_of_bind in Hr as (oal & Hr & _).
  apply list_elem_of_singleton in Hr as ->. cbn in Hc. subst oc.
  apply outer_Some, list_elem_of_filter in Hoc as [_ Hoc]. done.
Qed.

Lemma top_advisors_query_elem (limit : nat) (t : Dashboard.Tables)
    (row : Dashboard.AdvisorRow) :
  row ∈ Dashboard.top_advisors_query limit t →
  ∃ a, a ∈ Dashboard.advisors t ∧ row = Dashboard.advisor_row t a.
Proof.
  unfold Dashboard.top_advisors_query.
  intros (i & Hrow & _)%elem_of_take.
  apply list_elem_of_lookup_2 in Hrow.
  rewrite merge_sort_Permutation in Hrow.
  apply list_elem_of_fmap in Hrow as (a & -> & Ha).
  apply list_elem_of_filter in Ha as [_ Ha]. by exists a.
Qed.

(** The loop body never divides by zero. *)
Lemma top_advisor_metric_Some (total : Decimal) (row : Dashboard.AdvisorRow) :
  ∃ m, Dashboard.top_advisor_metric total row = Some m
       ∧ Dashboard.revenue_percentage m
         = if Py.gt total 0
           then (Dashboard.row_revenue row / total * Py.dec 100)%Qc
           else 0%Qc.
Proof.
  unfold Dashboard.top_advisor_metric.
  destruct (Py.gt total 0) eqn:Hgt.
  - unfold Py.div.
    assert (Py.truthy total = true) as ->.
    { apply truthy_true. apply gt_true in Hgt. intros ->.
      by apply Qclt_not_eq in Hgt. }
    eexists. split; reflexivity.
  - eexists. split; reflexivity.
Qed.

Lemma get_top_advisors_response (limit : nat) (t : Dashboard.Tables) :
  ∃ response,
    Dashboard.get_top_advisors limit t = inr response
    ∧ ∀ m, m ∈ response →
        ∃ a, a ∈ Dashboard.advisors t
             ∧ Dashboard.revenue_percentage m
               = if Py.gt (Dashboard.total_revenue t) 0
                 then (Dashboard.row_revenue (Dashboard.advisor_row t a)
                       / Dashboard.total_revenue t * Py.dec 100)%Qc
                 else 0%Qc.
Proof.
  unfold Dashboard.get_top_advisors.
  destruct (mapM _ _) as [response|] eqn:Hmap.
  - exists response. split; [reflexivity|]. intros m Hm.
    apply mapM_Some in Hmap.
    apply list_elem_of_lookup in Hm as [i Hi].
    destruct (Forall2_lookup_r _ _ _ _ _ Hmap Hi) as (row & Hrow & Hmetric).
    apply list_elem_of_lookup_2, top_advisors_query_elem in Hrow
      as (a & Ha & ->).
    exists a. split; [done|].
    destruct (top_advisor_metric_Some (Dashboard.total_revenue t)
                (Dashboard.advisor_row t a)) as (m' & Hm' & Hpct).
    congruence.
  - exfalso. apply eq_None_not_Some in Hmap. apply Hmap.
    apply mapM_is_Some, Forall_forall. intros row _.
    destruct (top_advisor_metric_Some (Dashboard.total_revenue t) row)
      as (m & Hm & _).
    exists m. exact Hm.
Qed.

Lemma no_revenue_commissions (t : Dashboard.Tables) :
  Forall (fun c => Dashboard.Commission_valid c = true)
         (Dashboard.commissions t) →
  Py.sum (Dashboard.com_gross_revenue <$> Dashboard.commissions t) = 0%Qc →
  ∀ c, c ∈ Dashboard.commissions t → Dashboard.com_gross_revenue c = 0%Qc.
Proof.
  intros Hvalid Hsum c Hc.
  apply (sum_nonneg_zero (Dashboard.com_gross_revenue
                          <$> Dashboard.commissions t)); [|done|].
  - intros x (c' & -> & Hc')%list_elem_of_fmap.
    rewrite Forall_forall in Hvalid. by apply ge_true, Hvalid.
  - apply list_elem_of_fmap. by exists c.
Qed.




(** * Further properties of the code *)

(** ** Marking a position to market, closing it, counting its days *)

(** X1. [update_performance] at the current price of the asset stores the
    gain that the property [gain_loss_amount] computes, and the percentage
    of [gain_loss_percent] when the total cost is positive; when the total
    cost is not positive the stored percentage is left as it was.  The
    method stamps the check time and touches neither the status nor the
    realized gain. *)
Theorem update_performance_matches_valuation (now : datetime)
    (price : Decimal) (self : Allocation.t) (assets : gmap Z Asset.t)
    (asset : Asset.t) :
  assets !! Allocation.asset_id self = Some asset →
  Asset.current_price asset = Some price →
  let marked := Allocation.update_performance now price self in
  Allocation.unrealized_gain_loss marked
  = Some (Allocation.gain_loss_amount assets self)
  ∧ ((0 < Allocation.total_cost self)%Qc →
     Allocation.unrealized_gain_loss_percent marked
     = Some (Allocation.gain_loss_percent assets self))
  ∧ (¬ (0 < Allocation.total_cost self)%Qc →
     Allocation.unrealized_gain_loss_percent marked
     = Allocation.unrealized_gain_loss_percent self)
  ∧ Allocation.last_price_check marked = Some now
  ∧ Allocation.is_active marked = Allocation.is_active self
  ∧ Allocation.realized_gain_loss marked = Allocation.realized_gain_loss self
  ∧ Allocation.total_cost marked = Allocation.total_cost self.
Proof.
  intros Hasset Hprice. cbn zeta.
  assert (Allocation.gain_loss_amount assets self
          = (Allocation.quantity self * price - Allocation.total_cost self)%Qc)
    as Hgain.
  { unfold Allocation.gain_loss_amount, Allocation.current_value,
      Allocation.asset. rewrite Hasset, Hprice.
    destruct (Py.truthy price) eqn:E; [reflexivity|].
    apply truthy_false in E. subst price. ring. }
  unfold Allocation.update_performance.
  cbn [Allocation.unrealized_gain_loss Allocation.unrealized_gain_loss_percent
       Allocation.last_price_check Allocation.is_active
       Allocation.realized_gain_loss].
  split; [by rewrite Hgain|]. split; [|split].
  - intros Hpos. apply gt_true in Hpos. rewrite Hpos.
    unfold Allocation.gain_loss_percent. by rewrite Hpos, Hgain.
  - intros Hneg. destruct (Py.gt _ 0) eqn:E; [|reflexivity].
    apply gt_true in E. done.
  - done.
Qed.

Lemma update_performance_matches_valuation_witness :
  Examples.assets_at_12 !! Allocation.asset_id Examples.holding_100
  = Some (Asset.mk 1 (Some (Py.dec 12)))
  ∧ Allocation.unrealized_gain_loss
      (Allocation.update_performance 7 (Py.dec 12) Examples.holding_100)
    = Some (Allocation.gain_loss_amount Examples.assets_at_12
              Examples.holding_100).
Proof.
  split; [reflexivity|].
  apply (update_performance_matches_valuation 7 (Py.dec 12)
           Examples.holding_100 Examples.assets_at_12
           (Asset.mk 1 (Some (Py.dec 12)))); reflexivity.
Defined.

(** X2. Closing at the price a position was last marked at realizes the
    unrealized gain of that mark less the exit fees, and clears both
    unrealized fields. *)
Theorem close_realizes_marked_gain (marked_at closed_at : datetime)
    (price : Decimal) (day : option datetime) (fees_out : option Decimal)
    (self : Allocation.t) :
  let marked := Allocation.update_performance marked_at price self in
  let closed := Allocation.close_position closed_at price day fees_out marked in
  ∃ unrealized,
    Allocation.unrealized_gain_loss marked = Some unrealized
    ∧ Allocation.realized_gain_loss closed
      = Some (unrealized - default 0%Qc fees_out)%Qc
    ∧ Allocation.unrealized_gain_loss closed = None
    ∧ Allocation.unrealized_gain_loss_percent closed = None.
Proof.
  cbn zeta. eexists. split; [reflexivity|]. split; [|done].
  unfold Allocation.close_position, Allocation.update_performance,
    Allocation.total_cost.
  cbn [Allocation.realized_gain_loss Allocation.quantity
       Allocation.total_invested Allocation.fees].
  rewrite decimal_or_zero. f_equal. ring.
Qed.

(** X3. Closing an open position without an exit date freezes
    [days_held]: at every later instant the closed position reports the
    days it had been held when it was closed.  With an exit date it
    reports the whole days between purchase and exit, and an open position
    bought in the past never reports a negative number. *)
Theorem days_held_frozen_at_close (now later : datetime) (price : Decimal)
    (fees_out : option Decimal) (self : Allocation.t) :
  Allocation.is_active self = true →
  Allocation.days_held later
    (Allocation.close_position now price None fees_out self)
  = Allocation.days_held now self
  ∧ (∀ day,
       Allocation.days_held later
         (Allocation.close_position now price (Some day) fees_out self)
       = (day - Allocation.purchase_date self) `div` Allocation.us_per_day)
  ∧ (Allocation.purchase_date self ≤ now →
     0 ≤ Allocation.days_held now self).
Proof.
  intros Hactive. unfold Allocation.days_held. rewrite Hactive.
  split; [reflexivity|]. split; [reflexivity|].
  intros Hpast. apply Z.div_pos; [lia | reflexivity].
Qed.

Lemma days_held_frozen_at_close_witness :
  Allocation.is_active Examples.position_50 = true
  ∧ Allocation.days_held (100 * Allocation.us_per_day)
      (Allocation.close_position (3 * Allocation.us_per_day + 5) (Py.dec 25)
         None None Examples.position_50)
    = 3.
Proof.
  split; [reflexivity|].
  rewrite (proj1 (days_held_frozen_at_close (3 * Allocation.us_per_day + 5)
                    (100 * Allocation.us_per_day) (Py.dec 25) None
                    Examples.position_50 eq_refl)).
  reflexivity.
Defined.

(** ** The allocation endpoints *)


(** A decimal with at most [scale] decimal places is kept as it is, so a
    row that has been read back is a row the table keeps. *)
Lemma Numeric_scaled (scale : nat) (z : Z) :
  Column.Numeric scale (Q2Qc (z # Z.to_pos (10 ^ Z.of_nat scale)))
  = Q2Qc (z # Z.to_pos (10 ^ Z.of_nat scale)).
Proof.
  unfold Column.Numeric.
  set (u := 10 ^ Z.of_nat scale).
  assert (0 < u) as Hu by (apply Z.pow_pos_nonneg; lia).
  set (d := Q2Qc (z # Z.to_pos u)).
  assert (Qnum d * u = z * Zpos (Qden d)) as Heq.
  { pose proof (Qred_correct (z # Z.to_pos u)) as Hred.
    unfold Qeq in Hred. cbn [Qnum Qden] in Hred.
    rewrite Z2Pos.id in Hred by exact Hu. exact Hred. }
  cbn zeta. f_equal. f_equal.
  set (n := Qnum d) in *. set (den := Zpos (Qden d)) in *.
  assert (0 < den) as Hden by (subst den; lia).
  assert (Z.abs n * u = Z.abs z * den) as Habs.
  { rewrite <- (Z.abs_eq u), <- Z.abs_mul, Heq, Z.abs_mul by lia.
    by rewrite (Z.abs_eq den) by lia. }
  replace (2 * (Z.abs n * u) + den) with ((2 * Z.abs z + 1) * den)
    by (rewrite Habs; ring).
  rewrite Z.div_mul_cancel_r by lia.
  replace ((2 * Z.abs z + 1) `div` 2) with (Z.abs z)
    by (apply (Z.div_unique _ _ _ 1); lia).
  assert (Z.sgn n = Z.sgn z) as ->.
  { destruct (Z.lt_trichotomy z 0) as [Hz|[Hz|Hz]].
    - rewrite (Z.sgn_neg z), Z.sgn_neg by nia; reflexivity.
    - subst z. assert (n = 0) as -> by nia. reflexivity.
    - rewrite (Z.sgn_pos z), Z.sgn_pos by nia; reflexivity. }
  rewrite Z.mul_comm. apply Z.abs_sgn.
Qed.

Lemma Numeric_idempotent (scale : nat) (d : Decimal) :
  Column.Numeric scale (Column.Numeric scale d) = Column.Numeric scale d.
Proof. unfold Column.Numeric at 2 3. cbn zeta. apply Numeric_scaled. Qed.

Lemma refresh_idempotent (row : Allocation.t) :
  AllocationsApi.refresh (AllocationsApi.refresh row)
  = AllocationsApi.refresh row.
Proof.
  unfold AllocationsApi.refresh. cbn.
  rewrite !Numeric_idempotent.
  by destruct (Allocation.exit_price row),
       (Allocation.unrealized_gain_loss row),
       (Allocation.unrealized_gain_loss_percent row),
       (Allocation.realized_gain_loss row); cbn; rewrite ?Numeric_idempotent.
Qed.

(** X5. A successful [create_allocation] stores the new position under the
    next free id, which it returns and then advances; the position is
    open, and it holds what the columns keep of the order: the quantity
    and the purchase price with four decimal places, the fees and
    total_invested, the product of the quantity and the price of the
    order, with two.  It is a row as the table keeps it, and its
    total_invested is quantity * purchase_price whenever the columns keep
    the quantity, the price and their product as they are.  Every other
    stored position, the clients and the assets are untouched. *)
Theorem create_allocation_stores (data : AllocationsApi.AllocationCreate)
    (db db' : AllocationsApi.Db) (a : Allocation.t) :
  AllocationsApi.create_allocation data db = (db', inr a) →
  let quantity := AllocationsApi.c_quantity data in
  let purchase_price := AllocationsApi.c_purchase_price data in
  Allocation.id a = AllocationsApi.next_id db
  ∧ AllocationsApi.allocations db' !! Allocation.id a = Some a
  ∧ (∀ id, id ≠ Allocation.id a →
       AllocationsApi.allocations db' !! id
       = AllocationsApi.allocations db !! id)
  ∧ AllocationsApi.next_id db' = AllocationsApi.next_id db + 1
  ∧ AllocationsApi.clients db' = AllocationsApi.clients db
  ∧ AllocationsApi.assets db' = AllocationsApi.assets db
  ∧ Allocation.is_active a = true
  ∧ Allocation.exit_price a = None
  ∧ Allocation.realized_gain_loss a = None
  ∧ Allocation.quantity a = Column.Numeric 4 quantity
  ∧ Allocation.purchase_price a = Column.Numeric 4 purchase_price
  ∧ Allocation.fees a
    = Column.Numeric 2 (default 0%Qc (AllocationsApi.c_fees data))
  ∧ Allocation.total_invested a
    = Column.Numeric 2 (quantity * purchase_price)%Qc
  ∧ AllocationsApi.refresh a = a
  ∧ (Column.kept 4 quantity → Column.kept 4 purchase_price →
     Column.kept 2 (quantity * purchase_price)%Qc →
     Allocation.total_invested a
     = (Allocation.quantity a * Allocation.purchase_price a)%Qc).
Proof.
  unfold AllocationsApi.create_allocation.
  destruct (negb _); [discriminate|].
  destruct (AllocationsApi.assets db !! _); [|discriminate].
  intros [= <- <-]. cbn zeta.
  set (new := Allocation.mk _ _ _ _ _ _ _ _ _ _ _ _ _ _ _ _).
  split; [reflexivity|]. split; [apply lookup_insert_eq|].
  split; [intros id Hid; by apply lookup_insert_ne|].
  do 10 (split; [reflexivity|]).
  split; [apply refresh_idempotent|].
  unfold Column.kept. intros Hq Hp Ht.
  change (Column.Numeric 2 (AllocationsApi.c_quantity data
                            * AllocationsApi.c_purchase_price data)
          = (Column.Numeric 4 (AllocationsApi.c_quantity data)
             * Column.Numeric 4 (AllocationsApi.c_purchase_price data))%Qc).
  by rewrite Hq, Hp, Ht.
Qed.

Lemma create_allocation_stores_witness :
  ∃ db' a,
    AllocationsApi.create_allocation Examples.order_100 Examples.session_empty
    = (db', inr a)
    ∧ AllocationsApi.allocations db' !! 1 = Some a
    ∧ AllocationsApi.next_id db' = 2.
Proof.
  eexists _, _. split; [reflexivity|].
  destruct (create_allocation_stores Examples.order_100
              Examples.session_empty _ _ eq_refl)
    as (Hid & Hget & _ & Hnext & _).
  split; [exact Hget | exact Hnext].
Defined.


(** X7. A position that has just been created can be closed once.  The
    first close stores it closed, with the realized gain
    quantity * exit_price - (total_invested + fees + exit_fees) computed
    on the stored position and kept with two decimal places; when the
    columns keep the quantity, the amount quantity * purchase_price, the
    fees and the gain of the order as they are, the realized gain is
    quantity * exit_price - (quantity * purchase_price + fees + exit_fees).
    A second close is answered with 400 "Allocation is already closed"
    and changes nothing. *)
Theorem create_then_close_once (data : AllocationsApi.AllocationCreate)
    (close_data again : AllocationsApi.AllocationClose)
    (db db1 : AllocationsApi.Db) (a : Allocation.t) (now later : datetime) :
  AllocationsApi.create_allocation data db = (db1, inr a) →
  let quantity := AllocationsApi.c_quantity data in
  let amount :=
    (quantity * AllocationsApi.c_purchase_price data)%Qc in
  let fees := default 0%Qc (AllocationsApi.c_fees data) in
  let gain :=
    (quantity * AllocationsApi.x_exit_price close_data
     - (amount + fees + AllocationsApi.x_exit_fees close_data))%Qc in
  ∃ db2 closed,
    AllocationsApi.close_allocation now (Allocation.id a) close_data db1
    = (db2, inr closed)
    ∧ Allocation.is_active closed = false
    ∧ Allocation.realized_gain_loss closed
      = Some (Column.Numeric 2
                (Allocation.quantity a
                 * AllocationsApi.x_exit_price close_data
                 - (Allocation.total_invested a + Allocation.fees a
                    + AllocationsApi.x_exit_fees close_data))%Qc)
    ∧ (Column.kept 4 quantity → Column.kept 2 amount → Column.kept 2 fees →
       Column.kept 2 gain →
       Allocation.realized_gain_loss closed = Some gain)
    ∧ AllocationsApi.close_allocation later (Allocation.id a) again db2
      = (db2, inl (mkHTTPException 400 "Allocation is already closed")).
Proof.
  intros Hcreate. cbn zeta.
  unfold AllocationsApi.create_allocation in Hcreate.
  destruct (negb _); [discriminate|].
  destruct (AllocationsApi.assets db !! _); [|discriminate].
  injection Hcreate as <- <-.
  set (new := Allocation.mk _ _ _ _ _ _ _ _ _ _ _ _ _ _ _ _).
  unfold AllocationsApi.close_allocation at 1.
  cbn [AllocationsApi.allocations AllocationsApi.with_allocations].
  change (Allocation.id (AllocationsApi.refresh new))
    with (AllocationsApi.next_id db).
  rewrite lookup_insert_eq.
  change (Allocation.is_active (AllocationsApi.refresh new)) with true.
  cbn [negb].
  eexists _, _. split; [reflexivity|]. split; [reflexivity|].
  assert (Allocation.realized_gain_loss
            (AllocationsApi.refresh
               (Allocation.close_position now
                  (AllocationsApi.x_exit_price close_data)
                  (AllocationsApi.x_exit_date close_data)
                  (Some (AllocationsApi.x_exit_fees close_data))
                  (AllocationsApi.refresh new)))
          = Some (Column.Numeric 2
                    (Allocation.quantity (AllocationsApi.refresh new)
                     * AllocationsApi.x_exit_price close_data
                     - (Allocation.total_invested (AllocationsApi.refresh new)
                        + Allocation.fees (AllocationsApi.refresh new)
                        + AllocationsApi.x_exit_fees close_data))%Qc))
    as Hrealized.
  { cbn [AllocationsApi.refresh Allocation.close_position
         Allocation.realized_gain_loss fmap option_fmap option_map].
    unfold Allocation.total_cost. by rewrite decimal_or_zero. }
  split; [exact Hrealized|]. split.
  - unfold Column.kept. intros Hq Ht Hf Hg. rewrite Hrealized.
    change (Allocation.quantity (AllocationsApi.refresh new))
      with (Column.Numeric 4 (AllocationsApi.c_quantity data)).
    change (Allocation.total_invested (AllocationsApi.refresh new))
      with (Column.Numeric 2 (AllocationsApi.c_quantity data
                              * AllocationsApi.c_purchase_price data)).
    change (Allocation.fees (AllocationsApi.refresh new))
      with (Column.Numeric 2 (default 0%Qc (AllocationsApi.c_fees data))).
    by rewrite Hq, Ht, Hf, Hg.
  - unfold AllocationsApi.close_allocation.
    cbn [AllocationsApi.allocations AllocationsApi.with_allocations].
    by rewrite lookup_insert_eq.
Qed.

Lemma create_then_close_once_witness :
  ∃ db1 a db2 closed,
    AllocationsApi.create_allocation Examples.order_100 Examples.session_empty
    = (db1, inr a)
    ∧ AllocationsApi.close_allocation 9 (Allocation.id a)
        (AllocationsApi.mkAllocationClose (Py.dec 12) None 0%Qc) db1
      = (db2, inr closed)
    ∧ AllocationsApi.close_allocation 10 (Allocation.id a)
        (AllocationsApi.mkAllocationClose (Py.dec 13) None 0%Qc) db2
      = (db2, inl (mkHTTPException 400 "Allocation is already closed")).
Proof.
  destruct (create_then_close_once Examples.order_100
              (AllocationsApi.mkAllocationClose (Py.dec 12) None 0%Qc)
              (AllocationsApi.mkAllocationClose (Py.dec 13) None 0%Qc)
              Examples.session_empty _ _ 9 10 eq_refl)
    as (db2 & closed & Hclose & _ & _ & _ & Hagain).
  eexists _, _, db2, closed. split; [reflexivity|]. by split.
Defined.

Lemma set_fields_None (data : AllocationsUpdate.AllocationUpdate)
    (a : Allocation.t) :
  AllocationsUpdate.set_fields data a = None
  ↔ AllocationsUpdate.u_quantity data = AllocationsUpdate.Null
    ∨ AllocationsUpdate.u_fees data = AllocationsUpdate.Null.
Proof.
  unfold AllocationsUpdate.set_fields.
  destruct (AllocationsUpdate.u_quantity data) as [| |q],
    (AllocationsUpdate.u_fees data) as [| |f]; cbn;
    split; try discriminate; try (intros [|]; discriminate);
    try (intros _; by left); try (intros _; by right); done.
Qed.


(** X9. A successful [update_allocation] stores and returns the position
    as the columns keep it: the quantity that was sent with four decimal
    places and the fees that were sent with two (the old ones where none
    is sent); when a nonzero quantity was sent or the purchase price is
    not zero, total_invested is the product of that quantity and the
    purchase price, with two decimal places.  The purchase date and the
    status are those from before, and so is every other stored position;
    on a row that the table keeps as it is, the purchase price, the exit
    price and the realized gain are those from before as well, and
    total_invested = quantity * purchase_price whenever the columns keep
    the quantity and the product as they are. *)
Theorem update_allocation_total_invested (allocation_id : Z)
    (data : AllocationsUpdate.AllocationUpdate) (db db' : AllocationsApi.Db)
    (a b : Allocation.t) :
  AllocationsApi.allocations db !! allocation_id = Some a →
  AllocationsUpdate.update_allocation allocation_id data db = (db', inr b) →
  let sent :=
    AllocationsUpdate.attribute (AllocationsUpdate.u_quantity data) in
  let quantity := default (Allocation.quantity a) sent in
  let fees :=
    default (Allocation.fees a)
      (AllocationsUpdate.attribute (AllocationsUpdate.u_fees data)) in
  let recomputed :=
    is_Some sent ∧ quantity ≠ 0%Qc ∨ Allocation.purchase_price a ≠ 0%Qc in
  Allocation.quantity b = Column.Numeric 4 quantity
  ∧ Allocation.fees b = Column.Numeric 2 fees
  ∧ Allocation.purchase_price b
    = Column.Numeric 4 (Allocation.purchase_price a)
  ∧ Allocation.purchase_date b = Allocation.purchase_date a
  ∧ Allocation.is_active b = true
  ∧ AllocationsApi.allocations db' !! allocation_id = Some b
  ∧ (∀ id, id ≠ allocation_id →
       AllocationsApi.allocations db' !! id
       = AllocationsApi.allocations db !! id)
  ∧ (recomputed →
     Allocation.total_invested b
     = Column.Numeric 2 (quantity * Allocation.purchase_price a)%Qc)
  ∧ (¬ recomputed →
     Allocation.total_invested b
     = Column.Numeric 2 (Allocation.total_invested a))
  ∧ AllocationsApi.refresh b = b
  ∧ (AllocationsApi.refresh a = a →
     Allocation.purchase_price b = Allocation.purchase_price a
     ∧ Allocation.exit_price b = Allocation.exit_price a
     ∧ Allocation.realized_gain_loss b = Allocation.realized_gain_loss a
     ∧ (sent = None → Allocation.quantity b = Allocation.quantity a)
     ∧ (recomputed → Column.kept 4 quantity →
        Column.kept 2 (quantity * Allocation.purchase_price a)%Qc →
        Allocation.total_invested b
        = (Allocation.quantity b * Allocation.purchase_price b)%Qc)).
Proof.
  intros Hget. unfold AllocationsUpdate.update_allocation. rewrite Hget.
  destruct (Allocation.is_active a) eqn:Hactive; cbn [negb]; [|discriminate].
  destruct (AllocationsUpdate.set_fields data a) as [a1|] eqn:Hfields;
    [|discriminate].
  assert (Allocation.quantity a1
          = default (Allocation.quantity a)
              (AllocationsUpdate.attribute (AllocationsUpdate.u_quantity data))
          ∧ Allocation.fees a1
            = default (Allocation.fees a)
                (AllocationsUpdate.attribute (AllocationsUpdate.u_fees data))
          ∧ Allocation.purchase_price a1 = Allocation.purchase_price a
          ∧ Allocation.purchase_date a1 = Allocation.purchase_date a
          ∧ Allocation.is_active a1 = true
          ∧ Allocation.exit_price a1 = Allocation.exit_price a
          ∧ Allocation.realized_gain_loss a1 = Allocation.realized_gain_loss a
          ∧ Allocation.total_invested a1 = Allocation.total_invested a)
    as (Hq & Hf & Hpp & Hpd & Hact & Hxp & Hrg & Hti).
  { unfold AllocationsUpdate.set_fields in Hfields.
    destruct (AllocationsUpdate.u_quantity data) as [| |q],
      (AllocationsUpdate.u_fees data) as [| |f];
      cbn in Hfields; try discriminate Hfields;
      injection Hfields as <-; cbn; done. }
  cbn zeta.
  set (sent := AllocationsUpdate.attribute (AllocationsUpdate.u_quantity data))
    in *.
  set (truthy_sent := match sent with
                      | Some q => Py.truthy q
                      | None => false
                      end).
  set (a2 := if truthy_sent || Py.truthy (Allocation.purchase_price a1)
             then AllocationsUpdate.set_total_invested
                    (Allocation.quantity a1 * Allocation.purchase_price a1)%Qc
                    a1
             else a1).
  intros [= <- <-].
  assert (Allocation.quantity a2 = Allocation.quantity a1
          ∧ Allocation.fees a2 = Allocation.fees a1
          ∧ Allocation.purchase_price a2 = Allocation.purchase_price a1
          ∧ Allocation.purchase_date a2 = Allocation.purchase_date a1
          ∧ Allocation.is_active a2 = Allocation.is_active a1
          ∧ Allocation.exit_price a2 = Allocation.exit_price a1
          ∧ Allocation.realized_gain_loss a2
            = Allocation.realized_gain_loss a1)
    as (Hq2 & Hf2 & Hpp2 & Hpd2 & Hact2 & Hxp2 & Hrg2)
    by (subst a2; destruct (truthy_sent || _); done).
  assert (truthy_sent || Py.truthy (Allocation.purchase_price a1) = true
          ↔ (is_Some sent ∧ default (Allocation.quantity a) sent ≠ 0%Qc
             ∨ Allocation.purchase_price a ≠ 0%Qc)) as Hcond.
  { rewrite orb_true_iff, Hpp, (truthy_true (Allocation.purchase_price a)).
    subst truthy_sent. destruct sent as [q|]; cbn.
    - rewrite truthy_true. split; [intros [?|?]; eauto | tauto].
    - split; [intros [?|?]; [done | by right]|].
      intros [[[? [=]] _]|?]. by right. }
  assert (Allocation.total_invested a2
          = if truthy_sent || Py.truthy (Allocation.purchase_price a1)
            then (default (Allocation.quantity a) sent
                  * Allocation.purchase_price a)%Qc
            else Allocation.total_invested a) as Hti2.
  { subst a2. destruct (truthy_sent || _); cbn; [by rewrite Hq, Hpp | done]. }
  assert (∀ row, Allocation.quantity (AllocationsApi.refresh row)
                 = Column.Numeric 4 (Allocation.quantity row)) as Rq by done.
  assert (∀ row, Allocation.total_invested (AllocationsApi.refresh row)
                 = Column.Numeric 2 (Allocation.total_invested row)) as Rt
    by done.
  assert (∀ row, Allocation.purchase_price (AllocationsApi.refresh row)
                 = Column.Numeric 4 (Allocation.purchase_price row)) as Rp
    by done.
  split; [by rewrite Rq, Hq2, Hq|].
  split; [cbn [AllocationsApi.refresh Allocation.fees]; by rewrite Hf2, Hf|].
  split; [by rewrite Rp, Hpp2, Hpp|].
  split; [cbn [AllocationsApi.refresh Allocation.purchase_date];
          by rewrite Hpd2, Hpd|].
  split; [cbn [AllocationsApi.refresh Allocation.is_active];
          by rewrite Hact2, Hact|].
  split; [apply lookup_insert_eq|].
  split; [intros id Hid; by apply lookup_insert_ne|].
  split.
  { intros Hrec. apply Hcond in Hrec. by rewrite Rt, Hti2, Hrec. }
  split.
  { intros Hrec. rewrite Rt, Hti2.
    destruct (truthy_sent || _) eqn:E; [|done].
    exfalso. by apply Hrec, Hcond. }
  split; [apply refresh_idempotent|].
  intros Hstored.
  assert (Column.Numeric 4 (Allocation.purchase_price a)
          = Allocation.purchase_price a) as Kp
    by exact (f_equal Allocation.purchase_price Hstored).
  assert (Column.Numeric 4 (Allocation.quantity a) = Allocation.quantity a)
    as Kq by exact (f_equal Allocation.quantity Hstored).
  split; [by rewrite Rp, Hpp2, Hpp|].
  split.
  { cbn [AllocationsApi.refresh Allocation.exit_price].
    rewrite Hxp2, Hxp. exact (f_equal Allocation.exit_price Hstored). }
  split.
  { cbn [AllocationsApi.refresh Allocation.realized_gain_loss].
    rewrite Hrg2, Hrg.
    exact (f_equal Allocation.realized_gain_loss Hstored). }
  split.
  { intros Hnone. rewrite Rq, Hq2, Hq, Hnone. exact Kq. }
  unfold Column.kept. intros Hrec Hkq Hkt. apply Hcond in Hrec.
  rewrite Rt, Hti2, Hrec, Rq, Rp, Hq2, Hpp2, Hq, Hpp, Hkq, Hkt, Kp.
  reflexivity.
Qed.

Lemma update_allocation_total_invested_witness :
  ∃ db' b,
    AllocationsApi.allocations Cases.session_holding !! 1
    = Some Examples.holding_100
    ∧ AllocationsUpdate.update_allocation 1 Cases.raise_to_150
        Cases.session_holding = (db', inr b)
    ∧ Allocation.quantity b = Py.dec 150
    ∧ Allocation.total_invested b = Py.dec 1500.
Proof.
  eexists _, _. split; [reflexivity|]. split; [reflexivity|].
  destruct (update_allocation_total_invested 1 Cases.raise_to_150
              Cases.session_holding _ Examples.holding_100 _
              eq_refl eq_refl)
    as (Hq & _ & _ & _ & _ & _ & _ & Hrecomputed & _).
  split; [rewrite Hq; apply Qc_is_canon; reflexivity|].
  rewrite Hrecomputed; [apply Qc_is_canon; reflexivity|].
  right. intros Hzero. apply (f_equal Qcanon.this) in Hzero.
  vm_compute in Hzero. discriminate Hzero.
Defined.

(** ** The value series and its returns: edge cases *)

Lemma calculate_daily_returns_eq (allocations : list Allocation.t)
    (price_history : list Calculations.DailyReturn)
    (start_date end_date : date) (daily_returns : gmap date float) :
  Calculations.daily_returns_of
    (Calculations.portfolio_value allocations price_history)
  = Some daily_returns →
  Calculations.calculate_daily_returns allocations price_history
    start_date end_date
  = Some (daily_returns,
          Calculations.start_value_of
            (Calculations.portfolio_value allocations price_history),
          Calculations.end_value_of
            (Calculations.portfolio_value allocations price_history)).
Proof.
  intros Hdr. unfold Calculations.calculate_daily_returns. cbn zeta.
  by rewrite Hdr.
Qed.

Lemma daily_returns_of_small (pv : gmap date Decimal) :
  (size pv ≤ 1)%nat → Calculations.daily_returns_of pv = Some ∅.
Proof.
  intros Hsize. unfold Calculations.daily_returns_of. cbn zeta.
  rewrite sorted_keys_length.
  by replace (size pv - 1)%nat with 0%nat by lia.
Qed.

Lemma start_end_values (pv : gmap date Decimal) :
  (pv = ∅ →
   Calculations.start_value_of pv = 0%Qc
   ∧ Calculations.end_value_of pv = 0%Qc)
  ∧ (pv ≠ ∅ →
     ∃ first last v_first v_last,
       pv !! first = Some v_first ∧ pv !! last = Some v_last
       ∧ Calculations.start_value_of pv = v_first
       ∧ Calculations.end_value_of pv = v_last
       ∧ ∀ d, is_Some (pv !! d) → first ≤ d ≤ last).
Proof.
  unfold Calculations.start_value_of, Calculations.end_value_of. split.
  - intros ->. by rewrite sorted_keys_empty.
  - intros Hne. pose proof (sorted_keys_lt pv) as Hsorted.
    destruct (Py.sorted_keys pv) as [|d0 days] eqn:Hdays.
    { exfalso. apply Hne, map_size_empty_iff.
      by rewrite <- sorted_keys_length, Hdays. }
    rewrite <- Hdays in *.
    assert (head (Py.sorted_keys pv) = Some d0) as Hhead by by rewrite Hdays.
    destruct (last (Py.sorted_keys pv)) as [dn|] eqn:Hlast;
      [|by rewrite Hdays, last_cons in Hlast;
         destruct (last days); discriminate].
    rewrite Hhead.
    assert (is_Some (pv !! d0)) as [v0 Hv0].
    { apply sorted_keys_elem. rewrite Hdays. by left. }
    assert (is_Some (pv !! dn)) as [vn Hvn].
    { apply sorted_keys_elem. rewrite last_lookup in Hlast.
      by apply list_elem_of_lookup_2 in Hlast. }
    exists d0, dn, v0, vn. rewrite Hv0, Hvn.
    split; [done|]. split; [done|]. split; [done|]. split; [done|].
    intros d Hd. apply sorted_keys_elem, list_elem_of_lookup in Hd as [i Hi].
    rewrite head_lookup in Hhead. rewrite last_lookup in Hlast.
    split.
    + apply (sorted_lookup_le _ 0 i _ _ Hsorted Hhead Hi). lia.
    + apply (sorted_lookup_le _ i _ _ _ Hsorted Hi Hlast).
      apply lookup_lt_Some in Hi. lia.
Qed.

(** X10. [calculate_daily_returns] returns as start value the value of the
    earliest date of the portfolio-value series and as end value the value
    of its latest date, both strictly positive; when the series is empty
    both are 0. *)
Theorem start_and_end_value (allocations : list Allocation.t)
    (price_history : list Calculations.DailyReturn)
    (start_date end_date : date) :
  let pv := Calculations.portfolio_value allocations price_history in
  ∃ daily_returns start_value end_value,
    Calculations.calculate_daily_returns allocations price_history
      start_date end_date
    = Some (daily_returns, start_value, end_value)
    ∧ (pv = ∅ → start_value = 0%Qc ∧ end_value = 0%Qc)
    ∧ (pv ≠ ∅ →
       ∃ first last,
         pv !! first = Some start_value ∧ pv !! last = Some end_value
         ∧ (0 < start_value)%Qc ∧ (0 < end_value)%Qc
         ∧ ∀ d, is_Some (pv !! d) → first ≤ d ≤ last).
Proof.
  cbn zeta.
  set (pv := Calculations.portfolio_value allocations price_history).
  destruct (daily_returns_of_spec pv) as (dr & Hdr & _).
  exists dr, (Calculations.start_value_of pv), (Calculations.end_value_of pv).
  split; [by apply calculate_daily_returns_eq|].
  destruct (start_end_values pv) as [Hempty Hfull].
  split; [exact Hempty|]. intros Hne.
  destruct (Hfull Hne) as (first & last & v0 & vn & H0 & Hn & -> & -> & Hall).
  exists first, last. split; [done|]. split; [done|].
  split; [by eapply portfolio_value_positive|].
  split; [by eapply portfolio_value_positive | done].
Qed.

(** X11. A series with fewer than two dates has no daily return: the dict
    of returns is empty, its time-weighted return is 0, and the start and
    end values are the same.  This is the case when there is no price
    history and when there is no allocation, where both values are 0. *)
Theorem too_few_dates_no_return (allocations : list Allocation.t)
    (price_history : list Calculations.DailyReturn)
    (start_date end_date : date) :
  let pv := Calculations.portfolio_value allocations price_history in
  ((size pv ≤ 1)%nat →
   ∃ value,
     Calculations.calculate_daily_returns allocations price_history
       start_date end_date = Some (∅, value, value)
     ∧ Calculations.calculate_twr ∅ = Some 0%float)
  ∧ (allocations = [] ∨ price_history = [] →
     Calculations.calculate_daily_returns allocations price_history
       start_date end_date = Some (∅, 0%Qc, 0%Qc)).
Proof.
  cbn zeta.
  set (pv := Calculations.portfolio_value allocations price_history).
  assert ((size pv ≤ 1)%nat →
          ∃ value,
            Calculations.calculate_daily_returns allocations price_history
              start_date end_date = Some (∅, value, value)
            ∧ Calculations.calculate_twr ∅ = Some 0%float) as Hsmall.
  { intros Hsize.
    exists (Calculations.start_value_of pv). split; [|reflexivity].
    rewrite (calculate_daily_returns_eq _ _ _ _ ∅)
      by by apply daily_returns_of_small.
    fold pv. do 2 f_equal.
    unfold Calculations.start_value_of, Calculations.end_value_of.
    pose proof (sorted_keys_length pv) as Hlen.
    destruct (Py.sorted_keys pv) as [|d [|d' days]]; [done | done|].
    cbn in Hlen. lia. }
  split; [exact Hsmall|]. intros Hnone.
  assert (pv = ∅) as Hpv.
  { apply map_eq. intros day. rewrite lookup_empty.
    apply eq_None_not_Some. intros [v Hv].
    apply portfolio_value_iff in Hv as (_ & Hpos & _).
    assert (Spec.computed_value allocations price_history day = 0%Qc) as Hval.
    { destruct Hnone as [-> | ->]; [reflexivity|].
      apply computed_value_no_bar. intros alloc _. reflexivity. }
    rewrite Hval in Hpos. by apply Qclt_not_eq in Hpos. }
  destruct Hsmall as (value & Hcalc & _).
  { rewrite Hpv, map_size_empty. lia. }
  rewrite Hcalc.
  rewrite (calculate_daily_returns_eq _ _ _ _ ∅) in Hcalc
    by (apply daily_returns_of_small; fold pv; rewrite Hpv, map_size_empty; lia).
  injection Hcalc as Hstart _. rewrite <- Hstart.
  fold pv. rewrite Hpv. by rewrite (proj1 (proj1 (start_end_values ∅) eq_refl)).
Qed.

(** ** The value series: what it depends on *)

(** X12. In the dict of prices a later bar of the history replaces an
    earlier bar of the same asset and date and leaves every other price as
    it was; a price is found exactly for the assets and dates that have a
    bar. *)
Theorem later_bar_replaces (price_history : list Calculations.DailyReturn)
    (b : Calculations.DailyReturn) (asset_id : Z) (day : date) :
  Calculations.price_on
    (Calculations.asset_prices (price_history ++ [b])) asset_id day
  = (if decide (Calculations.dr_asset_id b = asset_id
                ∧ Calculations.dr_date b = day)
     then Some (Calculations.dr_close_price b)
     else Calculations.price_on (Calculations.asset_prices price_history)
            asset_id day)
  ∧ (is_Some (Calculations.price_on (Calculations.asset_prices price_history)
                asset_id day)
     ↔ ∃ bar, bar ∈ price_history
              ∧ Calculations.dr_asset_id bar = asset_id
              ∧ Calculations.dr_date bar = day).
Proof.
  rewrite !price_on_bar_close. unfold Spec.bar_close. split.
  - rewrite filter_app. case_decide as Hb.
    + rewrite (filter_cons_True _ b) by done. by rewrite filter_nil, last_snoc.
    + rewrite (filter_cons_False _ b) by done. by rewrite filter_nil, app_nil_r.
  - rewrite fmap_is_Some. split.
    + intros [bar Hlast]. exists bar. rewrite last_lookup in Hlast.
      apply list_elem_of_lookup_2, list_elem_of_filter in Hlast.
      tauto.
    + intros (bar & Hin & Ha & Hd).
      assert (bar ∈ filter (fun b => Calculations.dr_asset_id b = asset_id
                                      ∧ Calculations.dr_date b = day)
                           price_history) as Hbar
        by (apply list_elem_of_filter; tauto).
      destruct (filter _ price_history) as [|x l] using rev_ind;
        [by apply elem_of_nil in Hbar|].
      rewrite last_snoc. eauto.
Qed.

Lemma sum_Permutation (l k : list Decimal) : l ≡ₚ k → Py.sum l = Py.sum k.
Proof.
  induction 1 as [|x l k _ IH|x y l|l k m _ IH1 _ IH2].
  - reflexivity.
  - by rewrite !sum_cons, IH.
  - rewrite !sum_cons. ring.
  - congruence.
Qed.

Lemma bar_close_Permutation (ph ph' : list Calculations.DailyReturn)
    (asset_id : Z) (day : date) :
  NoDup (Cases.bar_key <$> ph) → ph ≡ₚ ph' →
  Spec.bar_close ph asset_id day = Spec.bar_close ph' asset_id day.
Proof.
  intros Hnodup Hperm. unfold Spec.bar_close.
  set (P := fun b => Calculations.dr_asset_id b = asset_id
                     ∧ Calculations.dr_date b = day).
  assert (filter P ph ≡ₚ filter P ph') as Hfilter by by rewrite Hperm.
  assert (NoDup (Cases.bar_key <$> filter P ph)) as Hnd.
  { eapply sublist_NoDup; [exact Hnodup|].
    apply fmap_sublist. apply sublist_filter. }
  assert (∀ b, b ∈ filter P ph → Cases.bar_key b = (asset_id, day)) as Hkey.
  { intros b [[Ha Hd] _]%list_elem_of_filter. unfold Cases.bar_key.
    by rewrite Ha, Hd. }
  destruct (filter P ph) as [|b1 [|b2 l]].
  - apply Permutation_nil_l in Hfilter. by rewrite Hfilter.
  - apply Permutation_singleton_l in Hfilter. by rewrite Hfilter.
  - exfalso. cbn [fmap list_fmap] in Hnd.
    apply NoDup_cons in Hnd as [Hnotin _]. apply Hnotin.
    rewrite (Hkey b1) by by left.
    rewrite <- (Hkey b2) by (right; by left). by left.
Qed.

Lemma computed_value_Permutation (allocations allocations' : list Allocation.t)
    (ph ph' : list Calculations.DailyReturn) (day : date) :
  NoDup (Cases.bar_key <$> ph) → ph ≡ₚ ph' → allocations ≡ₚ allocations' →
  Spec.computed_value allocations ph day
  = Spec.computed_value allocations' ph' day.
Proof.
  intros Hnodup Hph Hallocs. unfold Spec.computed_value.
  rewrite (sum_Permutation _ _ (fmap_Permutation _ _ _ Hallocs)).
  f_equal. apply list_fmap_ext. intros _ alloc _.
  by rewrite (bar_close_Permutation ph ph').
Qed.

(** X13. When the price history holds at most one bar for an asset and a
    date, the result of [calculate_daily_returns] depends neither on the
    order of the bars nor on the order of the allocations, nor on the two
    date arguments. *)
Theorem daily_returns_order_independent
    (allocations allocations' : list Allocation.t)
    (price_history price_history' : list Calculations.DailyReturn)
    (start_date end_date start_date' end_date' : date) :
  NoDup (Cases.bar_key <$> price_history) →
  allocations ≡ₚ allocations' → price_history ≡ₚ price_history' →
  Calculations.portfolio_value allocations price_history
  = Calculations.portfolio_value allocations' price_history'
  ∧ Calculations.calculate_daily_returns allocations price_history
      start_date end_date
    = Calculations.calculate_daily_returns allocations' price_history'
        start_date' end_date'.
Proof.
  intros Hnodup Hallocs Hph.
  assert (Calculations.portfolio_value allocations price_history
          = Calculations.portfolio_value allocations' price_history') as Hpv.
  { apply map_eq. intros day. rewrite !portfolio_value_lookup.
    rewrite (computed_value_Permutation allocations allocations'
               price_history price_history') by done.
    rewrite (bool_decide_ext
               (day ∈ Calculations.dr_date <$> price_history)
               (day ∈ Calculations.dr_date <$> price_history'));
      [reflexivity|].
    by rewrite Hph. }
  split; [exact Hpv|].
  unfold Calculations.calculate_daily_returns. cbn zeta. by rewrite Hpv.
Qed.

Lemma daily_returns_order_independent_witness :
  NoDup (Cases.bar_key <$> Examples.bars_day_1_3)
  ∧ Calculations.calculate_daily_returns [Examples.holding_100]
      Examples.bars_day_1_3 0 0
    = Calculations.calculate_daily_returns [Examples.holding_100]
        (reverse Examples.bars_day_1_3) 1 3.
Proof.
  assert (NoDup (Cases.bar_key <$> Examples.bars_day_1_3)) as Hnodup.
  { apply NoDup_cons. split; [|apply NoDup_singleton].
    intros [=]%list_elem_of_singleton. }
  split; [exact Hnodup|].
  apply (daily_returns_order_independent [Examples.holding_100]
           [Examples.holding_100] Examples.bars_day_1_3
           (reverse Examples.bars_day_1_3) 0 0 1 3 Hnodup).
  - reflexivity.
  - symmetry. apply reverse_Permutation.
Defined.

Lemma computed_value_scaled (k : Decimal) (allocations : list Allocation.t)
    (price_history : list Calculations.DailyReturn) (day : date) :
  Spec.computed_value (Cases.scaled k <$> allocations) price_history day
  = (k * Spec.computed_value allocations price_history day)%Qc.
Proof.
  unfold Spec.computed_value.
  induction allocations as [|alloc allocations IH].
  - cbn [fmap list_fmap]. change (Py.sum []) with 0%Qc. ring.
  - cbn [fmap list_fmap] in *. rewrite !sum_cons, IH.
    change (Allocation.quantity (Cases.scaled k alloc))
      with (k * Allocation.quantity alloc)%Qc.
    change (Allocation.asset_id (Cases.scaled k alloc))
      with (Allocation.asset_id alloc).
    ring.
Qed.

Lemma gt_scaled (k v : Decimal) :
  (0 < k)%Qc → Py.gt (k * v) 0 = Py.gt v 0.
Proof.
  intros Hk. apply eq_true_iff_eq. rewrite !gt_true. split.
  - intros Hkv. destruct (Qclt_le_dec 0 v) as [Hv|Hv]; [exact Hv|].
    exfalso. apply (Qclt_not_le _ _ Hkv).
    rewrite <- (Qcmult_0_r k). rewrite (Qcmult_comm k v), (Qcmult_comm k 0).
    by apply Qcmult_le_compat_r; [|apply Qclt_le_weak].
  - intros Hv. rewrite <- (Qcmult_0_l v). by apply Qcmult_lt_compat_r.
Qed.


Lemma portfolio_value_scaled (k : Decimal) (allocations : list Allocation.t)
    (price_history : list Calculations.DailyReturn) :
  (0 < k)%Qc →
  Calculations.portfolio_value (Cases.scaled k <$> allocations) price_history
  = Qcmult k <$> Calculations.portfolio_value allocations price_history.
Proof.
  intros Hk. apply map_eq. intros day.
  rewrite lookup_fmap, !portfolio_value_lookup, computed_value_scaled.
  rewrite gt_scaled by done.
  by destruct (bool_decide _ && Py.gt _ 0).
Qed.

Lemma consecutive_fmap {A B} (f : A → B) (series : gmap date A)
    (yesterday today : date) :
  Spec.consecutive (f <$> series) yesterday today
  ↔ Spec.consecutive series yesterday today.
Proof.
  unfold Spec.consecutive. rewrite !lookup_fmap, !fmap_is_Some.
  by setoid_rewrite lookup_fmap; setoid_rewrite fmap_is_Some.
Qed.

Lemma scaled_return (k vy vt : Decimal) :
  (0 < k)%Qc → (0 < vy)%Qc →
  ((k * vt - k * vy) / (k * vy) = (vt - vy) / vy)%Qc.
Proof.
  intros Hk Hvy. apply Qclt_not_eq in Hk, Hvy.
  field. split; congruence.
Qed.

Lemma daily_returns_of_scaled (k : Decimal) (pv : gmap date Decimal) :
  (0 < k)%Qc →
  (∀ d v, pv !! d = Some v → (0 < v)%Qc) →
  Calculations.daily_returns_of (Qcmult k <$> pv)
  = Calculations.daily_returns_of pv.
Proof.
  intros Hk Hpos.
  destruct (daily_returns_of_spec pv) as (dr & -> & Hdr).
  destruct (daily_returns_of_spec (Qcmult k <$> pv)) as (dr' & -> & Hdr').
  f_equal. apply map_eq. intros today. apply option_eq. intros x.
  rewrite Hdr, Hdr'. split.
  - intros (y & vy & vt & Hcons & Hvy & Hvt & _ & ->).
    apply (proj1 (consecutive_fmap (Qcmult k) pv y today)) in Hcons.
    rewrite lookup_fmap in Hvy, Hvt.
    destruct (pv !! y) as [vy0|] eqn:Hy; [|discriminate].
    destruct (pv !! today) as [vt0|] eqn:Ht; [|discriminate].
    cbn in Hvy, Hvt. simplify_eq.
    exists y, vy0, vt0. split; [done|]. split; [done|]. split; [done|].
    split; [by eapply Hpos|].
    unfold Py.truediv.
    rewrite scaled_return; [done | done | by eapply Hpos].
  - intros (y & vy & vt & Hcons & Hvy & Hvt & Hgt & ->).
    exists y, (k * vy)%Qc, (k * vt)%Qc.
    split; [by apply (consecutive_fmap (Qcmult k))|].
    rewrite !lookup_fmap, Hvy, Hvt. split; [done|]. split; [done|]. split.
    + rewrite <- (Qcmult_0_r k), (Qcmult_comm k vy), (Qcmult_comm k 0).
      by apply Qcmult_lt_compat_r.
    + unfold Py.truediv. by rewrite scaled_return.
Qed.

Lemma sorted_keys_fmap {A B} (f : A → B) (m : gmap date A) :
  Py.sorted_keys (f <$> m) = Py.sorted_keys m.
Proof. unfold Py.sorted_keys. by rewrite dom_fmap_L. Qed.

(** X14. Multiplying the quantity of every allocation by the same positive
    factor leaves every daily return of [calculate_daily_returns] as it is
    and multiplies the start value and the end value by the factor: the
    returns measure the prices, not the size of the holding. *)
Theorem daily_returns_scale_free (k : Decimal)
    (allocations : list Allocation.t)
    (price_history : list Calculations.DailyReturn)
    (start_date end_date : date) :
  (0 < k)%Qc →
  ∃ daily_returns start_value end_value,
    Calculations.calculate_daily_returns allocations price_history
      start_date end_date
    = Some (daily_returns, start_value, end_value)
    ∧ Calculations.calculate_daily_returns (Cases.scaled k <$> allocations)
        price_history start_date end_date
      = Some (daily_returns, (k * start_value)%Qc, (k * end_value)%Qc).
Proof.
  intros Hk.
  set (pv := Calculations.portfolio_value allocations price_history).
  destruct (daily_returns_of_spec pv) as (dr & Hdr & _).
  exists dr, (Calculations.start_value_of pv), (Calculations.end_value_of pv).
  split; [by apply calculate_daily_returns_eq|].
  unfold Calculations.calculate_daily_returns. cbn zeta.
  rewrite portfolio_value_scaled by done. fold pv.
  rewrite daily_returns_of_scaled, Hdr;
    [|done|by apply portfolio_value_positive]. cbn [mbind option_bind].
  unfold Calculations.start_value_of, Calculations.end_value_of.
  rewrite sorted_keys_fmap. do 2 f_equal.
  - f_equal. destruct (head (Py.sorted_keys pv)) as [d|]; [|ring].
    rewrite lookup_fmap. destruct (pv !! d); cbn; [reflexivity | ring].
  - destruct (last (Py.sorted_keys pv)) as [d|]; [|ring].
    rewrite lookup_fmap. destruct (pv !! d); cbn; [reflexivity | ring].
Qed.

Lemma daily_returns_scale_free_witness :
  (0 < Py.dec 3)%Qc
  ∧ ∃ daily_returns start_value end_value,
      Calculations.calculate_daily_returns [Examples.holding_100]
        Examples.bars_day_1_3 1 3
      = Some (daily_returns, start_value, end_value)
      ∧ Calculations.calculate_daily_returns
          (Cases.scaled (Py.dec 3) <$> [Examples.holding_100])
          Examples.bars_day_1_3 1 3
        = Some (daily_returns, (Py.dec 3 * start_value)%Qc,
                (Py.dec 3 * end_value)%Qc).
Proof.
  assert (0 < Py.dec 3)%Qc as Hk by reflexivity.
  split; [exact Hk|].
  exact (daily_returns_scale_free (Py.dec 3) [Examples.holding_100]
           Examples.bars_day_1_3 1 3 Hk).
Defined.

Lemma twr_zero_returns (daily_returns : gmap date float) :
  (∀ d r, daily_returns !! d = Some r → r = 0%float) →
  Calculations.calculate_twr daily_returns = Some 0%float.
Proof.
  intros Hzero.
  destruct (calculate_twr_entries daily_returns) as (entries & Hperm & _ & ->).
  assert (Forall (fun e => e.2 = 0%float) entries) as Hall.
  { apply Forall_forall. intros [d r] Hin. rewrite Hperm in Hin.
    apply elem_of_map_to_list in Hin. by apply (Hzero d). }
  clear Hperm. f_equal.
  assert (foldl (fun p e => p * (1 + e.2))%float 1%float entries = 1%float)
    as ->; [|reflexivity].
  induction Hall as [|[d r] entries Hr _ IH]; [reflexivity|].
  cbn [foldl]. cbn in Hr. subst r.
  replace (1 * (1 + 0))%float with 1%float by reflexivity. exact IH.
Qed.

(** X15. When the value of the portfolio is the same on every date of the
    series, every daily return of [calculate_daily_returns] is 0, the start
    value equals the end value, and [calculate_twr] of these returns is
    0. *)
Theorem flat_series_zero_twr (allocations : list Allocation.t)
    (price_history : list Calculations.DailyReturn)
    (start_date end_date : date) :
  (∀ d d' v v',
     Calculations.portfolio_value allocations price_history !! d = Some v →
     Calculations.portfolio_value allocations price_history !! d' = Some v' →
     v = v') →
  ∃ daily_returns value,
    Calculations.calculate_daily_returns allocations price_history
      start_date end_date
    = Some (daily_returns, value, value)
    ∧ (∀ d r, daily_returns !! d = Some r → r = 0%float)
    ∧ Calculations.calculate_twr daily_returns = Some 0%float.
Proof.
  set (pv := Calculations.portfolio_value allocations price_history).
  intros Hflat.
  destruct (daily_returns_of_spec pv) as (dr & Hdr & Hspec).
  assert (∀ d r, dr !! d = Some r → r = 0%float) as Hzero.
  { intros d r (y & vy & vt & _ & Hvy & Hvt & Hpos & ->)%Hspec.
    rewrite (Hflat _ _ _ _ Hvt Hvy).
    unfold Py.truediv.
    replace ((vy - vy) / vy)%Qc with 0%Qc; [reflexivity|].
    unfold Qcdiv. ring. }
  exists dr, (Calculations.start_value_of pv).
  split; [|split; [exact Hzero | by apply twr_zero_returns]].
  rewrite (calculate_daily_returns_eq _ _ _ _ dr) by done. fold pv.
  do 2 f_equal.
  destruct (decide (pv = ∅)) as [Hempty|Hne].
  - destruct (proj1 (start_end_values pv) Hempty) as [-> ->]. reflexivity.
  - destruct (proj2 (start_end_values pv) Hne)
      as (first & last & v0 & vn & H0 & Hn & -> & -> & _).
    symmetry. by eapply Hflat.
Qed.

Lemma flat_series_zero_twr_witness :
  ∃ daily_returns value,
    Calculations.calculate_daily_returns [Examples.holding_100]
      Cases.flat_bars 1 3
    = Some (daily_returns, value, value)
    ∧ (∀ d r, daily_returns !! d = Some r → r = 0%float)
    ∧ Calculations.calculate_twr daily_returns = Some 0%float.
Proof.
  apply (flat_series_zero_twr [Examples.holding_100] Cases.flat_bars 1 3).
  assert (∀ d v,
            Calculations.portfolio_value [Examples.holding_100]
              Cases.flat_bars !! d = Some v → v = Py.dec 1000) as Hvalue.
  { intros d v (Hd & _ & ->)%portfolio_value_iff.
    cbn [fmap list_fmap Cases.flat_bars Calculations.dr_date] in Hd.
    rewrite !elem_of_cons, elem_of_nil in Hd.
    destruct Hd as [->|[->|[->|[]]]]; apply Qc_is_canon; reflexivity. }
  intros d d' v v' Hv Hv'.
  by rewrite (Hvalue _ _ Hv), (Hvalue _ _ Hv').
Defined.

(** ** Returns from a price history *)

Lemma scan_fold (today : date) (found : History.prices)
    (bars : list Calculations.DailyReturn) :
  let step threshold price dr :=
    History.pick threshold (today - Calculations.dr_date dr)
      (Calculations.dr_close_price dr) price in
  let result := foldl (History.scan today) found bars in
  History.one_week_ago_price result
  = foldl (step 7) (History.one_week_ago_price found) bars
  ∧ History.one_month_ago_price result
    = foldl (step 30) (History.one_month_ago_price found) bars
  ∧ History.one_year_ago_price result
    = foldl (step 365) (History.one_year_ago_price found) bars.
Proof.
  cbn zeta. revert found.
  induction bars as [|dr bars IH]; intros found; [done|].
  cbn [foldl]. destruct (IH (History.scan today found dr)) as (-> & -> & ->).
  done.
Qed.

Lemma unset_change (latest_price : Decimal) (price : option Decimal) :
  History.unset price = true →
  History.change_percent latest_price price = None.
Proof.
  destruct price as [p|]; [|done]. cbn. intros Hp.
  apply negb_true_iff in Hp. by rewrite Hp.
Qed.

Lemma pick_unset (threshold days_ago : Z) (close : Decimal)
    (price : option Decimal) :
  History.unset price = true →
  History.pick threshold days_ago close price
  = if bool_decide (threshold ≤ days_ago) then Some close else price.
Proof. intros Hunset. unfold History.pick. by rewrite Hunset. Qed.

Lemma pick_set (threshold days_ago : Z) (close : Decimal)
    (price : option Decimal) :
  History.unset price = false →
  History.pick threshold days_ago close price = price.
Proof. intros Hset. unfold History.pick. by rewrite Hset. Qed.

Lemma pick_fold_set (today threshold : Z)
    (bars : list Calculations.DailyReturn) (price : option Decimal) :
  History.unset price = false →
  foldl (fun price dr =>
           History.pick threshold (today - Calculations.dr_date dr)
             (Calculations.dr_close_price dr) price)
        price bars
  = price.
Proof.
  intros Hset. induction bars as [|dr bars IH]; [done|].
  cbn [foldl]. by rewrite pick_set.
Qed.

Lemma pick_fold (today threshold : Z) (bars : list Calculations.DailyReturn)
    (price : option Decimal) :
  let old_nonzero b :=
    threshold ≤ today - Calculations.dr_date b
    ∧ Calculations.dr_close_price b ≠ 0%Qc in
  let result :=
    foldl (fun price dr =>
             History.pick threshold (today - Calculations.dr_date dr)
               (Calculations.dr_close_price dr) price)
          price bars in
  History.unset price = true →
  match head (filter old_nonzero bars) with
  | Some b => result = Some (Calculations.dr_close_price b)
  | None => History.unset result = true
  end.
Proof.
  cbn zeta. revert price.
  induction bars as [|dr bars IH]; intros price Hunset; [done|].
  cbn [foldl]. rewrite pick_unset by done.
  case_bool_decide as Hold.
  - destruct (decide (Calculations.dr_close_price dr = 0%Qc)) as [Hz|Hnz].
    + rewrite filter_cons_False by tauto. apply IH. cbn.
      apply negb_true_iff. by apply truthy_false.
    + rewrite filter_cons_True by done. cbn [head].
      apply pick_fold_set. cbn. apply negb_false_iff. by apply truthy_true.
  - rewrite filter_cons_False by tauto. by apply IH.
Qed.

Lemma change_percent_reference (today threshold : Z)
    (history : list Calculations.DailyReturn) (latest_price : Decimal) :
  History.change_percent latest_price
    (foldl (fun price dr =>
              History.pick threshold (today - Calculations.dr_date dr)
                (Calculations.dr_close_price dr) price)
           None (reverse history))
  = Cases.change latest_price (Cases.reference today threshold history).
Proof.
  pose proof (pick_fold today threshold (reverse history) None eq_refl)
    as Hfold. cbn zeta in Hfold.
  unfold Cases.reference.
  rewrite filter_reverse, head_reverse in Hfold.
  destruct (last (filter _ history)) as [b|] eqn:Hlast.
  - rewrite Hfold. cbn.
    assert (Py.truthy (Calculations.dr_close_price b) = true) as ->;
      [|reflexivity].
    apply truthy_true. rewrite last_lookup in Hlast.
    apply list_elem_of_lookup_2, list_elem_of_filter in Hlast. tauto.
  - by rewrite unset_change.
Qed.

Lemma store_lookup (key key' : string) (value : option Decimal)
    (results : gmap string Decimal) :
  History.store key value results !! key'
  = match value with
    | Some v => if decide (key = key') then Some v else results !! key'
    | None => results !! key'
    end.
Proof.
  destruct value as [v|]; [|done]. cbn. case_decide as Hk.
  - subst. apply lookup_insert_eq.
  - by apply lookup_insert_ne.
Qed.

Lemma returns_from_history_lookup (today : date)
    (history : list Calculations.DailyReturn) (current_price : option Decimal)
    (newest : Calculations.DailyReturn) :
  last history = Some newest →
  let results :=
    History.calculate_returns_from_history today history current_price in
  let latest_price :=
    Py.decimal_or current_price (Calculations.dr_close_price newest) in
  results !! "weekly_change_percent"
  = Cases.change latest_price (Cases.reference today 7 history)
  ∧ results !! "monthly_change_percent"
    = Cases.change latest_price (Cases.reference today 30 history)
  ∧ results !! "yearly_change_percent"
    = Cases.change latest_price (Cases.reference today 365 history).
Proof.
  intros Hlast. unfold History.calculate_returns_from_history.
  rewrite Hlast. cbn zeta.
  destruct (scan_fold today (History.mkPrices None None None)
              (reverse history)) as (Hweek & Hmonth & Hyear).
  cbn zeta in Hweek, Hmonth, Hyear. rewrite Hweek, Hmonth, Hyear.
  cbn [History.one_week_ago_price History.one_month_ago_price
       History.one_year_ago_price].
  rewrite !change_percent_reference, !store_lookup.
  set (week := Cases.change _ (Cases.reference today 7 history)).
  set (month := Cases.change _ (Cases.reference today 30 history)).
  set (year := Cases.change _ (Cases.reference today 365 history)).
  rewrite lookup_empty.
  repeat split; destruct week, month, year; reflexivity.
Qed.


Lemma reference_Some (today threshold : Z)
    (history : list Calculations.DailyReturn) (p : Decimal) :
  Cases.reference today threshold history = Some p →
  p ≠ 0%Qc
  ∧ ∃ b, b ∈ history ∧ threshold ≤ today - Calculations.dr_date b
         ∧ Calculations.dr_close_price b = p.
Proof.
  unfold Cases.reference. intros (b & Hlast & ->)%fmap_Some.
  rewrite last_lookup in Hlast.
  apply list_elem_of_lookup_2, list_elem_of_filter in Hlast
    as [[Hold Hnz] Hin].
  split; [exact Hnz|]. by exists b.
Qed.

Lemma reference_is_Some (today threshold : Z)
    (history : list Calculations.DailyReturn) :
  is_Some (Cases.reference today threshold history)
  ↔ ∃ b, b ∈ history ∧ threshold ≤ today - Calculations.dr_date b
         ∧ Calculations.dr_close_price b ≠ 0%Qc.
Proof.
  split.
  - intros [p (Hnz & b & Hin & Hold & <-)%reference_Some]. by exists b.
  - intros (b & Hin & Hold & Hnz). unfold Cases.reference.
    rewrite fmap_is_Some.
    assert (b ∈ filter (fun b => threshold ≤ today - Calculations.dr_date b
                                  ∧ Calculations.dr_close_price b ≠ 0%Qc)
                       history) as Hb
      by (apply list_elem_of_filter; tauto).
    destruct (filter _ history) as [|x l] using rev_ind;
      [by apply elem_of_nil in Hb|].
    rewrite last_snoc. eauto.
Qed.

Lemma change_is_Some (today threshold : Z)
    (history : list Calculations.DailyReturn) (latest_price : Decimal) :
  (∀ b, b ∈ history → (0 <= Calculations.dr_close_price b)%Qc) →
  is_Some (Cases.change latest_price (Cases.reference today threshold history))
  ↔ ∃ b, b ∈ history ∧ threshold ≤ today - Calculations.dr_date b
         ∧ Calculations.dr_close_price b ≠ 0%Qc.
Proof.
  intros Hnonneg. rewrite <- reference_is_Some. unfold Cases.change.
  destruct (Cases.reference today threshold history) as [p|] eqn:Href; cbn.
  - apply reference_Some in Href as (Hnz & b & Hin & _ & <-).
    assert (Py.gt (Calculations.dr_close_price b) 0 = true) as ->.
    { apply gt_true. specialize (Hnonneg b Hin).
      apply Qcle_lt_or_eq in Hnonneg as [Hlt|Heq]; [exact Hlt|].
      by destruct Hnz. }
    split; eauto.
  - split; by intros [? ?].
Qed.

(** X17. In the answer of [calculate_returns_from_history] over closes
    that are not negative, the yearly change is present only together with
    the monthly change and the monthly change only together with the
    weekly change; a look-back is present exactly when some bar at least
    that old has a nonzero close, so a history whose bars are all younger
    than seven days gives the empty dict. *)
Theorem history_look_backs_nest (today : date)
    (history : list Calculations.DailyReturn) (current_price : option Decimal) :
  (∀ b, b ∈ history → (0 <= Calculations.dr_close_price b)%Qc) →
  let results :=
    History.calculate_returns_from_history today history current_price in
  let old threshold :=
    ∃ b, b ∈ history ∧ threshold ≤ today - Calculations.dr_date b
         ∧ Calculations.dr_close_price b ≠ 0%Qc in
  (is_Some (results !! "weekly_change_percent") ↔ old 7)
  ∧ (is_Some (results !! "monthly_change_percent") ↔ old 30)
  ∧ (is_Some (results !! "yearly_change_percent") ↔ old 365)
  ∧ (is_Some (results !! "yearly_change_percent") →
     is_Some (results !! "monthly_change_percent"))
  ∧ (is_Some (results !! "monthly_change_percent") →
     is_Some (results !! "weekly_change_percent"))
  ∧ ((∀ b, b ∈ history → today - Calculations.dr_date b < 7) →
     results !! "weekly_change_percent" = None
     ∧ results !! "monthly_change_percent" = None
     ∧ results !! "yearly_change_percent" = None).
Proof.
  intros Hnonneg. cbn zeta.
  set (results :=
         History.calculate_returns_from_history today history current_price).
  assert ((is_Some (results !! "weekly_change_percent")
           ↔ ∃ b, b ∈ history ∧ 7 ≤ today - Calculations.dr_date b
                  ∧ Calculations.dr_close_price b ≠ 0%Qc)
          ∧ (is_Some (results !! "monthly_change_percent")
             ↔ ∃ b, b ∈ history ∧ 30 ≤ today - Calculations.dr_date b
                    ∧ Calculations.dr_close_price b ≠ 0%Qc)
          ∧ (is_Some (results !! "yearly_change_percent")
             ↔ ∃ b, b ∈ history ∧ 365 ≤ today - Calculations.dr_date b
                    ∧ Calculations.dr_close_price b ≠ 0%Qc))
    as (Hweek & Hmonth & Hyear).
  { destruct (last history) as [newest|] eqn:Hlast.
    - destruct (returns_from_history_lookup today history current_price
                  newest Hlast) as (Hw & Hm & Hy).
      fold results in Hw, Hm, Hy. rewrite Hw, Hm, Hy.
      by rewrite !change_is_Some.
    - apply last_None in Hlast. subst history results. cbn.
      rewrite !lookup_empty.
      repeat split; try (by intros [? ?]);
        intros (b & Hin & _); by apply elem_of_nil in Hin. }
  split; [exact Hweek|]. split; [exact Hmonth|]. split; [exact Hyear|].
  split; [|split].
  - rewrite Hyear, Hmonth. intros (b & Hin & Hold & Hnz).
    exists b. repeat split; (done || lia).
  - rewrite Hmonth, Hweek. intros (b & Hin & Hold & Hnz).
    exists b. repeat split; (done || lia).
  - intros Hyoung.
    assert (∀ threshold, 7 ≤ threshold →
              ¬ ∃ b, b ∈ history ∧ threshold ≤ today - Calculations.dr_date b
                     ∧ Calculations.dr_close_price b ≠ 0%Qc) as Hnone.
    { intros threshold Hthreshold (b & Hin & Hold & _).
      specialize (Hyoung b Hin). lia. }
    repeat split; apply eq_None_not_Some.
    + rewrite Hweek. by apply Hnone.
    + rewrite Hmonth. by apply Hnone.
    + rewrite Hyear. by apply Hnone.
Qed.

Lemma history_look_backs_nest_witness :
  let results := History.calculate_returns_from_history 130 Cases.closes None in
  (∀ b, b ∈ Cases.closes → (0 <= Calculations.dr_close_price b)%Qc)
  ∧ (is_Some (results !! "yearly_change_percent") →
     is_Some (results !! "monthly_change_percent"))
  ∧ (is_Some (results !! "monthly_change_percent") →
     is_Some (results !! "weekly_change_percent")).
Proof.
  cbn zeta.
  assert (∀ b, b ∈ Cases.closes → (0 <= Calculations.dr_close_price b)%Qc)
    as Hnonneg.
  { intros b Hin. unfold Cases.closes in Hin.
    rewrite !elem_of_cons, elem_of_nil in Hin.
    destruct Hin as [->|[->|[->|[]]]]; discriminate. }
  split; [exact Hnonneg|].
  pose proof (history_look_backs_nest 130 Cases.closes None Hnonneg)
    as (_ & _ & _ & Hyear & Hmonth & _).
  split; [exact Hyear | exact Hmonth].
Defined.

(** ** Net new money: the outflows query and the period type *)

(** The dict built from a grouped query: at each date, the sum over the
    rows of that bucket; no entry for a bucket without a row. *)
Lemma flows_lookup (period_type : string)
    (value : Allocation.t → option Decimal) (rows : list Allocation.t)
    (bucket : date) :
  Dashboard.dict_by_date
    (Dashboard.ordered_rows
       (Dashboard.group_sum (Dashboard.period_of period_type) value rows))
    !! bucket
  = match filter (fun a => Spec.bucket_of period_type a = bucket) rows with
    | [] => None
    | sel => Some (Py.sum ((fun a => default 0%Qc (value a)) <$> sel))
    end.
Proof.
  rewrite dict_by_date_lookup.
  - rewrite group_sum_lookup.
    rewrite (list_filter_iff _
               (fun a => Spec.bucket_of period_type a = bucket));
      [reflexivity|].
    intros a. rewrite period_of_midnight. split; [|by intros ->].
    intros Hk. apply (f_equal Dashboard.date_of) in Hk.
    by rewrite !date_of_midnight in Hk.
  - intros k [v Hk]. rewrite group_sum_lookup in Hk.
    destruct (filter _ _) as [|a sel] eqn:Hsel; [discriminate Hk|].
    assert (a ∈ a :: sel) as Ha by by left.
    rewrite <- Hsel in Ha. apply list_elem_of_filter in Ha as [<- _].
    by rewrite period_of_midnight, date_of_midnight.
Qed.

Lemma outflow_selected_true (start_date end_date : date) (a : Allocation.t) :
  Dashboard.outflow_selected start_date end_date a
  ↔ Cases.exited_within start_date end_date a
    ∧ Allocation.is_active a = false.
Proof.
  unfold Dashboard.outflow_selected, Cases.exited_within.
  destruct (Allocation.exit_date a) as [e|]; [|cbn; tauto].
  rewrite !andb_True, !bool_decide_spec, Is_true_true, negb_true_iff. tauto.
Qed.

Lemma outflows_data_lookup (start_date end_date : date) (period_type : string)
    (allocations : list Allocation.t) (bucket : date) :
  default 0%Qc
    (Dashboard.outflows_data start_date end_date period_type allocations
     !! bucket)
  = Cases.outflow_of_exits start_date end_date period_type allocations bucket.
Proof.
  unfold Dashboard.outflows_data, Cases.outflow_of_exits.
  rewrite flows_lookup, list_filter_filter.
  rewrite (list_filter_iff _
             (fun a => Spec.bucket_of period_type a = bucket
                       ∧ Cases.exited_within start_date end_date a
                       ∧ Allocation.is_active a = false))
    by (intros a; by rewrite outflow_selected_true).
  assert (∀ sel : list Allocation.t,
            (fun a => default 0%Qc
                        (Qcmult (Allocation.quantity a)
                           <$> Allocation.exit_price a)) <$> sel
            = (fun a => Allocation.quantity a
                        * default 0 (Allocation.exit_price a))%Qc <$> sel)
    as Hvalue.
  { intros sel. apply list_fmap_ext. intros _ a _.
    destruct (Allocation.exit_price a); cbn; [reflexivity | ring]. }
  destruct (filter _ allocations) as [|a sel]; [reflexivity|].
  cbn [default from_option id]. by rewrite Hvalue.
Qed.



Lemma flows_empty (period_type : string)
    (value : Allocation.t → option Decimal) (rows : list Allocation.t) :
  Dashboard.dict_by_date
    (Dashboard.ordered_rows
       (Dashboard.group_sum (Dashboard.period_of period_type) value rows))
  = ∅
  ↔ rows = [].
Proof.
  split.
  - intros Hempty. apply elem_of_nil_inv. intros a Ha.
    apply (f_equal (fun dict => dict !! Spec.bucket_of period_type a))
      in Hempty.
    rewrite flows_lookup, lookup_empty in Hempty.
    assert (a ∈ filter (fun a' => Spec.bucket_of period_type a'
                                  = Spec.bucket_of period_type a) rows)
      as Hsel by by apply list_elem_of_filter.
    destruct (filter _ rows); [by apply elem_of_nil in Hsel | discriminate].
  - by intros ->.
Qed.

Lemma filter_selected_nil (selected : Allocation.t → bool)
    (allocations : list Allocation.t) :
  filter selected allocations = []
  ↔ ∀ a, a ∈ allocations → selected a = false.
Proof.
  split.
  - intros Hnil a Ha. destruct (selected a) eqn:Hsel; [|done].
    exfalso. apply (filter_nil_not_elem_of _ _ a Hnil); [|done].
    by rewrite Hsel.
  - intros Hnone. apply elem_of_nil_inv.
    intros a [Hsel Ha]%list_elem_of_filter.
    rewrite (Hnone a Ha) in Hsel. exact Hsel.
Qed.

Lemma combine_unknown_period_type (inflows_data outflows_data : gmap date Decimal)
    (period_type : string) :
  Dashboard.PeriodType_valid period_type = false →
  Dashboard.combine inflows_data outflows_data period_type
  = if decide (inflows_data = ∅ ∧ outflows_data = ∅) then Some [] else None.
Proof.
  intros Hvalid. unfold Dashboard.combine. cbn zeta.
  destruct (Py.sorted (elements (dom inflows_data ∪ dom outflows_data)))
    as [|d buckets] eqn:Hbuckets.
  - rewrite decide_True; [reflexivity|].
    assert (dom inflows_data ∪ dom outflows_data = ∅) as Hdom.
    { apply leibniz_equiv, elements_empty_inv. apply Permutation_nil_r.
      by rewrite <- (sorted_Permutation (elements _)), Hbuckets. }
    apply empty_union_L in Hdom as [Hin Hout].
    split; by apply dom_empty_iff_L.
  - rewrite decide_False.
    + cbn [foldl]. unfold Dashboard.nnm_step at 2.
      cbn [mbind option_bind]. by rewrite Hvalid, nnm_fold_None.
    + intros [-> ->].
      rewrite dom_empty_L, (left_id_L ∅ (∪)), elements_empty in Hbuckets.
      discriminate Hbuckets.
Qed.

(** X19. With a period type that is not one of the response model, the
    net-new-money endpoint answers the empty list when neither query
    selects an allocation, and the status 500 as soon as one of them
    selects one: the first row of the response cannot be built. *)
Theorem unknown_period_type_answer (now : datetime)
    (start_date end_date : option date) (period_type : string)
    (allocations : list Allocation.t) :
  Dashboard.PeriodType_valid period_type = false →
  let first_day := default (Dashboard.date_of now - 365) start_date in
  let last_day := default (Dashboard.date_of now) end_date in
  let selected a :=
    Dashboard.inflow_selected first_day last_day a
    || Dashboard.outflow_selected first_day last_day a in
  ((∀ a, a ∈ allocations → selected a = false) →
   Dashboard.get_net_new_money_history now start_date end_date period_type
     allocations = inr [])
  ∧ ((∃ a, a ∈ allocations ∧ selected a = true) →
     Dashboard.get_net_new_money_history now start_date end_date period_type
       allocations
     = inl (mkHTTPException 500 "Error fetching net new money data")).
Proof.
  intros Hvalid. cbn zeta.
  unfold Dashboard.get_net_new_money_history. cbn zeta.
  rewrite combine_unknown_period_type by done.
  unfold Dashboard.inflows_data, Dashboard.outflows_data.
  case_decide as Hempty.
  - split; [reflexivity|]. intros (a & Ha & Hsel). exfalso.
    destruct Hempty as [Hin Hout].
    apply flows_empty in Hin, Hout.
    rewrite filter_selected_nil in Hin, Hout.
    rewrite (Hin a Ha), (Hout a Ha) in Hsel. discriminate Hsel.
  - split; [|reflexivity]. intros Hnone. exfalso. apply Hempty.
    split; apply flows_empty, filter_selected_nil; intros a Ha;
      specialize (Hnone a Ha); apply orb_false_iff in Hnone; tauto.
Qed.

Lemma unknown_period_type_answer_witness :
  Dashboard.PeriodType_valid "hourly" = false
  ∧ Dashboard.get_net_new_money_history (Dashboard.midnight 100) None None
      "hourly" Examples.flows
    = inl (mkHTTPException 500 "Error fetching net new money data")
  ∧ Dashboard.get_net_new_money_history (Dashboard.midnight 100) None None
      "hourly" [] = inr [].
Proof.
  split; [reflexivity|]. split.
  - apply (unknown_period_type_answer (Dashboard.midnight 100) None None
             "hourly" Examples.flows eq_refl).
    exists (Examples.purchase 1 10 500 true). split; [by left | reflexivity].
  - apply (unknown_period_type_answer (Dashboard.midnight 100) None None
             "hourly" [] eq_refl).
    by intros a ?%elem_of_nil.
Defined.

(** ** Top advisors: ranking and shares *)

Lemma total_revenue_eq (t : Dashboard.Tables) :
  Dashboard.total_revenue t
  = if Py.truthy
         (Py.sum (Dashboard.com_gross_revenue <$> Dashboard.commissions t))
    then Py.sum (Dashboard.com_gross_revenue <$> Dashboard.commissions t)
    else 1%Qc.
Proof.
  unfold Dashboard.total_revenue, Dashboard.sql_sum.
  assert (∀ l : list Decimal, omap id (Some <$> l) = l) as Hsome.
  { induction l as [|x l IH]; [reflexivity|]. cbn. by f_equal. }
  rewrite Hsome.
  destruct (Dashboard.com_gross_revenue <$> Dashboard.commissions t);
    reflexivity.
Qed.

Lemma get_top_advisors_rows (limit : nat) (t : Dashboard.Tables) :
  ∃ response,
    Dashboard.get_top_advisors limit t = inr response
    ∧ Forall2 (fun row m =>
                 Dashboard.top_advisor_metric (Dashboard.total_revenue t) row
                 = Some m)
              (Dashboard.top_advisors_query limit t) response.
Proof.
  unfold Dashboard.get_top_advisors.
  destruct (mapM _ _) as [response|] eqn:Hmap.
  - exists response. split; [reflexivity|]. by apply mapM_Some.
  - exfalso. apply eq_None_not_Some in Hmap. apply Hmap.
    apply mapM_is_Some, Forall_forall. intros row _.
    destruct (top_advisor_metric_Some (Dashboard.total_revenue t) row)
      as (m & Hm & _).
    exists m. exact Hm.
Qed.

Lemma top_advisor_metric_fields (total : Decimal) (row : Dashboard.AdvisorRow)
    (m : Dashboard.TopAdvisorMetric) :
  Dashboard.top_advisor_metric total row = Some m →
  Dashboard.advisor_id m = Dashboard.row_id row
  ∧ Dashboard.advisor_name m = Dashboard.row_name row
  ∧ Dashboard.revenue m = Dashboard.row_revenue row
  ∧ Dashboard.net_new_money m = Dashboard.row_net_new_money row
  ∧ Dashboard.clients_count m = Dashboard.row_clients_count row
  ∧ Dashboard.change_percent m = Py.frac 31 2
  ∧ Dashboard.revenue_percentage m
    = if Py.gt total 0
      then (Dashboard.row_revenue row / total * Py.dec 100)%Qc
      else 0%Qc.
Proof.
  destruct (top_advisor_metric_Some total row) as (m' & Hm' & Hpct).
  rewrite Hm'. intros [= <-]. rewrite Hpct.
  unfold Dashboard.top_advisor_metric in Hm'.
  destruct (if Py.gt total 0 then _ else _) as [pct|]; [|discriminate Hm'].
  cbn in Hm'. by injection Hm' as <-.
Qed.


Lemma ge_revenue_sorted (rows : list Dashboard.AdvisorRow) :
  StronglySorted
    (fun r1 r2 => (Dashboard.row_revenue r2 <= Dashboard.row_revenue r1)%Qc)
    (merge_sort (fun r1 r2 => Py.ge (Dashboard.row_revenue r1)
                                (Dashboard.row_revenue r2))
       rows).
Proof.
  set (R := fun r1 r2 : Dashboard.AdvisorRow =>
              Is_true (Py.ge (Dashboard.row_revenue r1)
                         (Dashboard.row_revenue r2))).
  assert (∀ r1 r2, R r1 r2
                   ↔ (Dashboard.row_revenue r2 <= Dashboard.row_revenue r1)%Qc)
    as HR by (intros r1 r2; unfold R; by rewrite Is_true_true, ge_true).
  assert (Transitive R) as Htrans.
  { intros r1 r2 r3. rewrite !HR. intros H12 H23.
    by eapply Qcle_trans. }
  assert (Total R) as Htotal.
  { intros r1 r2. rewrite !HR.
    destruct (Qclt_le_dec (Dashboard.row_revenue r1)
                (Dashboard.row_revenue r2)) as [Hlt|Hle]; [|by left].
    right. by apply Qclt_le_weak. }
  pose proof (StronglySorted_merge_sort R rows) as Hsorted.
  induction Hsorted as [|r l _ IH Hall]; constructor; [exact IH|].
  eapply Forall_impl; [exact Hall|]. intros r'. apply HR.
Qed.


(** ** Top advisors: the rows of the join *)

Lemma count_succ (n : nat) : Cases.count (S n) = (1 + Cases.count n)%Qc.
Proof.
  unfold Cases.count, Py.dec. apply Qc_is_canon.
  rewrite Nat2Z.inj_succ. unfold Qcplus. cbn [this Q2Qc].
  repeat setoid_rewrite Qred_correct. change (this 1%Qc) with 1%Q.
  unfold Qeq, Qplus, inject_Z. cbn [Qnum Qden]. lia.
Qed.

Lemma count_0 : Cases.count 0 = 0%Qc.
Proof. apply Qc_is_canon. reflexivity. Qed.

Lemma count_add (n m : nat) :
  Cases.count (n + m) = (Cases.count n + Cases.count m)%Qc.
Proof.
  induction n as [|n IH]; cbn [Nat.add].
  - rewrite count_0. ring.
  - rewrite !count_succ, IH. ring.
Qed.

Lemma sql_sum_default (column : list (option Decimal)) :
  default 0%Qc (Dashboard.sql_sum column) = Py.sum (omap id column).
Proof. unfold Dashboard.sql_sum. by destruct (omap id column). Qed.

Lemma bind_pair_fmap {C K L} (c : C) (oks : list K) (g : K → list L) :
  (k ← oks; al ← g k; [(c, k, al)])
  = (fun p : K * L => (c, p.1, p.2)) <$> (k ← oks; al ← g k; [(k, al)]).
Proof.
  induction oks as [|k oks IH]; [reflexivity|].
  rewrite !bind_cons, fmap_app, <- IH. f_equal.
  induction (g k) as [|al als IHal]; [reflexivity|].
  rewrite !bind_cons, fmap_app, <- IHal. reflexivity.
Qed.

Lemma joined_client_join (t : Dashboard.Tables) (a : Dashboard.Advisor) :
  Dashboard.joined t a
  = c ← Dashboard.outer (Cases.commissions_of t a);
    (fun p => (c, p.1, p.2)) <$> Cases.client_join t a.
Proof.
  unfold Dashboard.joined, Cases.client_join.
  apply list_bind_ext; [|reflexivity]. intros c.
  exact (bind_pair_fmap c _ _).
Qed.

Lemma outer_length {A} (matches : list A) :
  length (Dashboard.outer matches) = (1 `max` length matches)%nat.
Proof.
  destruct matches as [|x matches]; [reflexivity|].
  cbn [Dashboard.outer]. by rewrite length_fmap.
Qed.

(** The rows of one client in the join. *)
Lemma client_rows (t : Dashboard.Tables) (k : Dashboard.Client) :
  let rows :=
    al ← Dashboard.outer (Cases.positions_of t k);
    [(Some k, al)] in
  length rows = (1 `max` length (Cases.positions_of t k))%nat
  ∧ length (omap (fun p : option Dashboard.Client * option Allocation.t =>
                    p.1) rows)
    = (1 `max` length (Cases.positions_of t k))%nat
  ∧ omap (fun p : option Dashboard.Client * option Allocation.t =>
            Allocation.total_invested <$> p.2) rows
    = Allocation.total_invested <$> Cases.positions_of t k.
Proof.
  cbn zeta.
  assert (∀ l : list Allocation.t,
            (Some <$> l) ≫= (fun al => [(Some k, al)])
            = (fun al => (Some k, Some al)) <$> l) as Hbind.
  { induction l as [|al l IH]; [reflexivity|].
    rewrite fmap_cons, bind_cons, IH. reflexivity. }
  assert (∀ l : list Allocation.t,
            omap (fun p : option Dashboard.Client * option Allocation.t =>
                    p.1) ((fun al => (Some k, Some al)) <$> l)
            = (fun _ => k) <$> l) as Hfst
    by (induction l as [|x l IH]; [reflexivity | cbn; by f_equal]).
  assert (∀ l : list Allocation.t,
            omap (fun p : option Dashboard.Client * option Allocation.t =>
                    Allocation.total_invested <$> p.2)
                 ((fun al => (Some k, Some al)) <$> l)
            = Allocation.total_invested <$> l) as Hsnd
    by (induction l as [|x l IH]; [reflexivity | cbn; by f_equal]).
  destruct (Cases.positions_of t k) as [|al0 als]; [done|].
  cbn [Dashboard.outer]. rewrite Hbind, Hfst, Hsnd, !length_fmap.
  cbn [length]. split; [lia|]. split; [lia | done].
Qed.

(** The rows of all the clients of an advisor in the join. *)
Lemma client_join_rows (t : Dashboard.Tables) (a : Dashboard.Advisor) :
  length (Cases.client_join t a) = (1 `max` Cases.client_fan t a)%nat
  ∧ length (omap (fun p : option Dashboard.Client * option Allocation.t =>
                    p.1) (Cases.client_join t a))
    = Cases.client_fan t a
  ∧ Py.sum (omap (fun p : option Dashboard.Client * option Allocation.t =>
                    Allocation.total_invested <$> p.2)
                 (Cases.client_join t a))
    = Py.sum (Allocation.total_invested
              <$> (k ← Cases.clients_of t a; Cases.positions_of t k)).
Proof.
  unfold Cases.client_join, Cases.client_fan.
  assert (∀ ks : list Dashboard.Client,
            let rows :=
              k ← Some <$> ks;
              al ← Dashboard.outer (match k with
                                    | Some k' => Cases.positions_of t k'
                                    | None => []
                                    end);
              [(k, al)] in
            let fan :=
              sum_list ((fun k => 1 `max` length (Cases.positions_of t k))%nat
                        <$> ks) in
            length rows = fan
            ∧ length (omap (fun p : option Dashboard.Client
                                    * option Allocation.t => p.1) rows)
              = fan
            ∧ Py.sum (omap (fun p : option Dashboard.Client
                                    * option Allocation.t =>
                              Allocation.total_invested <$> p.2) rows)
              = Py.sum (Allocation.total_invested
                        <$> (k ← ks; Cases.positions_of t k))) as Hks.
  { cbn zeta. induction ks as [|k ks (IHlen & IHfst & IHsum)]; [done|].
    destruct (client_rows t k) as (Hlen & Hfst & Hsum). cbn zeta in *.
    rewrite fmap_cons, !bind_cons, !omap_app, !length_app, fmap_app,
      !sum_app, fmap_cons.
    cbn [sum_list sum_list_with].
    by rewrite Hlen, Hfst, Hsum, IHlen, IHfst, IHsum. }
  destruct (Cases.clients_of t a) as [|k ks] eqn:Hclients; [done|].
  cbn [Dashboard.outer]. destruct (Hks (k :: ks)) as (Hlen & Hfst & Hsum).
  cbn zeta in *. rewrite Hlen, Hfst, Hsum. split; [|done].
  rewrite fmap_cons. cbn [sum_list sum_list_with].
  generalize (sum_list ((fun k => 1 `max` length (Cases.positions_of t k))%nat
                        <$> ks)).
  generalize (length (Cases.positions_of t k)). intros n m.
  unfold id. lia.
Qed.

Lemma omap_cons_eq {A B} (f : A → option B) (x : A) (l : list A) :
  omap f (x :: l)
  = match f x with Some y => y :: omap f l | None => omap f l end.
Proof. reflexivity. Qed.

Lemma commission_rows_revenue (ocs : list (option Dashboard.Commission))
    (rows : list (option Dashboard.Client * option Allocation.t)) :
  Py.sum (omap id
            ((fun r : Dashboard.JoinRow =>
                Dashboard.com_gross_revenue <$> r.1.1)
             <$> (c ← ocs; (fun p => (c, p.1, p.2)) <$> rows)))
  = (Cases.count (length rows)
     * Py.sum (omap (fmap Dashboard.com_gross_revenue) ocs))%Qc.
Proof.
  induction ocs as [|c ocs IH].
  - cbn. change (Py.sum []) with 0%Qc. ring.
  - rewrite bind_cons, fmap_app, omap_app, sum_app, IH. clear IH.
    assert (Py.sum (omap id
                      ((fun r : Dashboard.JoinRow =>
                          Dashboard.com_gross_revenue <$> r.1.1)
                       <$> ((fun p => (c, p.1, p.2)) <$> rows)))
            = (Cases.count (length rows)
               * default 0 (Dashboard.com_gross_revenue <$> c))%Qc) as ->.
    { induction rows as [|p rows IH].
      - cbn. rewrite count_0. change (Py.sum []) with 0%Qc. ring.
      - rewrite !fmap_cons, omap_cons_eq. cbn [length]. rewrite count_succ.
        destruct c as [c|]; cbn [fmap option_fmap option_map fst
                                   default from_option id] in *.
        + rewrite sum_cons, IH. ring.
        + rewrite IH. ring. }
    rewrite omap_cons_eq.
    destruct c as [c|]; cbn [fmap option_fmap option_map
                               default from_option id].
    + rewrite sum_cons. ring.
    + ring.
Qed.

Lemma commission_rows_invested (ocs : list (option Dashboard.Commission))
    (rows : list (option Dashboard.Client * option Allocation.t)) :
  Py.sum (omap id
            ((fun r : Dashboard.JoinRow => Allocation.total_invested <$> r.2)
             <$> (c ← ocs; (fun p => (c, p.1, p.2)) <$> rows)))
  = (Cases.count (length ocs)
     * Py.sum (omap (fun p : option Dashboard.Client * option Allocation.t =>
                       Allocation.total_invested <$> p.2) rows))%Qc.
Proof.
  induction ocs as [|c ocs IH].
  - cbn. rewrite count_0. change (Py.sum []) with 0%Qc. ring.
  - rewrite bind_cons, fmap_app, omap_app, sum_app, IH. clear IH.
    cbn [length]. rewrite count_succ.
    assert (omap id
              ((fun r : Dashboard.JoinRow =>
                  Allocation.total_invested <$> r.2)
               <$> ((fun p => (c, p.1, p.2)) <$> rows))
            = omap (fun p : option Dashboard.Client * option Allocation.t =>
                      Allocation.total_invested <$> p.2) rows) as ->.
    { induction rows as [|p rows IH]; [reflexivity|].
      rewrite !fmap_cons, !omap_cons_eq, IH. reflexivity. }
    ring.
Qed.

Lemma commission_rows_clients (ocs : list (option Dashboard.Commission))
    (rows : list (option Dashboard.Client * option Allocation.t)) :
  length (omap (fun r : Dashboard.JoinRow => r.1.2)
            (c ← ocs; (fun p => (c, p.1, p.2)) <$> rows))
  = (length ocs
     * length (omap (fun p : option Dashboard.Client * option Allocation.t =>
                       p.1) rows))%nat.
Proof.
  induction ocs as [|c ocs IH]; [reflexivity|].
  rewrite bind_cons, omap_app, length_app, IH. clear IH. cbn [length].
  assert (omap (fun r : Dashboard.JoinRow => r.1.2)
            ((fun p => (c, p.1, p.2)) <$> rows)
          = omap (fun p : option Dashboard.Client * option Allocation.t =>
                    p.1) rows) as ->.
  { induction rows as [|p rows IH]; [reflexivity|].
    rewrite !fmap_cons, !omap_cons_eq, IH. reflexivity. }
  lia.
Qed.

Lemma outer_revenue (cs : list Dashboard.Commission) :
  Py.sum (omap (fmap Dashboard.com_gross_revenue) (Dashboard.outer cs))
  = Py.sum (Dashboard.com_gross_revenue <$> cs).
Proof.
  destruct cs as [|c cs]; [reflexivity|]. cbn [Dashboard.outer].
  f_equal. generalize (c :: cs). clear c cs.
  induction l as [|c cs IH]; [reflexivity|]. cbn. by f_equal.
Qed.

(** What the grouped query computes for an advisor. *)
Lemma advisor_row_fan_out (t : Dashboard.Tables) (a : Dashboard.Advisor) :
  Dashboard.row_revenue (Dashboard.advisor_row t a)
  = (Cases.count (1 `max` Cases.client_fan t a)
     * Py.sum (Dashboard.com_gross_revenue <$> Cases.commissions_of t a))%Qc
  ∧ Dashboard.row_net_new_money (Dashboard.advisor_row t a)
    = (Cases.count (Cases.commission_fan t a)
       * Py.sum (Allocation.total_invested
                 <$> (k ← Cases.clients_of t a; Cases.positions_of t k)))%Qc
  ∧ Dashboard.row_clients_count (Dashboard.advisor_row t a)
    = (Cases.commission_fan t a * Cases.client_fan t a)%nat.
Proof.
  destruct (client_join_rows t a) as (Hlen & Hfst & Hsum).
  unfold Dashboard.advisor_row. cbn zeta.
  cbn [Dashboard.row_revenue Dashboard.row_net_new_money
       Dashboard.row_clients_count].
  rewrite !sql_sum_default, joined_client_join.
  rewrite commission_rows_revenue, commission_rows_invested,
    commission_rows_clients.
  rewrite outer_revenue, outer_length, Hlen, Hfst, Hsum. done.
Qed.

